(** * STM32 I2S low-level driver: streaming engine

    A shallow embedding of [drivers/i2s/i2s_ll_stm32.c]: the block queue,
    the per-direction stream state machine, the DMA completion handlers,
    the peripheral error interrupt and the configure/trigger/read/write
    entry points, followed by the properties established about them.

    Conventions.
    - C integers are [Z]; a [uint16_t]/[uint32_t]/[uint8_t] computation has
      its wrap-around written out ([u16], [u32], [u8]).
    - Pointers are [Z] addresses, [NULL] is [0].
    - A C function with out-parameters returns its return code together
      with the written values.
    - Preprocessor options ([CONFIG_...]) are fields of [build_config]; an
      [#ifdef] is an [if] on the field. *)

From Stdlib Require Import ZArith List Bool Lia.
From stdpp Require Import base list.
Import ListNotations.

Local Open Scope Z_scope.

(** Records have primitive projections: a record is equal to the record
    of its fields by computation. *)
#[global] Set Primitive Projections.

(** ** Error numbers (errno.h) *)

Definition EIO : Z := 5.
Definition EAGAIN : Z := 11.
Definition ENOMEM : Z := 12.
Definition EBUSY : Z := 16.
Definition ENODEV : Z := 19.
Definition EINVAL : Z := 22.
Definition ENOSYS : Z := 88.

Definition NULL : Z := 0.

Definition u8 (z : Z) : Z := z mod 256.
Definition u16 (z : Z) : Z := z mod 65536.
Definition u32 (z : Z) : Z := z mod 4294967296.

(** ** Block queue ([struct ring_buf], [queue_get], [queue_put]) *)

(** [struct queue_item { void *mem_block; size_t size; }] *)
Record queue_item := {
  item_mem_block : Z;
  item_size : Z
}.

#[global] Instance queue_item_inhabited : Inhabited queue_item :=
  populate {| item_mem_block := NULL; item_size := 0 |}.

(** [struct ring_buf { struct queue_item *buf; uint16_t len;
    uint16_t head; uint16_t tail; }].  [rb_buf] is the array [buf]
    points to. *)
Record ring_buf := {
  rb_buf : list queue_item;
  rb_len : Z;
  rb_head : Z;
  rb_tail : Z
}.

(** [#define MODULO_INC(val, max) { val = (++val < max) ? val : 0; }]
    on a [uint16_t] lvalue; the result is the new value of [val]. *)
Definition MODULO_INC (val max : Z) : Z :=
  let val' := u16 (val + 1) in
  if val' <? max then val' else 0.

(** [queue_get]: return code, queue afterwards, and the values written
    through [mem_block]/[size] (written only on success). *)
Definition queue_get (rb : ring_buf) : Z * ring_buf * option queue_item :=
  if rb_tail rb =? rb_head rb then
    (* Ring buffer is empty *)
    (- ENOMEM, rb, None)
  else
    let it := rb_buf rb !!! Z.to_nat (rb_tail rb) in
    (0,
     {| rb_buf := rb_buf rb; rb_len := rb_len rb; rb_head := rb_head rb;
        rb_tail := MODULO_INC (rb_tail rb) (rb_len rb) |},
     Some it).

(** [queue_put]: return code and queue afterwards. *)
Definition queue_put (rb : ring_buf) (mem_block size : Z) : Z * ring_buf :=
  let head_next := MODULO_INC (rb_head rb) (rb_len rb) in
  if head_next =? rb_tail rb then
    (* Ring buffer is full *)
    (- ENOMEM, rb)
  else
    (0,
     {| rb_buf := <[Z.to_nat (rb_head rb) :=
                     {| item_mem_block := mem_block; item_size := size |}]>
                  (rb_buf rb);
        rb_len := rb_len rb; rb_head := head_next; rb_tail := rb_tail rb |}).

(** The loop [while (queue_get(q, &mem_block, &size) == 0) { ... }] of
    [rx_queue_drop]/[tx_queue_drop]: the items fetched, in order, and the
    queue afterwards.  [fuel] bounds the number of iterations; [rb_len]
    iterations always suffice ([queue_get_all_drains]). *)
Fixpoint queue_get_loop (fuel : nat) (rb : ring_buf)
  : list queue_item * ring_buf :=
  match fuel with
  | O => ([], rb)
  | S fuel' =>
      match queue_get rb with
      | (_, rb', Some it) =>
          let '(its, rb'') := queue_get_loop fuel' rb' in (it :: its, rb'')
      | (_, rb', None) => ([], rb')
      end
  end.

Definition queue_get_all (rb : ring_buf) : list queue_item * ring_buf :=
  queue_get_loop (Z.to_nat (rb_len rb)) rb.

(** A queue as the driver instantiates it: [buf] is an array of [len]
    items, [len] fits [uint16_t], and both indices are inside the array
    (they start at [0] by static initialisation). *)
Definition ring_buf_wf (rb : ring_buf) : Prop :=
  Z.of_nat (length (rb_buf rb)) = rb_len rb /\
  0 < rb_len rb < 65536 /\
  0 <= rb_head rb < rb_len rb /\
  0 <= rb_tail rb < rb_len rb.

(** Number of entries held: [(head - tail) mod len]. *)
Definition queue_count (rb : ring_buf) : Z :=
  (rb_head rb - rb_tail rb) mod rb_len rb.

(** The entries held, oldest first. *)
Definition queue_contents (rb : ring_buf) : list queue_item :=
  map (fun i => rb_buf rb !!! Z.to_nat ((rb_tail rb + Z.of_nat i) mod rb_len rb))
      (seq 0 (Z.to_nat (queue_count rb))).

(** Sequences of queue operations. *)
Inductive queue_op :=
| OpPut (mem_block size : Z)
| OpGet.

Inductive queue_res :=
| ResPut (ret : Z)
| ResGet (ret : Z) (out : option queue_item).

Fixpoint queue_run (ops : list queue_op) (rb : ring_buf)
  : list queue_res * ring_buf :=
  match ops with
  | [] => ([], rb)
  | OpPut b s :: ops' =>
      let '(ret, rb') := queue_put rb b s in
      let '(rs, rb'') := queue_run ops' rb' in
      (ResPut ret :: rs, rb'')
  | OpGet :: ops' =>
      let '(ret, rb', out) := queue_get rb in
      let '(rs, rb'') := queue_run ops' rb' in
      (ResGet ret out :: rs, rb'')
  end.

(** The pairs given to [queue_put], in call order. *)
Fixpoint puts_of (ops : list queue_op) : list queue_item :=
  match ops with
  | [] => []
  | OpPut b s :: ops' =>
      {| item_mem_block := b; item_size := s |} :: puts_of ops'
  | OpGet :: ops' => puts_of ops'
  end.

(** The pairs returned by the successful [queue_get]s, in call order. *)
Fixpoint gets_of (rs : list queue_res) : list queue_item :=
  match rs with
  | [] => []
  | ResGet _ (Some it) :: rs' => it :: gets_of rs'
  | _ :: rs' => gets_of rs'
  end.

(** Every [queue_put] of the run returned [0]. *)
Fixpoint puts_succeeded (rs : list queue_res) : bool :=
  match rs with
  | [] => true
  | ResPut ret :: rs' => (ret =? 0) && puts_succeeded rs'
  | ResGet _ _ :: rs' => puts_succeeded rs'
  end.

(** The queue of capacity [C]: [C + 1] physical slots, both indices [0]. *)
Definition ring_buf_init (buf : list queue_item) : ring_buf :=
  {| rb_buf := buf; rb_len := Z.of_nat (length buf); rb_head := 0; rb_tail := 0 |}.

(** ** Build configuration

    The preprocessor options the driver is compiled under, the two queue
    capacities, and the constants of [zephyr/drivers/i2s.h] the code
    compares against (that header is outside this file, so its values
    are taken as given). *)
Record build_config := {
  CONFIG_I2S_STM32_FULL_DUPLEX : bool;
  CONFIG_I2S_STM32_RX_OVERRUN_DROP : bool;
  CONFIG_I2S_STM32_TX_UNDERRUN_LAST_REPEAT : bool;
  CONFIG_SOC_SERIES_STM32H7X : bool;
  CONFIG_I2S_STM32_USE_PLLI2S_ENABLE : bool;
  CONFIG_I2S_STM32_RX_BLOCK_COUNT : Z;
  CONFIG_I2S_STM32_TX_BLOCK_COUNT : Z;
  I2S_FMT_DATA_FORMAT_MASK : Z;
  I2S_FMT_DATA_FORMAT_I2S : Z;
  I2S_FMT_DATA_FORMAT_PCM_SHORT : Z;
  I2S_FMT_DATA_FORMAT_PCM_LONG : Z;
  I2S_FMT_DATA_FORMAT_LEFT_JUSTIFIED : Z;
  I2S_FMT_DATA_FORMAT_RIGHT_JUSTIFIED : Z;
  I2S_FMT_CLK_FORMAT_MASK : Z;
  I2S_FMT_BIT_CLK_INV : Z;
  I2S_OPT_BIT_CLK_SLAVE : Z;
  I2S_OPT_FRAME_CLK_SLAVE : Z;
  I2S_OPT_IO_SWAP : Z
}.

Definition PLLI2S_MAX_MS_TIME : Z := 1.
Definition STM32_DMA_NUM_CHANNELS : Z := 8.

(** ** Enumerations *)

(** [enum i2s_state] *)
Inductive i2s_state :=
| I2S_STATE_NOT_READY
| I2S_STATE_READY
| I2S_STATE_RUNNING
| I2S_STATE_STOPPING
| I2S_STATE_ERROR.

#[global] Instance i2s_state_eq_dec : EqDecision i2s_state.
Proof. solve_decision. Defined.

(** [enum i2s_dir]; [I2S_DIR_INVALID] stands for any other value. *)
Inductive i2s_dir :=
| I2S_DIR_RX
| I2S_DIR_TX
| I2S_DIR_BOTH
| I2S_DIR_INVALID.

(** [enum i2s_trigger_cmd]; [I2S_TRIGGER_INVALID] stands for any other
    value (the [default:] branches). *)
Inductive i2s_trigger_cmd :=
| I2S_TRIGGER_START
| I2S_TRIGGER_STOP
| I2S_TRIGGER_DRAIN
| I2S_TRIGGER_DROP
| I2S_TRIGGER_PREPARE
| I2S_TRIGGER_INVALID.

Inductive ll_i2s_mode :=
| LL_I2S_MODE_SLAVE_TX
| LL_I2S_MODE_SLAVE_RX
| LL_I2S_MODE_MASTER_TX
| LL_I2S_MODE_MASTER_RX
| LL_I2S_MODE_SLAVE_FULL_DUPLEX
| LL_I2S_MODE_MASTER_FULL_DUPLEX.

Inductive ll_i2s_dataformat :=
| LL_I2S_DATAFORMAT_16B
| LL_I2S_DATAFORMAT_24B
| LL_I2S_DATAFORMAT_32B.

Inductive ll_i2s_standard :=
| LL_I2S_STANDARD_PHILIPS
| LL_I2S_STANDARD_MSB
| LL_I2S_STANDARD_LSB
| LL_I2S_STANDARD_PCM_SHORT
| LL_I2S_STANDARD_PCM_LONG.

Inductive ll_i2s_polarity :=
| LL_I2S_POLARITY_LOW
| LL_I2S_POLARITY_HIGH.

(** An endpoint of a DMA transfer: a memory block, or the peripheral's
    data register ([RXDR]/[TXDR] on the H7 series, the register returned
    by [LL_SPI_DMA_GetRegAddr] otherwise). *)
Inductive dma_addr :=
| AddrMem (p : Z)
| AddrRXDR
| AddrTXDR
| AddrDR.

(** Which member of [struct i2s_stm32_data] a [struct stream *] points
    to. *)
Inductive sdir := RX | TX.

(** [struct k_sem]: the count and its limit. *)
Record k_sem := {
  sem_count : Z;
  sem_limit : Z
}.

Definition set_sem_count (v : Z) (r : k_sem) : k_sem :=
  {| sem_count := v; sem_limit := sem_limit r |}.

(** [struct i2s_config] (zephyr/drivers/i2s.h); [mem_slab] is the address of
    the application's slab. *)
Record i2s_config := {
  word_size : Z;
  channels : Z;
  format : Z;
  options : Z;
  frame_clk_freq : Z;
  mem_slab : Z;
  block_size : Z;
  timeout : Z
}.

(** [struct stream] (i2s_ll_stm32.h).  The static DMA parameters ([dev_dma],
    [dma_cfg], address increments, FIFO threshold) are not represented;
    the function pointers [stream_start], [stream_disable] and
    [queue_drop] are fixed per direction by [I2S_DMA_CHANNEL_INIT] and
    are rendered by the dispatch functions below. *)
Record stream := {
  state : i2s_state;
  sem : k_sem;
  dma_channel : Z;
  cfg : i2s_config;
  mem_block_queue : ring_buf;
  mem_block : Z;
  mem_block_size : Z;
  last_block : bool;
  master : bool;
  tx_underrun : bool;
  last_mem_block : Z;
  last_mem_block_size : Z
}.

Definition set_state (v : i2s_state) (r : stream) : stream :=
  {| state := v; sem := sem r; dma_channel := dma_channel r;
     cfg := cfg r; mem_block_queue := mem_block_queue r;
     mem_block := mem_block r; mem_block_size := mem_block_size r;
     last_block := last_block r; master := master r;
     tx_underrun := tx_underrun r; last_mem_block := last_mem_block r;
     last_mem_block_size := last_mem_block_size r |}.

Definition set_sem (v : k_sem) (r : stream) : stream :=
  {| state := state r; sem := v; dma_channel := dma_channel r;
     cfg := cfg r; mem_block_queue := mem_block_queue r;
     mem_block := mem_block r; mem_block_size := mem_block_size r;
     last_block := last_block r; master := master r;
     tx_underrun := tx_underrun r; last_mem_block := last_mem_block r;
     last_mem_block_size := last_mem_block_size r |}.

Definition set_cfg (v : i2s_config) (r : stream) : stream :=
  {| state := state r; sem := sem r; dma_channel := dma_channel r;
     cfg := v; mem_block_queue := mem_block_queue r;
     mem_block := mem_block r; mem_block_size := mem_block_size r;
     last_block := last_block r; master := master r;
     tx_underrun := tx_underrun r; last_mem_block := last_mem_block r;
     last_mem_block_size := last_mem_block_size r |}.

Definition set_mem_block_queue (v : ring_buf) (r : stream) : stream :=
  {| state := state r; sem := sem r; dma_channel := dma_channel r;
     cfg := cfg r; mem_block_queue := v; mem_block := mem_block r;
     mem_block_size := mem_block_size r; last_block := last_block r;
     master := master r; tx_underrun := tx_underrun r;
     last_mem_block := last_mem_block r;
     last_mem_block_size := last_mem_block_size r |}.

Definition set_mem_block (v : Z) (r : stream) : stream :=
  {| state := state r; sem := sem r; dma_channel := dma_channel r;
     cfg := cfg r; mem_block_queue := mem_block_queue r; mem_block := v;
     mem_block_size := mem_block_size r; last_block := last_block r;
     master := master r; tx_underrun := tx_underrun r;
     last_mem_block := last_mem_block r;
     last_mem_block_size := last_mem_block_size r |}.

Definition set_mem_block_size (v : Z) (r : stream) : stream :=
  {| state := state r; sem := sem r; dma_channel := dma_channel r;
     cfg := cfg r; mem_block_queue := mem_block_queue r;
     mem_block := mem_block r; mem_block_size := v;
     last_block := last_block r; master := master r;
     tx_underrun := tx_underrun r; last_mem_block := last_mem_block r;
     last_mem_block_size := last_mem_block_size r |}.

Definition set_last_block (v : bool) (r : stream) : stream :=
  {| state := state r; sem := sem r; dma_channel := dma_channel r;
     cfg := cfg r; mem_block_queue := mem_block_queue r;
     mem_block := mem_block r; mem_block_size := mem_block_size r;
     last_block := v; master := master r; tx_underrun := tx_underrun r;
     last_mem_block := last_mem_block r;
     last_mem_block_size := last_mem_block_size r |}.

Definition set_master (v : bool) (r : stream) : stream :=
  {| state := state r; sem := sem r; dma_channel := dma_channel r;
     cfg := cfg r; mem_block_queue := mem_block_queue r;
     mem_block := mem_block r; mem_block_size := mem_block_size r;
     last_block := last_block r; master := v;
     tx_underrun := tx_underrun r; last_mem_block := last_mem_block r;
     last_mem_block_size := last_mem_block_size r |}.

Definition set_tx_underrun (v : bool) (r : stream) : stream :=
  {| state := state r; sem := sem r; dma_channel := dma_channel r;
     cfg := cfg r; mem_block_queue := mem_block_queue r;
     mem_block := mem_block r; mem_block_size := mem_block_size r;
     last_block := last_block r; master := master r; tx_underrun := v;
     last_mem_block := last_mem_block r;
     last_mem_block_size := last_mem_block_size r |}.

Definition set_last_mem_block (v : Z) (r : stream) : stream :=
  {| state := state r; sem := sem r; dma_channel := dma_channel r;
     cfg := cfg r; mem_block_queue := mem_block_queue r;
     mem_block := mem_block r; mem_block_size := mem_block_size r;
     last_block := last_block r; master := master r;
     tx_underrun := tx_underrun r; last_mem_block := v;
     last_mem_block_size := last_mem_block_size r |}.

Definition set_last_mem_block_size (v : Z) (r : stream) : stream :=
  {| state := state r; sem := sem r; dma_channel := dma_channel r;
     cfg := cfg r; mem_block_queue := mem_block_queue r;
     mem_block := mem_block r; mem_block_size := mem_block_size r;
     last_block := last_block r; master := master r;
     tx_underrun := tx_underrun r; last_mem_block := last_mem_block r;
     last_mem_block_size := v |}.

(** The control side of the I2S/SPI peripheral, as seen through the
    [LL_I2S_*]/[LL_SPI_*] accessors the driver calls: transfer mode, DMA
    request lines, error interrupt enables, peripheral enable, master
    transfer (H7) and the error flags of the status register. *)
Record i2s_regs := {
  transfer_mode : ll_i2s_mode;
  dma_req_rx : bool;
  dma_req_tx : bool;
  it_err : bool;
  it_fre : bool;
  it_ovr : bool;
  it_udr : bool;
  i2s_enabled : bool;
  master_transfer : bool;
  flag_ovr : bool;
  flag_udr : bool;
  flag_fre : bool
}.

Definition set_transfer_mode (v : ll_i2s_mode) (r : i2s_regs) : i2s_regs :=
  {| transfer_mode := v; dma_req_rx := dma_req_rx r;
     dma_req_tx := dma_req_tx r; it_err := it_err r; it_fre := it_fre r;
     it_ovr := it_ovr r; it_udr := it_udr r;
     i2s_enabled := i2s_enabled r; master_transfer := master_transfer r;
     flag_ovr := flag_ovr r; flag_udr := flag_udr r;
     flag_fre := flag_fre r |}.

Definition set_dma_req_rx (v : bool) (r : i2s_regs) : i2s_regs :=
  {| transfer_mode := transfer_mode r; dma_req_rx := v;
     dma_req_tx := dma_req_tx r; it_err := it_err r; it_fre := it_fre r;
     it_ovr := it_ovr r; it_udr := it_udr r;
     i2s_enabled := i2s_enabled r; master_transfer := master_transfer r;
     flag_ovr := flag_ovr r; flag_udr := flag_udr r;
     flag_fre := flag_fre r |}.

Definition set_dma_req_tx (v : bool) (r : i2s_regs) : i2s_regs :=
  {| transfer_mode := transfer_mode r; dma_req_rx := dma_req_rx r;
     dma_req_tx := v; it_err := it_err r; it_fre := it_fre r;
     it_ovr := it_ovr r; it_udr := it_udr r;
     i2s_enabled := i2s_enabled r; master_transfer := master_transfer r;
     flag_ovr := flag_ovr r; flag_udr := flag_udr r;
     flag_fre := flag_fre r |}.

Definition set_it_err (v : bool) (r : i2s_regs) : i2s_regs :=
  {| transfer_mode := transfer_mode r; dma_req_rx := dma_req_rx r;
     dma_req_tx := dma_req_tx r; it_err := v; it_fre := it_fre r;
     it_ovr := it_ovr r; it_udr := it_udr r;
     i2s_enabled := i2s_enabled r; master_transfer := master_transfer r;
     flag_ovr := flag_ovr r; flag_udr := flag_udr r;
     flag_fre := flag_fre r |}.

Definition set_it_fre (v : bool) (r : i2s_regs) : i2s_regs :=
  {| transfer_mode := transfer_mode r; dma_req_rx := dma_req_rx r;
     dma_req_tx := dma_req_tx r; it_err := it_err r; it_fre := v;
     it_ovr := it_ovr r; it_udr := it_udr r;
     i2s_enabled := i2s_enabled r; master_transfer := master_transfer r;
     flag_ovr := flag_ovr r; flag_udr := flag_udr r;
     flag_fre := flag_fre r |}.

Definition set_it_ovr (v : bool) (r : i2s_regs) : i2s_regs :=
  {| transfer_mode := transfer_mode r; dma_req_rx := dma_req_rx r;
     dma_req_tx := dma_req_tx r; it_err := it_err r; it_fre := it_fre r;
     it_ovr := v; it_udr := it_udr r; i2s_enabled := i2s_enabled r;
     master_transfer := master_transfer r; flag_ovr := flag_ovr r;
     flag_udr := flag_udr r; flag_fre := flag_fre r |}.

Definition set_it_udr (v : bool) (r : i2s_regs) : i2s_regs :=
  {| transfer_mode := transfer_mode r; dma_req_rx := dma_req_rx r;
     dma_req_tx := dma_req_tx r; it_err := it_err r; it_fre := it_fre r;
     it_ovr := it_ovr r; it_udr := v; i2s_enabled := i2s_enabled r;
     master_transfer := master_transfer r; flag_ovr := flag_ovr r;
     flag_udr := flag_udr r; flag_fre := flag_fre r |}.

Definition set_i2s_enabled (v : bool) (r : i2s_regs) : i2s_regs :=
  {| transfer_mode := transfer_mode r; dma_req_rx := dma_req_rx r;
     dma_req_tx := dma_req_tx r; it_err := it_err r; it_fre := it_fre r;
     it_ovr := it_ovr r; it_udr := it_udr r; i2s_enabled := v;
     master_transfer := master_transfer r; flag_ovr := flag_ovr r;
     flag_udr := flag_udr r; flag_fre := flag_fre r |}.

Definition set_master_transfer (v : bool) (r : i2s_regs) : i2s_regs :=
  {| transfer_mode := transfer_mode r; dma_req_rx := dma_req_rx r;
     dma_req_tx := dma_req_tx r; it_err := it_err r; it_fre := it_fre r;
     it_ovr := it_ovr r; it_udr := it_udr r;
     i2s_enabled := i2s_enabled r; master_transfer := v;
     flag_ovr := flag_ovr r; flag_udr := flag_udr r;
     flag_fre := flag_fre r |}.

Definition set_flag_ovr (v : bool) (r : i2s_regs) : i2s_regs :=
  {| transfer_mode := transfer_mode r; dma_req_rx := dma_req_rx r;
     dma_req_tx := dma_req_tx r; it_err := it_err r; it_fre := it_fre r;
     it_ovr := it_ovr r; it_udr := it_udr r;
     i2s_enabled := i2s_enabled r; master_transfer := master_transfer r;
     flag_ovr := v; flag_udr := flag_udr r; flag_fre := flag_fre r |}.

Definition set_flag_udr (v : bool) (r : i2s_regs) : i2s_regs :=
  {| transfer_mode := transfer_mode r; dma_req_rx := dma_req_rx r;
     dma_req_tx := dma_req_tx r; it_err := it_err r; it_fre := it_fre r;
     it_ovr := it_ovr r; it_udr := it_udr r;
     i2s_enabled := i2s_enabled r; master_transfer := master_transfer r;
     flag_ovr := flag_ovr r; flag_udr := v; flag_fre := flag_fre r |}.

Definition set_flag_fre (v : bool) (r : i2s_regs) : i2s_regs :=
  {| transfer_mode := transfer_mode r; dma_req_rx := dma_req_rx r;
     dma_req_tx := dma_req_tx r; it_err := it_err r; it_fre := it_fre r;
     it_ovr := it_ovr r; it_udr := it_udr r;
     i2s_enabled := i2s_enabled r; master_transfer := master_transfer r;
     flag_ovr := flag_ovr r; flag_udr := flag_udr r; flag_fre := v |}.

(** The format side of the peripheral, written by [i2s_stm32_configure]. *)
Record i2s_format_regs := {
  master_clock : bool;
  io_swap : bool;
  data_format : ll_i2s_dataformat;
  standard : ll_i2s_standard;
  clock_polarity : ll_i2s_polarity;
  prescaler_linear : Z;
  prescaler_parity : Z
}.

Definition set_master_clock (v : bool) (r : i2s_format_regs) : i2s_format_regs :=
  {| master_clock := v; io_swap := io_swap r;
     data_format := data_format r; standard := standard r;
     clock_polarity := clock_polarity r;
     prescaler_linear := prescaler_linear r;
     prescaler_parity := prescaler_parity r |}.

Definition set_io_swap (v : bool) (r : i2s_format_regs) : i2s_format_regs :=
  {| master_clock := master_clock r; io_swap := v;
     data_format := data_format r; standard := standard r;
     clock_polarity := clock_polarity r;
     prescaler_linear := prescaler_linear r;
     prescaler_parity := prescaler_parity r |}.

Definition set_data_format (v : ll_i2s_dataformat) (r : i2s_format_regs) : i2s_format_regs :=
  {| master_clock := master_clock r; io_swap := io_swap r;
     data_format := v; standard := standard r;
     clock_polarity := clock_polarity r;
     prescaler_linear := prescaler_linear r;
     prescaler_parity := prescaler_parity r |}.

Definition set_standard (v : ll_i2s_standard) (r : i2s_format_regs) : i2s_format_regs :=
  {| master_clock := master_clock r; io_swap := io_swap r;
     data_format := data_format r; standard := v;
     clock_polarity := clock_polarity r;
     prescaler_linear := prescaler_linear r;
     prescaler_parity := prescaler_parity r |}.

Definition set_clock_polarity (v : ll_i2s_polarity) (r : i2s_format_regs) : i2s_format_regs :=
  {| master_clock := master_clock r; io_swap := io_swap r;
     data_format := data_format r; standard := standard r;
     clock_polarity := v; prescaler_linear := prescaler_linear r;
     prescaler_parity := prescaler_parity r |}.

Definition set_prescaler_linear (v : Z) (r : i2s_format_regs) : i2s_format_regs :=
  {| master_clock := master_clock r; io_swap := io_swap r;
     data_format := data_format r; standard := standard r;
     clock_polarity := clock_polarity r; prescaler_linear := v;
     prescaler_parity := prescaler_parity r |}.

Definition set_prescaler_parity (v : Z) (r : i2s_format_regs) : i2s_format_regs :=
  {| master_clock := master_clock r; io_swap := io_swap r;
     data_format := data_format r; standard := standard r;
     clock_polarity := clock_polarity r;
     prescaler_linear := prescaler_linear r; prescaler_parity := v |}.

(** One channel of the Transfer Engine: whether a transfer is armed and
    running, and its programmed source, destination and size. *)
Record dma_channel_state := {
  dma_running : bool;
  dma_src : dma_addr;
  dma_dst : dma_addr;
  dma_blk_size : Z
}.

Definition set_dma_running (v : bool) (r : dma_channel_state) : dma_channel_state :=
  {| dma_running := v; dma_src := dma_src r; dma_dst := dma_dst r;
     dma_blk_size := dma_blk_size r |}.

(** The driver instance together with everything it acts on.
    [rx]/[tx] are [struct i2s_stm32_data]; [regs]/[fregs] are [cfg->i2s];
    [dma_rx]/[dma_tx] are the DMA channels of the two streams;
    [active_dma_rx_channel]/[active_dma_tx_channel] are the file-scope
    tables ([true]: the entry holds this device, [false]: [NULL]);
    [slab_free_log] records the [k_mem_slab_free] calls, latest first, as
    (slab, block); [irq_locked] is the interrupt lock; the remaining
    fields are the file-scope counters. *)
Record world := {
  rx : stream;
  tx : stream;
  regs : i2s_regs;
  fregs : i2s_format_regs;
  dma_rx : dma_channel_state;
  dma_tx : dma_channel_state;
  active_dma_rx_channel : list bool;
  active_dma_tx_channel : list bool;
  slab_free_log : list (Z * Z);
  irq_locked : bool;
  i2s_stm32_irq_count : Z;
  i2s_stm32_irq_ovr_count : Z;
  i2s_stm32_irq_udr_count : Z;
  i2s_stm32_irq_fre_count : Z;
  plli2s_ms_count : Z
}.

Definition set_rx (v : stream) (r : world) : world :=
  {| rx := v; tx := tx r; regs := regs r; fregs := fregs r;
     dma_rx := dma_rx r; dma_tx := dma_tx r;
     active_dma_rx_channel := active_dma_rx_channel r;
     active_dma_tx_channel := active_dma_tx_channel r;
     slab_free_log := slab_free_log r; irq_locked := irq_locked r;
     i2s_stm32_irq_count := i2s_stm32_irq_count r;
     i2s_stm32_irq_ovr_count := i2s_stm32_irq_ovr_count r;
     i2s_stm32_irq_udr_count := i2s_stm32_irq_udr_count r;
     i2s_stm32_irq_fre_count := i2s_stm32_irq_fre_count r;
     plli2s_ms_count := plli2s_ms_count r |}.

Definition set_tx (v : stream) (r : world) : world :=
  {| rx := rx r; tx := v; regs := regs r; fregs := fregs r;
     dma_rx := dma_rx r; dma_tx := dma_tx r;
     active_dma_rx_channel := active_dma_rx_channel r;
     active_dma_tx_channel := active_dma_tx_channel r;
     slab_free_log := slab_free_log r; irq_locked := irq_locked r;
     i2s_stm32_irq_count := i2s_stm32_irq_count r;
     i2s_stm32_irq_ovr_count := i2s_stm32_irq_ovr_count r;
     i2s_stm32_irq_udr_count := i2s_stm32_irq_udr_count r;
     i2s_stm32_irq_fre_count := i2s_stm32_irq_fre_count r;
     plli2s_ms_count := plli2s_ms_count r |}.

Definition set_regs (v : i2s_regs) (r : world) : world :=
  {| rx := rx r; tx := tx r; regs := v; fregs := fregs r;
     dma_rx := dma_rx r; dma_tx := dma_tx r;
     active_dma_rx_channel := active_dma_rx_channel r;
     active_dma_tx_channel := active_dma_tx_channel r;
     slab_free_log := slab_free_log r; irq_locked := irq_locked r;
     i2s_stm32_irq_count := i2s_stm32_irq_count r;
     i2s_stm32_irq_ovr_count := i2s_stm32_irq_ovr_count r;
     i2s_stm32_irq_udr_count := i2s_stm32_irq_udr_count r;
     i2s_stm32_irq_fre_count := i2s_stm32_irq_fre_count r;
     plli2s_ms_count := plli2s_ms_count r |}.

Definition set_fregs (v : i2s_format_regs) (r : world) : world :=
  {| rx := rx r; tx := tx r; regs := regs r; fregs := v;
     dma_rx := dma_rx r; dma_tx := dma_tx r;
     active_dma_rx_channel := active_dma_rx_channel r;
     active_dma_tx_channel := active_dma_tx_channel r;
     slab_free_log := slab_free_log r; irq_locked := irq_locked r;
     i2s_stm32_irq_count := i2s_stm32_irq_count r;
     i2s_stm32_irq_ovr_count := i2s_stm32_irq_ovr_count r;
     i2s_stm32_irq_udr_count := i2s_stm32_irq_udr_count r;
     i2s_stm32_irq_fre_count := i2s_stm32_irq_fre_count r;
     plli2s_ms_count := plli2s_ms_count r |}.

Definition set_dma_rx (v : dma_channel_state) (r : world) : world :=
  {| rx := rx r; tx := tx r; regs := regs r; fregs := fregs r;
     dma_rx := v; dma_tx := dma_tx r;
     active_dma_rx_channel := active_dma_rx_channel r;
     active_dma_tx_channel := active_dma_tx_channel r;
     slab_free_log := slab_free_log r; irq_locked := irq_locked r;
     i2s_stm32_irq_count := i2s_stm32_irq_count r;
     i2s_stm32_irq_ovr_count := i2s_stm32_irq_ovr_count r;
     i2s_stm32_irq_udr_count := i2s_stm32_irq_udr_count r;
     i2s_stm32_irq_fre_count := i2s_stm32_irq_fre_count r;
     plli2s_ms_count := plli2s_ms_count r |}.

Definition set_dma_tx (v : dma_channel_state) (r : world) : world :=
  {| rx := rx r; tx := tx r; regs := regs r; fregs := fregs r;
     dma_rx := dma_rx r; dma_tx := v;
     active_dma_rx_channel := active_dma_rx_channel r;
     active_dma_tx_channel := active_dma_tx_channel r;
     slab_free_log := slab_free_log r; irq_locked := irq_locked r;
     i2s_stm32_irq_count := i2s_stm32_irq_count r;
     i2s_stm32_irq_ovr_count := i2s_stm32_irq_ovr_count r;
     i2s_stm32_irq_udr_count := i2s_stm32_irq_udr_count r;
     i2s_stm32_irq_fre_count := i2s_stm32_irq_fre_count r;
     plli2s_ms_count := plli2s_ms_count r |}.

Definition set_active_dma_rx_channel (v : list bool) (r : world) : world :=
  {| rx := rx r; tx := tx r; regs := regs r; fregs := fregs r;
     dma_rx := dma_rx r; dma_tx := dma_tx r; active_dma_rx_channel := v;
     active_dma_tx_channel := active_dma_tx_channel r;
     slab_free_log := slab_free_log r; irq_locked := irq_locked r;
     i2s_stm32_irq_count := i2s_stm32_irq_count r;
     i2s_stm32_irq_ovr_count := i2s_stm32_irq_ovr_count r;
     i2s_stm32_irq_udr_count := i2s_stm32_irq_udr_count r;
     i2s_stm32_irq_fre_count := i2s_stm32_irq_fre_count r;
     plli2s_ms_count := plli2s_ms_count r |}.

Definition set_active_dma_tx_channel (v : list bool) (r : world) : world :=
  {| rx := rx r; tx := tx r; regs := regs r; fregs := fregs r;
     dma_rx := dma_rx r; dma_tx := dma_tx r;
     active_dma_rx_channel := active_dma_rx_channel r;
     active_dma_tx_channel := v; slab_free_log := slab_free_log r;
     irq_locked := irq_locked r;
     i2s_stm32_irq_count := i2s_stm32_irq_count r;
     i2s_stm32_irq_ovr_count := i2s_stm32_irq_ovr_count r;
     i2s_stm32_irq_udr_count := i2s_stm32_irq_udr_count r;
     i2s_stm32_irq_fre_count := i2s_stm32_irq_fre_count r;
     plli2s_ms_count := plli2s_ms_count r |}.

Definition set_slab_free_log (v : list (Z * Z)) (r : world) : world :=
  {| rx := rx r; tx := tx r; regs := regs r; fregs := fregs r;
     dma_rx := dma_rx r; dma_tx := dma_tx r;
     active_dma_rx_channel := active_dma_rx_channel r;
     active_dma_tx_channel := active_dma_tx_channel r;
     slab_free_log := v; irq_locked := irq_locked r;
     i2s_stm32_irq_count := i2s_stm32_irq_count r;
     i2s_stm32_irq_ovr_count := i2s_stm32_irq_ovr_count r;
     i2s_stm32_irq_udr_count := i2s_stm32_irq_udr_count r;
     i2s_stm32_irq_fre_count := i2s_stm32_irq_fre_count r;
     plli2s_ms_count := plli2s_ms_count r |}.

Definition set_irq_locked (v : bool) (r : world) : world :=
  {| rx := rx r; tx := tx r; regs := regs r; fregs := fregs r;
     dma_rx := dma_rx r; dma_tx := dma_tx r;
     active_dma_rx_channel := active_dma_rx_channel r;
     active_dma_tx_channel := active_dma_tx_channel r;
     slab_free_log := slab_free_log r; irq_locked := v;
     i2s_stm32_irq_count := i2s_stm32_irq_count r;
     i2s_stm32_irq_ovr_count := i2s_stm32_irq_ovr_count r;
     i2s_stm32_irq_udr_count := i2s_stm32_irq_udr_count r;
     i2s_stm32_irq_fre_count := i2s_stm32_irq_fre_count r;
     plli2s_ms_count := plli2s_ms_count r |}.

Definition set_i2s_stm32_irq_count (v : Z) (r : world) : world :=
  {| rx := rx r; tx := tx r; regs := regs r; fregs := fregs r;
     dma_rx := dma_rx r; dma_tx := dma_tx r;
     active_dma_rx_channel := active_dma_rx_channel r;
     active_dma_tx_channel := active_dma_tx_channel r;
     slab_free_log := slab_free_log r; irq_locked := irq_locked r;
     i2s_stm32_irq_count := v;
     i2s_stm32_irq_ovr_count := i2s_stm32_irq_ovr_count r;
     i2s_stm32_irq_udr_count := i2s_stm32_irq_udr_count r;
     i2s_stm32_irq_fre_count := i2s_stm32_irq_fre_count r;
     plli2s_ms_count := plli2s_ms_count r |}.

Definition set_i2s_stm32_irq_ovr_count (v : Z) (r : world) : world :=
  {| rx := rx r; tx := tx r; regs := regs r; fregs := fregs r;
     dma_rx := dma_rx r; dma_tx := dma_tx r;
     active_dma_rx_channel := active_dma_rx_channel r;
     active_dma_tx_channel := active_dma_tx_channel r;
     slab_free_log := slab_free_log r; irq_locked := irq_locked r;
     i2s_stm32_irq_count := i2s_stm32_irq_count r;
     i2s_stm32_irq_ovr_count := v;
     i2s_stm32_irq_udr_count := i2s_stm32_irq_udr_count r;
     i2s_stm32_irq_fre_count := i2s_stm32_irq_fre_count r;
     plli2s_ms_count := plli2s_ms_count r |}.

Definition set_i2s_stm32_irq_udr_count (v : Z) (r : world) : world :=
  {| rx := rx r; tx := tx r; regs := regs r; fregs := fregs r;
     dma_rx := dma_rx r; dma_tx := dma_tx r;
     active_dma_rx_channel := active_dma_rx_channel r;
     active_dma_tx_channel := active_dma_tx_channel r;
     slab_free_log := slab_free_log r; irq_locked := irq_locked r;
     i2s_stm32_irq_count := i2s_stm32_irq_count r;
     i2s_stm32_irq_ovr_count := i2s_stm32_irq_ovr_count r;
     i2s_stm32_irq_udr_count := v;
     i2s_stm32_irq_fre_count := i2s_stm32_irq_fre_count r;
     plli2s_ms_count := plli2s_ms_count r |}.

Definition set_i2s_stm32_irq_fre_count (v : Z) (r : world) : world :=
  {| rx := rx r; tx := tx r; regs := regs r; fregs := fregs r;
     dma_rx := dma_rx r; dma_tx := dma_tx r;
     active_dma_rx_channel := active_dma_rx_channel r;
     active_dma_tx_channel := active_dma_tx_channel r;
     slab_free_log := slab_free_log r; irq_locked := irq_locked r;
     i2s_stm32_irq_count := i2s_stm32_irq_count r;
     i2s_stm32_irq_ovr_count := i2s_stm32_irq_ovr_count r;
     i2s_stm32_irq_udr_count := i2s_stm32_irq_udr_count r;
     i2s_stm32_irq_fre_count := v; plli2s_ms_count := plli2s_ms_count r |}.

Definition set_plli2s_ms_count (v : Z) (r : world) : world :=
  {| rx := rx r; tx := tx r; regs := regs r; fregs := fregs r;
     dma_rx := dma_rx r; dma_tx := dma_tx r;
     active_dma_rx_channel := active_dma_rx_channel r;
     active_dma_tx_channel := active_dma_tx_channel r;
     slab_free_log := slab_free_log r; irq_locked := irq_locked r;
     i2s_stm32_irq_count := i2s_stm32_irq_count r;
     i2s_stm32_irq_ovr_count := i2s_stm32_irq_ovr_count r;
     i2s_stm32_irq_udr_count := i2s_stm32_irq_udr_count r;
     i2s_stm32_irq_fre_count := i2s_stm32_irq_fre_count r;
     plli2s_ms_count := v |}.

(** ** External collaborators *)

(** Modelled from the spec: the kernel's counting semaphore ([k_sem]),
    the Flow semaphore of section 4.2.  [k_sem_give] increments up to the
    limit; [k_sem_take] decrements a positive count and otherwise fails
    after the timeout ([-EBUSY] without waiting, [-EAGAIN] on expiry: no
    other context runs inside one call of the model); [k_sem_reset]
    empties the count. *)
Definition k_sem_init (initial_count limit : Z) : k_sem :=
  {| sem_count := initial_count; sem_limit := limit |}.

Definition k_sem_give (s : k_sem) : k_sem :=
  if sem_count s <? sem_limit s then set_sem_count (sem_count s + 1) s else s.

Definition k_sem_take (s : k_sem) (timeout : Z) : Z * k_sem :=
  if 0 <? sem_count s then (0, set_sem_count (sem_count s - 1) s)
  else if timeout =? 0 then (- EBUSY, s)
  else (- EAGAIN, s).

Definition k_sem_reset (s : k_sem) : k_sem := set_sem_count 0 s.

(** The answers of the external collaborators during one entry into the
    driver: the Block Pool ([k_mem_slab_alloc] with [K_NO_WAIT] on the
    stream's slab: a block, or [None] for failure), the return codes of
    the Transfer Engine ([dma_config], [dma_start], [dma_reload]) per
    stream, and what [i2s_stm32_set_clock] and [i2s_stm32_initialize]
    obtain from the clock tree, pin control and device model.  Within one
    entry each of these is asked at most once per stream. *)
Record env := {
  env_slab_alloc : sdir -> option Z;
  env_dma_config : sdir -> Z;
  env_dma_start : sdir -> Z;
  env_dma_reload : sdir -> Z;
  env_freq_in : Z;
  env_plli2s_polls : nat;
  env_clk_ready : bool;
  env_clock_control_on : Z;
  env_pinctrl_apply_state : Z;
  env_dma_ready : sdir -> bool
}.

Section Driver.

Context (bc : build_config).

(** ** Access paths *)

Definition get_stream (d : sdir) (w : world) : stream :=
  match d with RX => rx w | TX => tx w end.

Definition set_stream (d : sdir) (s : stream) (w : world) : world :=
  match d with RX => set_rx s w | TX => set_tx s w end.

Definition upd_stream (d : sdir) (f : stream -> stream) (w : world) : world :=
  set_stream d (f (get_stream d w)) w.

Definition upd_regs (f : i2s_regs -> i2s_regs) (w : world) : world :=
  set_regs (f (regs w)) w.

Definition upd_fregs (f : i2s_format_regs -> i2s_format_regs) (w : world) : world :=
  set_fregs (f (fregs w)) w.

Definition get_dma (d : sdir) (w : world) : dma_channel_state :=
  match d with RX => dma_rx w | TX => dma_tx w end.

Definition set_dma (d : sdir) (c : dma_channel_state) (w : world) : world :=
  match d with RX => set_dma_rx c w | TX => set_dma_tx c w end.

(** ** Kernel and hardware primitives *)

(** [irq_lock]/[irq_unlock]: the key is the previous lock state.  (The
    lock/unlock pairs inside [queue_get] and [queue_put] restore the
    state they found and are not shown there.) *)
Definition irq_lock (w : world) : bool * world :=
  (irq_locked w, set_irq_locked true w).

Definition irq_unlock (key : bool) (w : world) : world :=
  set_irq_locked key w.

(** Modelled from the spec: the Block Pool's [free(block)]
    ([k_mem_slab_free]); the call is recorded. *)
Definition k_mem_slab_free (slab mem : Z) (w : world) : world :=
  set_slab_free_log ((slab, mem) :: slab_free_log w) w.

(** Modelled from the spec: the Transfer Engine, [start|reload|stop
    (source, dest, size)].  A call that the engine rejects (negative
    return code) leaves the channel as it was. *)
Definition dma_stop (d : sdir) (w : world) : world :=
  set_dma d (set_dma_running false (get_dma d w)) w.

Definition dma_start (d : sdir) (e : env) (w : world) : Z * world :=
  let ret := env_dma_start e d in
  if ret <? 0 then (ret, w)
  else (ret, set_dma d (set_dma_running true (get_dma d w)) w).

Definition dma_program (d : sdir) (src dst : dma_addr) (blk_size : Z)
    (w : world) : world :=
  set_dma d {| dma_running := dma_running (get_dma d w); dma_src := src;
               dma_dst := dst; dma_blk_size := blk_size |} w.

Definition dma_reload (d : sdir) (src dst : dma_addr) (blk_size : Z)
    (e : env) (w : world) : Z * world :=
  let ret := env_dma_reload e d in
  if ret <? 0 then (ret, w) else (ret, dma_program d src dst blk_size w).

Definition dma_config (d : sdir) (src dst : dma_addr) (blk_size : Z)
    (e : env) (w : world) : Z * world :=
  let ret := env_dma_config e d in
  if ret <? 0 then (ret, w) else (ret, dma_program d src dst blk_size w).

(** Register accessors. *)
Definition LL_I2S_GetTransferMode (w : world) : ll_i2s_mode :=
  transfer_mode (regs w).
Definition LL_I2S_SetTransferMode (m : ll_i2s_mode) : world -> world :=
  upd_regs (set_transfer_mode m).
Definition LL_I2S_EnableDMAReq_RX : world -> world := upd_regs (set_dma_req_rx true).
Definition LL_I2S_DisableDMAReq_RX : world -> world := upd_regs (set_dma_req_rx false).
Definition LL_I2S_EnableDMAReq_TX : world -> world := upd_regs (set_dma_req_tx true).
Definition LL_I2S_DisableDMAReq_TX : world -> world := upd_regs (set_dma_req_tx false).
Definition LL_I2S_Enable : world -> world := upd_regs (set_i2s_enabled true).
Definition LL_I2S_Disable : world -> world := upd_regs (set_i2s_enabled false).
Definition LL_SPI_StartMasterTransfer : world -> world :=
  upd_regs (set_master_transfer true).
Definition LL_SPI_SuspendMasterTransfer : world -> world :=
  upd_regs (set_master_transfer false).

(** The block
    [#ifdef CONFIG_SOC_SERIES_STM32H7X  LL_I2S_EnableIT_FRE/OVR/UDR
     #else LL_I2S_EnableIT_ERR #endif] and its disabling counterpart. *)
Definition enable_error_interrupts (w : world) : world :=
  if CONFIG_SOC_SERIES_STM32H7X bc then
    upd_regs (set_it_udr true) (upd_regs (set_it_ovr true) (upd_regs (set_it_fre true) w))
  else upd_regs (set_it_err true) w.

Definition disable_error_interrupts (w : world) : world :=
  if CONFIG_SOC_SERIES_STM32H7X bc then
    upd_regs (set_it_udr false) (upd_regs (set_it_ovr false) (upd_regs (set_it_fre false) w))
  else upd_regs (set_it_err false) w.

Definition suspend_master_transfer_h7 (w : world) : world :=
  if CONFIG_SOC_SERIES_STM32H7X bc then LL_SPI_SuspendMasterTransfer w else w.

Definition start_master_transfer_h7 (w : world) : world :=
  if CONFIG_SOC_SERIES_STM32H7X bc then LL_SPI_StartMasterTransfer w else w.

Definition rx_data_reg : dma_addr :=
  if CONFIG_SOC_SERIES_STM32H7X bc then AddrRXDR else AddrDR.

Definition tx_data_reg : dma_addr :=
  if CONFIG_SOC_SERIES_STM32H7X bc then AddrTXDR else AddrDR.

Definition is_full_duplex_mode (m : ll_i2s_mode) : bool :=
  match m with
  | LL_I2S_MODE_MASTER_FULL_DUPLEX | LL_I2S_MODE_SLAVE_FULL_DUPLEX => true
  | _ => false
  end.

(** [i2s_cfg->options & I2S_OPT_FRAME_CLK_SLAVE ||
     i2s_cfg->options & I2S_OPT_BIT_CLK_SLAVE] *)
Definition clk_slave (i2s_cfg : i2s_config) : bool :=
  negb (Z.land (options i2s_cfg) (I2S_OPT_FRAME_CLK_SLAVE bc) =? 0) ||
  negb (Z.land (options i2s_cfg) (I2S_OPT_BIT_CLK_SLAVE bc) =? 0).

(** ** DMA helpers *)

Definition reload_dma (d : sdir) (src dst : dma_addr) (blk_size : Z)
    (e : env) (w : world) : Z * world :=
  let '(ret, w1) := dma_reload d src dst blk_size e w in
  if ret <? 0 then (ret, w1) else dma_start d e w1.

Definition start_dma (d : sdir) (src dst : dma_addr) (blk_size : Z)
    (e : env) (w : world) : Z * world :=
  let '(ret, w1) := dma_config d src dst blk_size e w in
  if ret <? 0 then (ret, w1) else dma_start d e w1.

Definition get_dev_from_rx_dma_channel (dma_channel : Z) (w : world) : bool :=
  default false (active_dma_rx_channel w !! Z.to_nat dma_channel).

Definition get_dev_from_tx_dma_channel (dma_channel : Z) (w : world) : bool :=
  default false (active_dma_tx_channel w !! Z.to_nat dma_channel).

(** ** Stream disable *)

(** [if (stream->mem_block != NULL) { k_mem_slab_free(...);
    stream->mem_block = NULL; }] *)
Definition release_mem_block (d : sdir) (w : world) : world :=
  let s := get_stream d w in
  if mem_block s =? NULL then w
  else upd_stream d (set_mem_block NULL)
         (k_mem_slab_free (mem_slab (cfg s)) (mem_block s) w).

Definition rx_stream_disable (d : sdir) (w : world) : world :=
  let w := suspend_master_transfer_h7 w in
  let w := LL_I2S_DisableDMAReq_RX w in
  let w := disable_error_interrupts w in
  let w := dma_stop d w in
  let w := release_mem_block d w in
  let w := LL_I2S_Disable w in
  set_active_dma_rx_channel
    (<[Z.to_nat (dma_channel (get_stream d w)) := false]> (active_dma_rx_channel w)) w.

Definition tx_stream_disable (d : sdir) (w : world) : world :=
  let w := suspend_master_transfer_h7 w in
  let w := LL_I2S_DisableDMAReq_TX w in
  let w := disable_error_interrupts w in
  let w := dma_stop d w in
  let w := release_mem_block d w in
  let w :=
    if CONFIG_I2S_STM32_TX_UNDERRUN_LAST_REPEAT bc then
      k_mem_slab_free (mem_slab (cfg (get_stream d w)))
        (last_mem_block (get_stream d w)) w
    else w in
  let w := LL_I2S_Disable w in
  set_active_dma_tx_channel
    (<[Z.to_nat (dma_channel (get_stream d w)) := false]> (active_dma_tx_channel w)) w.

Definition full_duplex_stream_disable (w : world) : world :=
  let w := suspend_master_transfer_h7 w in
  let w := LL_I2S_DisableDMAReq_RX w in
  let w := LL_I2S_DisableDMAReq_TX w in
  let w := disable_error_interrupts w in
  let w := dma_stop RX w in
  let w := release_mem_block RX w in
  let w := dma_stop TX w in
  let w := release_mem_block TX w in
  let w :=
    if CONFIG_I2S_STM32_TX_UNDERRUN_LAST_REPEAT bc then
      k_mem_slab_free (mem_slab (cfg (tx w))) (last_mem_block (tx w)) w
    else w in
  let w := LL_I2S_Disable w in
  let w := set_active_dma_rx_channel
    (<[Z.to_nat (dma_channel (rx w)) := false]> (active_dma_rx_channel w)) w in
  set_active_dma_tx_channel
    (<[Z.to_nat (dma_channel (tx w)) := false]> (active_dma_tx_channel w)) w.

(** ** Queue drop *)

(** The loop [while (queue_get(...) == 0) { k_mem_slab_free(...); }]:
    [queue_get_all] gives the fetched items and the queue afterwards
    ([r.1], [r.2]); every fetched block is freed, in fetch order. *)
Definition free_items (slab : Z) (its : list queue_item) (w : world) : world :=
  fold_left (fun w it => k_mem_slab_free slab (item_mem_block it) w) its w.

Definition rx_queue_drop (d : sdir) (w : world) : world :=
  let s := get_stream d w in
  let r := queue_get_all (mem_block_queue s) in
  let w := upd_stream d (set_mem_block_queue r.2) w in
  let w := free_items (mem_slab (cfg s)) r.1 w in
  upd_stream d (fun s => set_sem (k_sem_reset (sem s)) s) w.

Definition tx_queue_drop (d : sdir) (w : world) : world :=
  let s := get_stream d w in
  let r := queue_get_all (mem_block_queue s) in
  let w := upd_stream d (set_mem_block_queue r.2) w in
  let w := free_items (mem_slab (cfg s)) r.1 w in
  let w :=
    if CONFIG_I2S_STM32_TX_UNDERRUN_LAST_REPEAT bc then
      k_mem_slab_free (mem_slab (cfg s)) (last_mem_block s) w
    else w in
  (* for (; n > 0; n--) k_sem_give(&stream->sem); *)
  upd_stream d (fun s => set_sem (Nat.iter (length r.1) k_sem_give (sem s)) s) w.

(** [stream->stream_disable], [stream->queue_drop]: the members are set
    by [I2S_DMA_CHANNEL_INIT] to the [rx_]/[tx_] functions. *)
Definition stream_disable (d : sdir) (w : world) : world :=
  match d with RX => rx_stream_disable RX w | TX => tx_stream_disable TX w end.

Definition queue_drop (d : sdir) (w : world) : world :=
  match d with RX => rx_queue_drop RX w | TX => tx_queue_drop TX w end.

Definition full_duplex_queue_drop (w : world) : world :=
  queue_drop TX (queue_drop RX w).

(** ** DMA completion handlers (interrupt context) *)

(** The code after the label [rx_disable:] of [dma_rx_callback]. *)
Definition rx_disable_label (w : world) : world :=
  if CONFIG_I2S_STM32_FULL_DUPLEX bc then
    if is_full_duplex_mode (LL_I2S_GetTransferMode w) then
      full_duplex_stream_disable (upd_stream TX (set_state I2S_STATE_ERROR) w)
    else rx_stream_disable RX w
  else rx_stream_disable RX w.

(** The code after the label [tx_disable:] of [dma_tx_callback]. *)
Definition tx_disable_label (w : world) : world :=
  if CONFIG_I2S_STM32_FULL_DUPLEX bc then
    if is_full_duplex_mode (LL_I2S_GetTransferMode w) then
      full_duplex_stream_disable (upd_stream RX (set_state I2S_STATE_ERROR) w)
    else tx_stream_disable TX w
  else tx_stream_disable TX w.

(** [dma_rx_callback] is given in three parts, cut where the code
    consumes the result of [reload_dma] and of [queue_put].

    Last part, from "All block data received": [r] is what [queue_put]
    returned (code [r.1], queue [r.2]) and [mblk_tmp] the completed
    block.  [rx_overrun] is the flag of the drop policy, which only
    exists, and is only set, under [CONFIG_I2S_STM32_RX_OVERRUN_DROP]. *)
Definition dma_rx_callback_queued (r : Z * ring_buf) (mblk_tmp : Z)
    (w : world) : world :=
  let w := upd_stream RX (set_mem_block_queue r.2) w in
  let rx_overrun :=
    CONFIG_I2S_STM32_RX_OVERRUN_DROP bc && (r.1 =? - ENOMEM) in
  let w :=
    if rx_overrun
    then k_mem_slab_free (mem_slab (cfg (rx w))) mblk_tmp w
    else w in
  let ret := if rx_overrun then 0 else r.1 in
  if ret <? 0 then
    rx_disable_label (upd_stream RX (set_state I2S_STATE_ERROR) w)
  else
    let w :=
      if rx_overrun then w
      else upd_stream RX (fun s => set_sem (k_sem_give (sem s)) s) w in
    (* Stop reception if we were requested *)
    match state (rx w) with
    | I2S_STATE_STOPPING =>
        rx_disable_label (upd_stream RX (set_state I2S_STATE_READY) w)
    | _ => w
    end.

(** Middle part: [p] is what [reload_dma] returned (code and world). *)
Definition dma_rx_callback_reloaded (mblk_tmp : Z) (p : Z * world) : world :=
  let '(ret, w) := p in
  if ret <? 0 then rx_disable_label w
  else
    (* All block data received *)
    dma_rx_callback_queued
      (queue_put (mem_block_queue (rx w)) mblk_tmp (block_size (cfg (rx w))))
      mblk_tmp w.

(** First part, from the point where [dev] has been looked up.  A failed
    [k_mem_slab_alloc] stores [NULL] through its out-parameter;
    [__ASSERT_NO_MSG] is compiled out. *)
Definition dma_rx_callback_body (status : Z) (e : env) (w : world) : world :=
  if negb (status =? 0) then
    rx_disable_label (upd_stream RX (set_state I2S_STATE_ERROR) w)
  else
    match state (rx w) with
    | I2S_STATE_ERROR =>
        (* Stop reception if there was an error *)
        rx_disable_label w
    | _ =>
        let mblk_tmp := mem_block (rx w) in
        (* Prepare to receive the next data block *)
        match env_slab_alloc e RX with
        | None =>
            rx_disable_label
              (upd_stream RX (set_state I2S_STATE_ERROR)
                 (upd_stream RX (set_mem_block NULL) w))
        | Some blk =>
            let w := upd_stream RX (set_mem_block blk) w in
            dma_rx_callback_reloaded mblk_tmp
              (reload_dma RX rx_data_reg (AddrMem (mem_block (rx w)))
                 (block_size (cfg (rx w))) e w)
        end
    end.

(** [dma_rx_callback]: [dev] is read from [active_dma_rx_channel]; with a
    [NULL] entry the handler dereferences a null pointer ([None]). *)
Definition dma_rx_callback (channel status : Z) (e : env) (w : world)
  : option world :=
  if get_dev_from_rx_dma_channel channel w
  then Some (dma_rx_callback_body status e w)
  else None.

(** [dma_tx_callback], likewise in parts.

    "All block data sent": the block is freed, or under
    [CONFIG_I2S_STM32_TX_UNDERRUN_LAST_REPEAT] kept as the last block
    unless it already is the repeated one; then [mem_block] is cleared. *)
Definition tx_block_sent (w : world) : world :=
  let w :=
    if CONFIG_I2S_STM32_TX_UNDERRUN_LAST_REPEAT bc then
      if tx_underrun (tx w) then w
      else
        let w := k_mem_slab_free (mem_slab (cfg (tx w))) (last_mem_block (tx w)) w in
        let w := upd_stream TX (set_last_mem_block (mem_block (tx w))) w in
        upd_stream TX (set_last_mem_block_size (mem_block_size (tx w))) w
    else k_mem_slab_free (mem_slab (cfg (tx w))) (mem_block (tx w)) w in
  let w := upd_stream TX (set_mem_block NULL) w in
  upd_stream TX (set_mem_block_size 0) w.

(** After [reload_dma]: [p] is its result. *)
Definition dma_tx_callback_reloaded (p : Z * world) : world :=
  let '(ret, w) := p in
  if ret <? 0 then tx_disable_label w else w.

(** From "Prepare to send the next data block": [r] is what [queue_get]
    returned (code [r.1.1], queue [r.1.2], fetched item [r.2]). *)
Definition dma_tx_callback_fetched (r : Z * ring_buf * option queue_item)
    (e : env) (w : world) : world :=
  let w := upd_stream TX (set_mem_block_queue r.1.2) w in
  let w :=
    match r.2 with
    | Some it =>
        upd_stream TX (set_mem_block_size (item_size it))
          (upd_stream TX (set_mem_block (item_mem_block it)) w)
    | None => w
    end in
  let '(ret, w) :=
    if CONFIG_I2S_STM32_TX_UNDERRUN_LAST_REPEAT bc then
      if r.1.1 =? - ENOMEM then
        let w := upd_stream TX (set_mem_block (last_mem_block (tx w))) w in
        let w := upd_stream TX (set_mem_block_size (last_mem_block_size (tx w))) w in
        (0, upd_stream TX (set_tx_underrun true) w)
      else if r.1.1 =? 0 then (r.1.1, upd_stream TX (set_tx_underrun false) w)
      else (r.1.1, w)
    else (r.1.1, w) in
  if ret <? 0 then
    match state (tx w) with
    | I2S_STATE_STOPPING =>
        tx_disable_label (upd_stream TX (set_state I2S_STATE_READY) w)
    | _ =>
        tx_disable_label (upd_stream TX (set_state I2S_STATE_ERROR) w)
    end
  else
    let w :=
      if CONFIG_I2S_STM32_TX_UNDERRUN_LAST_REPEAT bc && tx_underrun (tx w) then w
      else upd_stream TX (fun s => set_sem (k_sem_give (sem s)) s) w in
    dma_tx_callback_reloaded
      (reload_dma TX (AddrMem (mem_block (tx w))) tx_data_reg
         (block_size (cfg (tx w))) e w).

(** After the block has been accounted for. *)
Definition dma_tx_callback_sent (e : env) (w : world) : world :=
  match state (tx w) with
  | I2S_STATE_ERROR =>
      (* Stop transmission if there was an error *)
      tx_disable_label w
  | _ =>
      if last_block (tx w) then
        (* Stop transmission if we were requested *)
        tx_disable_label (upd_stream TX (set_state I2S_STATE_READY) w)
      else
        (* Prepare to send the next data block *)
        dma_tx_callback_fetched (queue_get (mem_block_queue (tx w))) e w
  end.

Definition dma_tx_callback_body (status : Z) (e : env) (w : world) : world :=
  if negb (status =? 0) then
    tx_disable_label (upd_stream TX (set_state I2S_STATE_ERROR) w)
  else
    (* All block data sent *)
    dma_tx_callback_sent e (tx_block_sent w).

Definition dma_tx_callback (channel status : Z) (e : env) (w : world)
  : option world :=
  if get_dev_from_tx_dma_channel channel w
  then Some (dma_tx_callback_body status e w)
  else None.

(** ** Peripheral error interrupt *)

Definition i2s_stm32_isr (w : world) : world :=
  let w := upd_stream RX (set_state I2S_STATE_ERROR) w in
  let w :=
    if CONFIG_I2S_STM32_FULL_DUPLEX bc then
      if is_full_duplex_mode (LL_I2S_GetTransferMode w)
      then upd_stream TX (set_state I2S_STATE_ERROR) w
      else w
    else w in
  (* OVR error must be explicitly cleared *)
  let w :=
    if flag_ovr (regs w) then
      upd_regs (set_flag_ovr false)
        (set_i2s_stm32_irq_ovr_count (u32 (i2s_stm32_irq_ovr_count w + 1)) w)
    else w in
  let w :=
    if CONFIG_SOC_SERIES_STM32H7X bc then
      let w :=
        if flag_udr (regs w) then
          upd_regs (set_flag_udr false)
            (set_i2s_stm32_irq_udr_count (u32 (i2s_stm32_irq_udr_count w + 1)) w)
        else w in
      if flag_fre (regs w) then
        upd_regs (set_flag_fre false)
          (set_i2s_stm32_irq_fre_count (u32 (i2s_stm32_irq_fre_count w + 1)) w)
      else w
    else w in
  set_i2s_stm32_irq_count (u32 (i2s_stm32_irq_count w + 1)) w.

(** ** Stream start *)

(** The four-way choice of transfer mode in [rx_stream_start_dma] and
    [tx_stream_start_dma]. *)
Definition start_transfer_mode (is_master full_duplex : bool)
    (half_master half_slave : ll_i2s_mode) : ll_i2s_mode :=
  if is_master then
    if full_duplex then LL_I2S_MODE_MASTER_FULL_DUPLEX else half_master
  else
    if full_duplex then LL_I2S_MODE_SLAVE_FULL_DUPLEX else half_slave.

Definition rx_stream_start_dma (d : sdir) (full_duplex : bool) (e : env)
    (w : world) : Z * world :=
  match env_slab_alloc e d with
  | None => (- ENOMEM, upd_stream d (set_mem_block NULL) w)
  | Some blk =>
      let w := upd_stream d (set_mem_block blk) w in
      let w :=
        LL_I2S_SetTransferMode
          (start_transfer_mode (master (get_stream d w)) full_duplex
             LL_I2S_MODE_MASTER_RX LL_I2S_MODE_SLAVE_RX) w in
      (* remember active RX DMA channel (used in callback) *)
      let w :=
        set_active_dma_rx_channel
          (<[Z.to_nat (dma_channel (get_stream d w)) := true]>
             (active_dma_rx_channel w)) w in
      let '(ret, w) :=
        start_dma d rx_data_reg (AddrMem (mem_block (get_stream d w)))
          (block_size (cfg (get_stream d w))) e w in
      if ret <? 0 then (ret, w) else (0, w)
  end.

(** The part of [tx_stream_start_dma] from [queue_get] on: [r] is what
    [queue_get] returned (code [r.1.1], queue [r.1.2], fetched item
    [r.2]). *)
Definition tx_stream_start_dma_fetched (d : sdir) (full_duplex : bool)
    (r : Z * ring_buf * option queue_item) (e : env) (w : world) : Z * world :=
  let w := upd_stream d (set_mem_block_queue r.1.2) w in
  let w :=
    match r.2 with
    | Some it =>
        upd_stream d (set_mem_block_size (item_size it))
          (upd_stream d (set_mem_block (item_mem_block it)) w)
    | None => w
    end in
  let '(ret, w) :=
    if CONFIG_I2S_STM32_TX_UNDERRUN_LAST_REPEAT bc && (r.1.1 =? - ENOMEM) then
      let w := upd_stream d (set_mem_block (last_mem_block (get_stream d w))) w in
      let w := upd_stream d (set_mem_block_size (last_mem_block_size (get_stream d w))) w in
      (0, upd_stream d (set_tx_underrun true) w)
    else (r.1.1, w) in
  if ret <? 0 then (ret, w)
  else
    let w :=
      if CONFIG_I2S_STM32_TX_UNDERRUN_LAST_REPEAT bc && tx_underrun (get_stream d w)
      then w
      else upd_stream d (fun s => set_sem (k_sem_give (sem s)) s) w in
    let w :=
      LL_I2S_SetTransferMode
        (start_transfer_mode (master (get_stream d w)) full_duplex
           LL_I2S_MODE_MASTER_TX LL_I2S_MODE_SLAVE_TX) w in
    (* remember active TX DMA channel (used in callback) *)
    let w :=
      set_active_dma_tx_channel
        (<[Z.to_nat (dma_channel (get_stream d w)) := true]>
           (active_dma_tx_channel w)) w in
    let '(ret, w) :=
      start_dma d (AddrMem (mem_block (get_stream d w))) tx_data_reg
        (block_size (cfg (get_stream d w))) e w in
    if ret <? 0 then (ret, w) else (0, w).

Definition tx_stream_start_dma_fetch (d : sdir) (full_duplex : bool) (e : env)
    (w : world) : Z * world :=
  tx_stream_start_dma_fetched d full_duplex
    (queue_get (mem_block_queue (get_stream d w))) e w.

(** [tx_stream_start_dma].  The contents of the underrun block (zeroed
    by [memset]) are not represented. *)
Definition tx_stream_start_dma (d : sdir) (full_duplex : bool) (e : env)
    (w : world) : Z * world :=
  if CONFIG_I2S_STM32_TX_UNDERRUN_LAST_REPEAT bc then
    (* Initialize the block to send in underrun context *)
    match env_slab_alloc e d with
    | None => (- ENOMEM, upd_stream d (set_last_mem_block NULL) w)
    | Some blk =>
        let w := upd_stream d (set_last_mem_block blk) w in
        let w := upd_stream d (set_last_mem_block_size (block_size (cfg (get_stream d w)))) w in
        let w := upd_stream d (set_tx_underrun false) w in
        tx_stream_start_dma_fetch d full_duplex e w
    end
  else tx_stream_start_dma_fetch d full_duplex e w.

Definition rx_stream_start (d : sdir) (e : env) (w : world) : Z * world :=
  let '(ret, w) := rx_stream_start_dma d false e w in
  if ret <? 0 then (ret, w)
  else
    let w := LL_I2S_EnableDMAReq_RX w in
    let w := enable_error_interrupts w in
    let w := LL_I2S_Enable w in
    (0, start_master_transfer_h7 w).

Definition tx_stream_start (d : sdir) (e : env) (w : world) : Z * world :=
  let '(ret, w) := tx_stream_start_dma d false e w in
  if ret <? 0 then (ret, w)
  else
    let w := LL_I2S_EnableDMAReq_TX w in
    let w := enable_error_interrupts w in
    let w := LL_I2S_Enable w in
    (0, start_master_transfer_h7 w).

Definition full_duplex_stream_start (e : env) (w : world) : Z * world :=
  let '(ret, w) := rx_stream_start_dma RX true e w in
  if ret <? 0 then (ret, w)
  else
    let '(ret, w) := tx_stream_start_dma TX true e w in
    if ret <? 0 then (ret, w)
    else
      let w := LL_I2S_EnableDMAReq_RX w in
      let w := LL_I2S_EnableDMAReq_TX w in
      let w := enable_error_interrupts w in
      let w := LL_I2S_Enable w in
      (0, start_master_transfer_h7 w).

(** [stream->stream_start] *)
Definition stream_start (d : sdir) (e : env) (w : world) : Z * world :=
  match d with RX => rx_stream_start RX e w | TX => tx_stream_start TX e w end.

(** ** Configuration *)

(** [memset(&stream->cfg, 0, sizeof(struct i2s_config))] *)
Definition i2s_config_zero : i2s_config :=
  {| word_size := 0; channels := 0; format := 0; options := 0;
     frame_clk_freq := 0; mem_slab := NULL; block_size := 0; timeout := 0 |}.

Definition i2s_stm32_configure_stream (d : sdir) (i2s_cfg : i2s_config)
    (w : world) : Z * world :=
  match state (get_stream d w) with
  | I2S_STATE_NOT_READY | I2S_STATE_READY =>
      let w := upd_stream d (set_master true) w in
      let w := if clk_slave i2s_cfg then upd_stream d (set_master false) w else w in
      if frame_clk_freq i2s_cfg =? 0 then
        let w := queue_drop d w in
        let w := upd_stream d (set_cfg i2s_config_zero) w in
        (0, upd_stream d (set_state I2S_STATE_NOT_READY) w)
      else
        let w := upd_stream d (set_cfg i2s_cfg) w in
        let w := upd_stream d (set_tx_underrun false) w in
        let w := upd_stream d (set_last_mem_block NULL) w in
        let w := upd_stream d (set_last_mem_block_size 0) w in
        (0, upd_stream d (set_mem_block_size 0) w)
  | _ => (- EINVAL, w)
  end.

(** [div_round_closest] on [uint32_t]; a zero divisor is undefined
    behaviour ([None]). *)
Definition div_round_closest (dividend divisor : Z) : option Z :=
  if divisor =? 0 then None
  else Some (u32 (dividend + divisor / 2) / divisor).

(** The wait for the PLLI2S lock:
    [while (!LL_RCC_PLLI2S_IsReady()) {
       if (plli2s_ms_count++ > PLLI2S_MAX_MS_TIME) return -EIO;
       k_sleep(K_MSEC(1)); }]
    where [polls] is the number of times the PLL answers "not ready".
    Returns the code ([0]: locked) and the new [plli2s_ms_count]. *)
Fixpoint plli2s_wait (polls : nat) (count : Z) : Z * Z :=
  match polls with
  | O => (0, count)
  | S polls' =>
      if count >? PLLI2S_MAX_MS_TIME then (- EIO, u16 (count + 1))
      else plli2s_wait polls' (u16 (count + 1))
  end.

(** [i2s_stm32_set_clock].  [env_freq_in] is the input clock frequency
    the function arrives at (from the RCC, and through the PLLI2S
    factors when that option is set); the clock-source selection in the
    RCC is outside the represented registers. *)
Definition i2s_stm32_set_clock (bit_clk_freq : Z) (e : env) (w : world)
  : option (Z * world) :=
  let '(ret, w) :=
    if CONFIG_I2S_STM32_USE_PLLI2S_ENABLE bc then
      let '(ret, count) := plli2s_wait (env_plli2s_polls e) (plli2s_ms_count w) in
      (ret, set_plli2s_ms_count count w)
    else (0, w) in
  if ret <? 0 then Some (ret, w)
  else
    match div_round_closest (u32 (env_freq_in e)) bit_clk_freq with
    | None => None
    | Some q =>
        let i2s_div := u8 q in
        let i2s_odd := if Z.land i2s_div 1 =? 0 then 0 else 1 in
        let i2s_div := Z.shiftr i2s_div 1 in
        Some (0, upd_fregs (set_prescaler_parity i2s_odd)
                   (upd_fregs (set_prescaler_linear i2s_div) w))
    end.

(** The [switch] on [i2s_cfg->format & I2S_FMT_DATA_FORMAT_MASK]. *)
Definition standard_of_format (i2s_cfg : i2s_config) : option ll_i2s_standard :=
  let f := Z.land (format i2s_cfg) (I2S_FMT_DATA_FORMAT_MASK bc) in
  if f =? I2S_FMT_DATA_FORMAT_I2S bc then Some LL_I2S_STANDARD_PHILIPS
  else if f =? I2S_FMT_DATA_FORMAT_PCM_SHORT bc then Some LL_I2S_STANDARD_PCM_SHORT
  else if f =? I2S_FMT_DATA_FORMAT_PCM_LONG bc then Some LL_I2S_STANDARD_PCM_LONG
  else if f =? I2S_FMT_DATA_FORMAT_LEFT_JUSTIFIED bc then Some LL_I2S_STANDARD_MSB
  else if f =? I2S_FMT_DATA_FORMAT_RIGHT_JUSTIFIED bc then Some LL_I2S_STANDARD_LSB
  else None.

(** The chain of [if (i2s_cfg->word_size == ...)]. *)
Definition dataformat_of_word_size (i2s_cfg : i2s_config)
  : option ll_i2s_dataformat :=
  if word_size i2s_cfg =? 16 then Some LL_I2S_DATAFORMAT_16B
  else if word_size i2s_cfg =? 24 then Some LL_I2S_DATAFORMAT_24B
  else if word_size i2s_cfg =? 32 then Some LL_I2S_DATAFORMAT_32B
  else None.

(** [i2s_stm32_configure] after the per-direction stream configuration
    succeeded. *)
Definition i2s_stm32_configure_device (dir : i2s_dir) (i2s_cfg : i2s_config)
    (e : env) (w : world) : option (Z * world) :=
  (* set I2S bitclock *)
  let bit_clk_freq :=
    u32 (u32 (frame_clk_freq i2s_cfg * word_size i2s_cfg) * channels i2s_cfg) in
  match i2s_stm32_set_clock bit_clk_freq e w with
  | None => None
  | Some (ret, w) =>
      if ret <? 0 then Some (ret, w)
      else
        (* set I2S Master Clock *)
        let w := upd_fregs (set_master_clock (clk_slave i2s_cfg)) w in
        (* set I2S *)
        let w :=
          if negb (Z.land (options i2s_cfg) (I2S_OPT_IO_SWAP bc) =? 0)
          then upd_fregs (set_io_swap true) w else w in
        (* set I2S Data Format *)
        match dataformat_of_word_size i2s_cfg with
        | None => Some (- EINVAL, w)
        | Some df =>
            let w := upd_fregs (set_data_format df) w in
            (* set I2S Standard *)
            match standard_of_format i2s_cfg with
            | None => Some (- EINVAL, w)
            | Some st =>
                let w := upd_fregs (set_standard st) w in
                (* set I2S clock polarity *)
                let w :=
                  if Z.land (format i2s_cfg) (I2S_FMT_CLK_FORMAT_MASK bc)
                     =? I2S_FMT_BIT_CLK_INV bc
                  then upd_fregs (set_clock_polarity LL_I2S_POLARITY_HIGH) w
                  else upd_fregs (set_clock_polarity LL_I2S_POLARITY_LOW) w in
                let w :=
                  match dir with
                  | I2S_DIR_RX | I2S_DIR_BOTH =>
                      upd_stream RX (set_state I2S_STATE_READY) w
                  | _ => w
                  end in
                let w :=
                  match dir with
                  | I2S_DIR_TX | I2S_DIR_BOTH =>
                      upd_stream TX (set_state I2S_STATE_READY) w
                  | _ => w
                  end in
                Some (0, w)
            end
        end
  end.

Definition i2s_stm32_configure (dir : i2s_dir) (i2s_cfg : i2s_config)
    (e : env) (w : world) : option (Z * world) :=
  match dir with
  | I2S_DIR_RX =>
      let '(ret, w) := i2s_stm32_configure_stream RX i2s_cfg w in
      if negb (ret =? 0) then Some (ret, w)
      else i2s_stm32_configure_device dir i2s_cfg e w
  | I2S_DIR_TX =>
      let '(ret, w) := i2s_stm32_configure_stream TX i2s_cfg w in
      if negb (ret =? 0) then Some (ret, w)
      else i2s_stm32_configure_device dir i2s_cfg e w
  | I2S_DIR_BOTH =>
      if CONFIG_I2S_STM32_FULL_DUPLEX bc then
        let '(ret, w) := i2s_stm32_configure_stream RX i2s_cfg w in
        if negb (ret =? 0) then Some (ret, w)
        else
          let '(ret, w) := i2s_stm32_configure_stream TX i2s_cfg w in
          if negb (ret =? 0) then Some (ret, w)
          else i2s_stm32_configure_device dir i2s_cfg e w
      else Some (- ENOSYS, w)
  | I2S_DIR_INVALID => Some (- EINVAL, w)
  end.

(** ** Triggers *)

Definition i2s_stm32_trigger_half_duplex (d : sdir) (cmd : i2s_trigger_cmd)
    (e : env) (w : world) : Z * world :=
  match cmd with
  | I2S_TRIGGER_START =>
      match state (get_stream d w) with
      | I2S_STATE_READY =>
          let '(ret, w) := stream_start d e w in
          if ret <? 0 then (ret, w)
          else
            let w := upd_stream d (set_state I2S_STATE_RUNNING) w in
            (0, upd_stream d (set_last_block false) w)
      | _ => (- EIO, w)
      end
  | I2S_TRIGGER_STOP =>
      let '(key, w) := irq_lock w in
      match state (get_stream d w) with
      | I2S_STATE_RUNNING =>
          let w := irq_unlock key w in
          let w := stream_disable d w in
          let w := queue_drop d w in
          let w := upd_stream d (set_state I2S_STATE_READY) w in
          (0, upd_stream d (set_last_block true) w)
      | _ => (- EIO, irq_unlock key w)
      end
  | I2S_TRIGGER_DRAIN =>
      let '(key, w) := irq_lock w in
      match state (get_stream d w) with
      | I2S_STATE_RUNNING =>
          let w := stream_disable d w in
          let w := queue_drop d w in
          let w := upd_stream d (set_state I2S_STATE_READY) w in
          (0, irq_unlock key w)
      | _ => (- EIO, irq_unlock key w)
      end
  | I2S_TRIGGER_DROP =>
      match state (get_stream d w) with
      | I2S_STATE_NOT_READY => (- EIO, w)
      | _ =>
          let w := stream_disable d w in
          let w := queue_drop d w in
          (0, upd_stream d (set_state I2S_STATE_READY) w)
      end
  | I2S_TRIGGER_PREPARE =>
      match state (get_stream d w) with
      | I2S_STATE_ERROR =>
          let w := upd_stream d (set_state I2S_STATE_READY) w in
          (0, queue_drop d w)
      | _ => (- EIO, w)
      end
  | I2S_TRIGGER_INVALID => (- EINVAL, w)
  end.

Definition is_running (s : i2s_state) : bool :=
  match s with I2S_STATE_RUNNING => true | _ => false end.

Definition is_ready (s : i2s_state) : bool :=
  match s with I2S_STATE_READY => true | _ => false end.

Definition is_not_ready (s : i2s_state) : bool :=
  match s with I2S_STATE_NOT_READY => true | _ => false end.

Definition is_error (s : i2s_state) : bool :=
  match s with I2S_STATE_ERROR => true | _ => false end.

(** [i2s_stm32_trigger_full_duplex].  The early returns of STOP and DRAIN
    leave without [irq_unlock], as written. *)
Definition i2s_stm32_trigger_full_duplex (cmd : i2s_trigger_cmd)
    (e : env) (w : world) : Z * world :=
  match cmd with
  | I2S_TRIGGER_START =>
      if negb (is_ready (state (rx w))) then (- EIO, w)
      else if negb (is_ready (state (tx w))) then (- EIO, w)
      else
        let '(ret, w) := full_duplex_stream_start e w in
        if ret <? 0 then (ret, w)
        else
          let w := upd_stream RX (set_state I2S_STATE_RUNNING) w in
          let w := upd_stream RX (set_last_block false) w in
          let w := upd_stream TX (set_state I2S_STATE_RUNNING) w in
          (0, upd_stream TX (set_last_block false) w)
  | I2S_TRIGGER_STOP =>
      let '(key, w) := irq_lock w in
      if negb (is_running (state (rx w))) then (- EIO, w)
      else if negb (is_running (state (tx w))) then (- EIO, w)
      else
        let w := irq_unlock key w in
        let w := full_duplex_stream_disable w in
        let w := full_duplex_queue_drop w in
        let w := upd_stream RX (set_state I2S_STATE_READY) w in
        let w := upd_stream RX (set_last_block true) w in
        let w := upd_stream TX (set_state I2S_STATE_READY) w in
        (0, upd_stream TX (set_last_block true) w)
  | I2S_TRIGGER_DRAIN =>
      let '(key, w) := irq_lock w in
      if negb (is_running (state (rx w))) then (- EIO, w)
      else if negb (is_running (state (tx w))) then (- EIO, w)
      else
        let w := full_duplex_stream_disable w in
        let w := full_duplex_queue_drop w in
        let w := upd_stream RX (set_state I2S_STATE_READY) w in
        let w := upd_stream TX (set_state I2S_STATE_READY) w in
        (0, irq_unlock key w)
  | I2S_TRIGGER_DROP =>
      if negb (is_not_ready (state (rx w))) then (- EIO, w)
      else if negb (is_not_ready (state (tx w))) then (- EIO, w)
      else
        let w := full_duplex_stream_disable w in
        let w := full_duplex_queue_drop w in
        let w := upd_stream RX (set_state I2S_STATE_READY) w in
        (0, upd_stream TX (set_state I2S_STATE_READY) w)
  | I2S_TRIGGER_PREPARE =>
      if negb (is_error (state (rx w))) then (- EIO, w)
      else if negb (is_error (state (tx w))) then (- EIO, w)
      else
        let w := upd_stream RX (set_state I2S_STATE_READY) w in
        let w := upd_stream TX (set_state I2S_STATE_READY) w in
        (0, full_duplex_queue_drop w)
  | I2S_TRIGGER_INVALID => (- EINVAL, w)
  end.

Definition i2s_stm32_trigger (dir : i2s_dir) (cmd : i2s_trigger_cmd)
    (e : env) (w : world) : Z * world :=
  match dir with
  | I2S_DIR_RX => i2s_stm32_trigger_half_duplex RX cmd e w
  | I2S_DIR_TX => i2s_stm32_trigger_half_duplex TX cmd e w
  | I2S_DIR_BOTH =>
      if CONFIG_I2S_STM32_FULL_DUPLEX bc
      then i2s_stm32_trigger_full_duplex cmd e w
      else (- ENOSYS, w)
  | I2S_DIR_INVALID => (- EINVAL, w)
  end.

(** ** Read and write *)

Definition i2s_stm32_read (w : world) : Z * world * option queue_item :=
  match state (rx w) with
  | I2S_STATE_NOT_READY => (- EIO, w, None)
  | I2S_STATE_ERROR => (- EIO, w, None)
  | _ =>
      let '(ret, s) := k_sem_take (sem (rx w)) (timeout (cfg (rx w))) in
      let w := upd_stream RX (set_sem s) w in
      if ret <? 0 then (ret, w, None)
      else
        (* Get data from the beginning of RX queue *)
        let r := queue_get (mem_block_queue (rx w)) in
        (r.1.1, upd_stream RX (set_mem_block_queue r.1.2) w, r.2)
  end.

Definition i2s_stm32_write (mem_block size : Z) (w : world) : Z * world :=
  match state (tx w) with
  | I2S_STATE_RUNNING | I2S_STATE_READY =>
      let '(ret, s) := k_sem_take (sem (tx w)) (timeout (cfg (tx w))) in
      let w := upd_stream TX (set_sem s) w in
      if ret <? 0 then (ret, w)
      else
        (* Add data to the end of the TX queue *)
        let r := queue_put (mem_block_queue (tx w)) mem_block size in
        (r.1, upd_stream TX (set_mem_block_queue r.2) w)
  | _ => (- EIO, w)
  end.

(** ** Initialisation *)

(** A stream as [I2S_DMA_CHANNEL_INIT] leaves it: everything zero but the
    DMA channel and the queue, whose array has [count + 1] items. *)
Definition stream_static (channel count : Z) : stream :=
  {| state := I2S_STATE_NOT_READY;
     sem := {| sem_count := 0; sem_limit := 0 |};
     dma_channel := channel;
     cfg := i2s_config_zero;
     mem_block_queue :=
       {| rb_buf := replicate (Z.to_nat (count + 1)) inhabitant;
          rb_len := count + 1; rb_head := 0; rb_tail := 0 |};
     mem_block := NULL; mem_block_size := 0; last_block := false;
     master := false; tx_underrun := false;
     last_mem_block := NULL; last_mem_block_size := 0 |}.

(** [i2s_stm32_initialize]; the DMA devices are checked TX first. *)
Definition i2s_stm32_initialize (e : env) (w : world) : Z * world :=
  (* i2s_stm32_enable_clock *)
  if negb (env_clk_ready e) then (- EIO, w)
  else if negb (env_clock_control_on e =? 0) then (- EIO, w)
  else if env_pinctrl_apply_state e <? 0 then (env_pinctrl_apply_state e, w)
  else
    let w :=
      upd_stream RX
        (set_sem (k_sem_init 0 (CONFIG_I2S_STM32_RX_BLOCK_COUNT bc))) w in
    let w :=
      upd_stream TX
        (set_sem (k_sem_init (CONFIG_I2S_STM32_TX_BLOCK_COUNT bc)
                    (CONFIG_I2S_STM32_TX_BLOCK_COUNT bc))) w in
    let w :=
      set_active_dma_rx_channel
        (replicate (Z.to_nat STM32_DMA_NUM_CHANNELS) false) w in
    let w :=
      set_active_dma_tx_channel
        (replicate (Z.to_nat STM32_DMA_NUM_CHANNELS) false) w in
    if negb (env_dma_ready e TX) then (- ENODEV, w)
    else if negb (env_dma_ready e RX) then (- ENODEV, w)
    else (0, w).

End Driver.

(** ** Observations used in the statements *)

Definition dir_of (d : sdir) : i2s_dir :=
  match d with RX => I2S_DIR_RX | TX => I2S_DIR_TX end.

(** The blocks [release_mem_block] hands back: none when [mem_block] is
    [NULL]. *)
Definition released (s : stream) : list (Z * Z) :=
  if mem_block s =? NULL then [] else [(mem_slab (cfg s), mem_block s)].

(** The control registers after the error interrupts were switched off,
    and after the master transfer was suspended (H7 only). *)
Definition regs_error_interrupts_off (bc : build_config) (r : i2s_regs) : i2s_regs :=
  if CONFIG_SOC_SERIES_STM32H7X bc
  then set_it_udr false (set_it_ovr false (set_it_fre false r))
  else set_it_err false r.

Definition regs_suspended (bc : build_config) (r : i2s_regs) : i2s_regs :=
  if CONFIG_SOC_SERIES_STM32H7X bc then set_master_transfer false r else r.

(** The underrun block [tx_stream_disable] and [tx_queue_drop] hand back
    under [CONFIG_I2S_STM32_TX_UNDERRUN_LAST_REPEAT]. *)
Definition released_last (bc : build_config) (s : stream) : list (Z * Z) :=
  if CONFIG_I2S_STM32_TX_UNDERRUN_LAST_REPEAT bc
  then [(mem_slab (cfg s), last_mem_block s)] else [].

(** The blocks a queue drop hands back, latest first. *)
Definition dropped (s : stream) : list (Z * Z) :=
  rev (map (fun it => (mem_slab (cfg s), item_mem_block it))
         (queue_get_all (mem_block_queue s)).1).

(** Some error interrupt of the peripheral is enabled. *)
Definition error_interrupts_enabled (bc : build_config) (w : world) : bool :=
  if CONFIG_SOC_SERIES_STM32H7X bc
  then it_fre (regs w) || it_ovr (regs w) || it_udr (regs w)
  else it_err (regs w).

(** The hardware of the RX stream is disabled: transfer engine stopped,
    DMA request line off, error interrupts off, peripheral off, no block
    in flight, channel no longer registered. *)
Definition rx_hw_disabled (bc : build_config) (w : world) : bool :=
  negb (dma_running (dma_rx w)) && negb (dma_req_rx (regs w)) &&
  negb (error_interrupts_enabled bc w) && negb (i2s_enabled (regs w)) &&
  (mem_block (rx w) =? NULL) &&
  negb (get_dev_from_rx_dma_channel (dma_channel (rx w)) w).

Definition tx_hw_disabled (bc : build_config) (w : world) : bool :=
  negb (dma_running (dma_tx w)) && negb (dma_req_tx (regs w)) &&
  negb (error_interrupts_enabled bc w) && negb (i2s_enabled (regs w)) &&
  (mem_block (tx w) =? NULL) &&
  negb (get_dev_from_tx_dma_channel (dma_channel (tx w)) w).

Definition both_error (w : world) : bool :=
  is_error (state (rx w)) && is_error (state (tx w)).

(** [n] successive TX completions with status [0], the collaborators
    answering as [es] says. *)
Fixpoint tx_completions (bc : build_config) (channel : Z) (es : list env)
    (w : world) : option world :=
  match es with
  | [] => Some w
  | e :: es' =>
      match dma_tx_callback bc channel 0 e w with
      | Some w' => tx_completions bc channel es' w'
      | None => None
      end
  end.

(** The Transfer Engine accepts a reload. *)
Definition reload_accepted (d : sdir) (e : env) : Prop :=
  0 <= env_dma_reload e d /\ 0 <= env_dma_start e d.

(** The state in which the repeat-last-block policy keeps re-sending
    block [b]: the queue is empty, no stop or error is pending, and [b]
    is either in flight for the first time or already the cached block. *)
Definition repeating (bc : build_config) (channel : Z) (b : Z) (w : world) : Prop :=
  CONFIG_I2S_STM32_TX_UNDERRUN_LAST_REPEAT bc = true /\
  get_dev_from_tx_dma_channel channel w = true /\
  ring_buf_wf (mem_block_queue (tx w)) /\
  queue_count (mem_block_queue (tx w)) = 0 /\
  state (tx w) <> I2S_STATE_ERROR /\
  last_block (tx w) = false /\
  (tx_underrun (tx w) = false /\ mem_block (tx w) = b \/
   tx_underrun (tx w) = true /\ last_mem_block (tx w) = b).

(** ** Example instances *)

(** The bit clock [i2s_stm32_configure] asks for, in [uint32_t]. *)
Definition bit_clk_freq_of (i2s_cfg : i2s_config) : Z :=
  u32 (u32 (frame_clk_freq i2s_cfg * word_size i2s_cfg) * channels i2s_cfg).

(** The clock setup of a configure call goes through: the bit clock is
    not zero and, where the PLLI2S is used, it locks in time. *)
Definition clock_setup_ok (bc : build_config) (i2s_cfg : i2s_config) (e : env)
    (w : world) : Prop :=
  bit_clk_freq_of i2s_cfg <> 0 /\
  (CONFIG_I2S_STM32_USE_PLLI2S_ENABLE bc = true ->
   (plli2s_wait (env_plli2s_polls e) (plli2s_ms_count w)).1 = 0).

(** The Transfer Engine accepts the configuration and the start. *)
Definition start_accepted (d : sdir) (e : env) : Prop :=
  0 <= env_dma_config e d /\ 0 <= env_dma_start e d.

(** A configuration with an 8-bit word size, which the driver rejects. *)
Definition cfg_bad_word_size (slab : Z) : i2s_config :=
  {| word_size := 8; channels := 2; format := 0; options := 6;
     frame_clk_freq := 44100; mem_slab := slab; block_size := 64;
     timeout := 10 |}.



(** A build with the default policies; the [i2s.h] constants have their
    usual values. *)
Definition bc_default : build_config :=
  {| CONFIG_I2S_STM32_FULL_DUPLEX := false;
     CONFIG_I2S_STM32_RX_OVERRUN_DROP := false;
     CONFIG_I2S_STM32_TX_UNDERRUN_LAST_REPEAT := false;
     CONFIG_SOC_SERIES_STM32H7X := false;
     CONFIG_I2S_STM32_USE_PLLI2S_ENABLE := false;
     CONFIG_I2S_STM32_RX_BLOCK_COUNT := 4;
     CONFIG_I2S_STM32_TX_BLOCK_COUNT := 4;
     I2S_FMT_DATA_FORMAT_MASK := 7;
     I2S_FMT_DATA_FORMAT_I2S := 0;
     I2S_FMT_DATA_FORMAT_PCM_SHORT := 1;
     I2S_FMT_DATA_FORMAT_PCM_LONG := 2;
     I2S_FMT_DATA_FORMAT_LEFT_JUSTIFIED := 3;
     I2S_FMT_DATA_FORMAT_RIGHT_JUSTIFIED := 4;
     I2S_FMT_CLK_FORMAT_MASK := 48;
     I2S_FMT_BIT_CLK_INV := 16;
     I2S_OPT_BIT_CLK_SLAVE := 2;
     I2S_OPT_FRAME_CLK_SLAVE := 4;
     I2S_OPT_IO_SWAP := 256 |}.

(** The same with the three optional policies switched on. *)
Definition bc_with (full_duplex rx_drop tx_repeat : bool) : build_config :=
  {| CONFIG_I2S_STM32_FULL_DUPLEX := full_duplex;
     CONFIG_I2S_STM32_RX_OVERRUN_DROP := rx_drop;
     CONFIG_I2S_STM32_TX_UNDERRUN_LAST_REPEAT := tx_repeat;
     CONFIG_SOC_SERIES_STM32H7X := false;
     CONFIG_I2S_STM32_USE_PLLI2S_ENABLE := false;
     CONFIG_I2S_STM32_RX_BLOCK_COUNT := 2;
     CONFIG_I2S_STM32_TX_BLOCK_COUNT := 2;
     I2S_FMT_DATA_FORMAT_MASK := 7;
     I2S_FMT_DATA_FORMAT_I2S := 0;
     I2S_FMT_DATA_FORMAT_PCM_SHORT := 1;
     I2S_FMT_DATA_FORMAT_PCM_LONG := 2;
     I2S_FMT_DATA_FORMAT_LEFT_JUSTIFIED := 3;
     I2S_FMT_DATA_FORMAT_RIGHT_JUSTIFIED := 4;
     I2S_FMT_CLK_FORMAT_MASK := 48;
     I2S_FMT_BIT_CLK_INV := 16;
     I2S_OPT_BIT_CLK_SLAVE := 2;
     I2S_OPT_FRAME_CLK_SLAVE := 4;
     I2S_OPT_IO_SWAP := 256 |}.

(** The device before [i2s_stm32_initialize]: static data, peripheral at
    its reset values, RX on DMA channel 3 and TX on channel 4. *)
Definition world_static (bc : build_config) : world :=
  {| rx := stream_static 3 (CONFIG_I2S_STM32_RX_BLOCK_COUNT bc);
     tx := stream_static 4 (CONFIG_I2S_STM32_TX_BLOCK_COUNT bc);
     regs :=
       {| transfer_mode := LL_I2S_MODE_SLAVE_TX; dma_req_rx := false;
          dma_req_tx := false; it_err := false; it_fre := false;
          it_ovr := false; it_udr := false; i2s_enabled := false;
          master_transfer := false; flag_ovr := false; flag_udr := false;
          flag_fre := false |};
     fregs :=
       {| master_clock := false; io_swap := false;
          data_format := LL_I2S_DATAFORMAT_16B;
          standard := LL_I2S_STANDARD_PHILIPS;
          clock_polarity := LL_I2S_POLARITY_LOW;
          prescaler_linear := 2; prescaler_parity := 0 |};
     dma_rx := {| dma_running := false; dma_src := AddrDR;
                  dma_dst := AddrMem NULL; dma_blk_size := 0 |};
     dma_tx := {| dma_running := false; dma_src := AddrMem NULL;
                  dma_dst := AddrDR; dma_blk_size := 0 |};
     active_dma_rx_channel := replicate 8 false;
     active_dma_tx_channel := replicate 8 false;
     slab_free_log := [];
     irq_locked := false;
     i2s_stm32_irq_count := 0; i2s_stm32_irq_ovr_count := 0;
     i2s_stm32_irq_udr_count := 0; i2s_stm32_irq_fre_count := 0;
     plli2s_ms_count := 0 |}.

(** Collaborators that all succeed; the pools hand out [rx_blk] and
    [tx_blk]. *)
Definition env_ok (rx_blk tx_blk : option Z) : env :=
  {| env_slab_alloc := fun d => match d with RX => rx_blk | TX => tx_blk end;
     env_dma_config := fun _ => 0;
     env_dma_start := fun _ => 0;
     env_dma_reload := fun _ => 0;
     env_freq_in := 49152000;
     env_plli2s_polls := 0;
     env_clk_ready := true;
     env_clock_control_on := 0;
     env_pinctrl_apply_state := 0;
     env_dma_ready := fun _ => true |}.

(** 48 kHz, 16-bit stereo, I2S format, master, 192-byte blocks. *)
Definition cfg_48k (slab : Z) : i2s_config :=
  {| word_size := 16; channels := 2; format := 0; options := 0;
     frame_clk_freq := 48000; mem_slab := slab; block_size := 192;
     timeout := 1000 |}.

(** A script of application calls, run in order; the first element of the
    result is the return code of the last call. *)
Inductive api_call :=
| CallConfigure (dir : i2s_dir) (i2s_cfg : i2s_config)
| CallTrigger (dir : i2s_dir) (cmd : i2s_trigger_cmd)
| CallWrite (mem_block size : Z)
| CallRead
| CallInitialize
| CallRxComplete (status : Z)
| CallTxComplete (status : Z).

Definition api_step (bc : build_config) (c : api_call) (e : env) (w : world)
  : option (Z * world) :=
  match c with
  | CallConfigure dir i2s_cfg => i2s_stm32_configure bc dir i2s_cfg e w
  | CallTrigger dir cmd => Some (i2s_stm32_trigger bc dir cmd e w)
  | CallWrite b s => Some (i2s_stm32_write b s w)
  | CallRead => let '(ret, w, _) := i2s_stm32_read w in Some (ret, w)
  | CallInitialize => Some (i2s_stm32_initialize bc e w)
  | CallRxComplete status =>
      option_map (fun w => (0, w)) (dma_rx_callback bc (dma_channel (rx w)) status e w)
  | CallTxComplete status =>
      option_map (fun w => (0, w)) (dma_tx_callback bc (dma_channel (tx w)) status e w)
  end.

Fixpoint api_run (bc : build_config) (cs : list (api_call * env)) (w : world)
  : option (Z * world) :=
  match cs with
  | [] => Some (0, w)
  | (c, e) :: cs' =>
      match api_step bc c e w with
      | Some (ret, w') =>
          match cs' with
          | [] => Some (ret, w')
          | _ => api_run bc cs' w'
          end
      | None => None
      end
  end.

(** The world reached from the static one by a script, or the static
    world itself should the script be undefined. *)
Definition world_after (bc : build_config) (cs : list (api_call * env)) : world :=
  match api_run bc cs (world_static bc) with
  | Some (_, w) => w
  | None => world_static bc
  end.

(** An RX stream of the drop-policy build, RUNNING, whose queue (capacity
    2) holds two completed blocks while a third one is in flight. *)
Definition world_rx_queue_full : world :=
  world_after (bc_with false true false)
    [(CallInitialize, env_ok None None);
     (CallConfigure I2S_DIR_RX (cfg_48k 1024), env_ok None None);
     (CallTrigger I2S_DIR_RX I2S_TRIGGER_START, env_ok (Some 4096) None);
     (CallRxComplete 0, env_ok (Some 4288) None);
     (CallRxComplete 0, env_ok (Some 4480) None)].

(** Both streams RUNNING in a full-duplex build, one block written. *)
Definition world_full_duplex_running : world :=
  world_after (bc_with true false false)
    [(CallInitialize, env_ok None None);
     (CallConfigure I2S_DIR_BOTH (cfg_48k 1024), env_ok None None);
     (CallWrite 8192 192, env_ok None None);
     (CallTrigger I2S_DIR_BOTH I2S_TRIGGER_START, env_ok (Some 4096) None)].

(** ** Flow control

    The RX semaphore counts the blocks held by the RX queue, the TX
    semaphore the free places of the TX queue; both have the capacity of
    their queue as limit. *)
Definition rx_flow (s : stream) : Prop :=
  ring_buf_wf (mem_block_queue s) /\
  sem_limit (sem s) = rb_len (mem_block_queue s) - 1 /\
  sem_count (sem s) = queue_count (mem_block_queue s).

Definition tx_flow (s : stream) : Prop :=
  ring_buf_wf (mem_block_queue s) /\
  sem_limit (sem s) = rb_len (mem_block_queue s) - 1 /\
  sem_count (sem s) + queue_count (mem_block_queue s) = sem_limit (sem s).

Definition flow (w : world) : Prop := rx_flow (rx w) /\ tx_flow (tx w).

(** The part of the device that [flow] looks at. *)
Definition flow_view (w : world) : k_sem * ring_buf * k_sem * ring_buf :=
  (sem (rx w), mem_block_queue (rx w), sem (tx w), mem_block_queue (tx w)).

(** ** Further example instances *)

(** A configuration whose frame clock frequency is zero, which asks for
    the stream to be un-configured. *)
Definition cfg_unconfigure : i2s_config :=
  {| word_size := 16; channels := 2; format := 0; options := 0;
     frame_clk_freq := 0; mem_slab := 1024; block_size := 192;
     timeout := 1000 |}.

(** The blocks of a list of queue entries, paired with their slab. *)
Definition blocks_of (slab : Z) (its : list queue_item) : list (Z * Z) :=
  map (fun it => (slab, item_mem_block it)) its.

(** The Transfer Engine rejects a reload: [dma_reload] or the
    [dma_start] after it returns a negative code. *)
Definition reload_rejected (d : sdir) (e : env) : Prop :=
  env_dma_reload e d < 0 \/ env_dma_start e d < 0.

(** The peripheral is not used in a full-duplex mode of a full-duplex
    build, so that the handlers disable their own stream only. *)
Definition half_duplex_mode (bc : build_config) (w : world) : Prop :=
  CONFIG_I2S_STM32_FULL_DUPLEX bc = false \/
  is_full_duplex_mode (transfer_mode (regs w)) = false.

(** Collaborators like [env_ok] whose Transfer Engine rejects reloads. *)
Definition env_reload_fails (rx_blk tx_blk : option Z) : env :=
  {| env_slab_alloc := fun d => match d with RX => rx_blk | TX => tx_blk end;
     env_dma_config := fun _ => 0;
     env_dma_start := fun _ => 0;
     env_dma_reload := fun _ => - EINVAL;
     env_freq_in := 49152000;
     env_plli2s_polls := 0;
     env_clk_ready := true;
     env_clock_control_on := 0;
     env_pinctrl_apply_state := 0;
     env_dma_ready := fun _ => true |}.

(** The Transfer Engine rejects a start: [dma_config] or the [dma_start]
    after it returns a negative code. *)
Definition start_rejected (d : sdir) (e : env) : Prop :=
  env_dma_config e d < 0 \/ env_dma_start e d < 0.

(** ** The STOPPING state *)

Definition no_stopping (w : world) : Prop :=
  state (rx w) <> I2S_STATE_STOPPING /\ state (tx w) <> I2S_STATE_STOPPING.

Definition state_view (w : world) : i2s_state * i2s_state :=
  (state (rx w), state (tx w)).
(* ================================================================== *)
(** * Properties *)
(* ================================================================== *)

(** ** Block queue *)

Lemma mod_range_once (a n : Z) :
  0 < n -> 0 <= a < 2 * n ->
  a mod n = if a <? n then a else a - n.
Proof.
  intros Hn Ha. destruct (Z.ltb_spec a n).
  - apply Z.mod_small; lia.
  - symmetry. apply (Z.mod_unique_pos a n 1 (a - n)); lia.
Qed.

Lemma mod_range_neg (a n : Z) :
  0 < n -> - n <= a < n ->
  a mod n = if a <? 0 then a + n else a.
Proof.
  intros Hn Ha. destruct (Z.ltb_spec a 0).
  - symmetry. apply (Z.mod_unique_pos a n (-1) (a + n)); lia.
  - apply Z.mod_small; lia.
Qed.

Lemma MODULO_INC_mod (val max : Z) :
  0 <= val < max -> max < 65536 ->
  MODULO_INC val max = (val + 1) mod max.
Proof.
  intros Hv Hm. unfold MODULO_INC, u16.
  rewrite (Z.mod_small (val + 1)) by lia.
  rewrite mod_range_once by lia.
  destruct (Z.ltb_spec (val + 1) max); lia.
Qed.

Lemma MODULO_INC_range (val max : Z) :
  0 <= val < max -> max < 65536 ->
  0 <= MODULO_INC val max < max.
Proof.
  intros Hv Hm. rewrite MODULO_INC_mod by lia.
  apply Z.mod_pos_bound; lia.
Qed.

Lemma queue_count_range (rb : ring_buf) :
  ring_buf_wf rb -> 0 <= queue_count rb < rb_len rb.
Proof.
  intros (_ & Hl & _ & _). apply Z.mod_pos_bound; lia.
Qed.

Lemma queue_contents_length (rb : ring_buf) :
  ring_buf_wf rb -> Z.of_nat (length (queue_contents rb)) = queue_count rb.
Proof.
  intros Hwf. pose proof (queue_count_range rb Hwf).
  unfold queue_contents. rewrite length_map, length_seq. lia.
Qed.

Lemma queue_count_zero (rb : ring_buf) :
  ring_buf_wf rb -> (queue_count rb = 0 <-> rb_tail rb = rb_head rb).
Proof.
  intros (_ & Hl & Hh & Ht). unfold queue_count.
  rewrite mod_range_neg by lia.
  destruct (Z.ltb_spec (rb_head rb - rb_tail rb) 0); lia.
Qed.

Lemma queue_get_empty (rb : ring_buf) :
  ring_buf_wf rb -> queue_count rb = 0 ->
  queue_get rb = (- ENOMEM, rb, None).
Proof.
  intros Hwf Hc. apply queue_count_zero in Hc; [|done].
  unfold queue_get. rewrite Hc, Z.eqb_refl. done.
Qed.

Lemma queue_get_nonempty (rb : ring_buf) :
  ring_buf_wf rb -> queue_count rb <> 0 ->
  exists it rb',
    queue_get rb = (0, rb', Some it) /\
    ring_buf_wf rb' /\
    rb_len rb' = rb_len rb /\
    queue_contents rb = it :: queue_contents rb' /\
    queue_count rb' = queue_count rb - 1.
Proof.
  intros Hwf Hc.
  pose proof (queue_count_range rb Hwf) as Hr.
  assert (Hne : rb_tail rb <> rb_head rb)
    by (intros E; apply Hc, queue_count_zero; done).
  destruct Hwf as (Hb & Hl & Hh & Ht).
  unfold queue_get. destruct (Z.eqb_spec (rb_tail rb) (rb_head rb)); [done|].
  eexists _, _. split; [reflexivity|].
  pose proof (MODULO_INC_range (rb_tail rb) (rb_len rb) ltac:(lia) ltac:(lia)) as Hi.
  assert (Hcnt : (rb_head rb - MODULO_INC (rb_tail rb) (rb_len rb)) mod rb_len rb
                 = queue_count rb - 1).
  { revert Hr. unfold queue_count.
    rewrite MODULO_INC_mod in * by lia.
    rewrite (mod_range_once (rb_tail rb + 1)) by lia.
    rewrite (mod_range_neg (rb_head rb - rb_tail rb)) by lia.
    destruct (Z.ltb_spec (rb_tail rb + 1) (rb_len rb));
      destruct (Z.ltb_spec (rb_head rb - rb_tail rb) 0);
      intros; rewrite mod_range_neg by lia;
      match goal with |- context [?a <? 0] => destruct (Z.ltb_spec a 0) end; lia. }
  split; [repeat split; simpl; lia|].
  split; [done|]. split; [|exact Hcnt].
  unfold queue_contents at 1 2. unfold queue_count at 2. simpl. rewrite Hcnt.
  replace (Z.to_nat (queue_count rb)) with (S (Z.to_nat (queue_count rb - 1))) by lia.
  rewrite <- cons_seq, <- seq_shift. simpl. rewrite List.map_map. f_equal.
  - rewrite Z.add_0_r, Z.mod_small by lia. done.
  - apply map_ext. intros i. f_equal. f_equal.
    rewrite MODULO_INC_mod by lia.
    rewrite Zplus_mod_idemp_l. f_equal. lia.
Qed.

Lemma queue_put_full (rb : ring_buf) (b s : Z) :
  ring_buf_wf rb -> queue_count rb = rb_len rb - 1 ->
  queue_put rb b s = (- ENOMEM, rb).
Proof.
  intros (Hb & Hl & Hh & Ht) Hc. unfold queue_put.
  rewrite MODULO_INC_mod by lia.
  revert Hc. unfold queue_count.
  rewrite mod_range_neg, (mod_range_once (rb_head rb + 1)) by lia.
  destruct (Z.ltb_spec (rb_head rb - rb_tail rb) 0);
    destruct (Z.ltb_spec (rb_head rb + 1) (rb_len rb)); intros;
    match goal with |- context [?a =? ?b] => destruct (Z.eqb_spec a b) end;
    done || lia.
Qed.

Lemma queue_put_room (rb : ring_buf) (b s : Z) :
  ring_buf_wf rb -> queue_count rb < rb_len rb - 1 ->
  exists rb',
    queue_put rb b s = (0, rb') /\
    ring_buf_wf rb' /\
    rb_len rb' = rb_len rb /\
    queue_contents rb' =
      queue_contents rb ++ [ {| item_mem_block := b; item_size := s |} ] /\
    queue_count rb' = queue_count rb + 1.
Proof.
  intros Hwf Hc.
  pose proof (queue_count_range rb Hwf) as Hr.
  destruct Hwf as (Hb & Hl & Hh & Ht).
  pose proof (MODULO_INC_range (rb_head rb) (rb_len rb) ltac:(lia) ltac:(lia)) as Hi.
  assert (Hcnt : (MODULO_INC (rb_head rb) (rb_len rb) - rb_tail rb) mod rb_len rb
                 = queue_count rb + 1).
  { revert Hc Hr. unfold queue_count.
    rewrite MODULO_INC_mod in * by lia.
    rewrite (mod_range_once (rb_head rb + 1)) by lia.
    rewrite (mod_range_neg (rb_head rb - rb_tail rb)) by lia.
    destruct (Z.ltb_spec (rb_head rb + 1) (rb_len rb));
      destruct (Z.ltb_spec (rb_head rb - rb_tail rb) 0);
      intros; rewrite mod_range_neg by lia;
      match goal with |- context [?a <? 0] => destruct (Z.ltb_spec a 0) end; lia. }
  unfold queue_put.
  destruct (Z.eqb_spec (MODULO_INC (rb_head rb) (rb_len rb)) (rb_tail rb)) as [E|E].
  { rewrite E, Z.sub_diag, Z.mod_0_l in Hcnt by lia. lia. }
  eexists. split; [reflexivity|].
  split; [repeat split; simpl; rewrite ?length_insert; lia|].
  split; [done|]. split; [|exact Hcnt].
  unfold queue_contents at 1. unfold queue_count at 1. simpl. rewrite Hcnt.
  replace (Z.to_nat (queue_count rb + 1)) with (Z.to_nat (queue_count rb) + 1)%nat by lia.
  rewrite seq_app, map_app. simpl. f_equal.
  - unfold queue_contents. apply map_ext_in. intros i Hin%in_seq.
    apply list_lookup_total_insert_ne.
    intros Heq. apply Z2Nat.inj in Heq; [|lia|apply Z.mod_pos_bound; lia].
    assert (Hi' : 0 <= Z.of_nat i < queue_count rb) by lia.
    revert Hi' Hr Heq. unfold queue_count.
    rewrite (mod_range_neg (rb_head rb - rb_tail rb)) by lia.
    destruct (Z.ltb_spec (rb_head rb - rb_tail rb) 0); intros;
      rewrite mod_range_once in Heq by lia;
      match type of Heq with context [?a <? ?b] => destruct (Z.ltb_spec a b) end; lia.
  - f_equal.
    replace ((rb_tail rb + Z.of_nat (Z.to_nat (queue_count rb))) mod rb_len rb)
      with (rb_head rb).
    + apply list_lookup_total_insert_eq. lia.
    + rewrite Z2Nat.id by lia. unfold queue_count.
      rewrite Zplus_mod_idemp_r.
      replace (rb_tail rb + (rb_head rb - rb_tail rb)) with (rb_head rb) by lia.
      rewrite Z.mod_small; lia.
Qed.

Lemma queue_contents_empty (rb : ring_buf) :
  queue_count rb = 0 -> queue_contents rb = [].
Proof. intros Hc. unfold queue_contents. rewrite Hc. done. Qed.

Lemma queue_get_loop_contents (fuel : nat) (rb : ring_buf) :
  ring_buf_wf rb -> (Z.to_nat (queue_count rb) <= fuel)%nat ->
  exists rb',
    queue_get_loop fuel rb = (queue_contents rb, rb') /\
    ring_buf_wf rb' /\ rb_len rb' = rb_len rb /\ queue_count rb' = 0.
Proof.
  revert rb. induction fuel as [|fuel IH]; intros rb Hwf Hf.
  - pose proof (queue_count_range rb Hwf).
    assert (Hc : queue_count rb = 0) by lia.
    exists rb. simpl. rewrite queue_contents_empty by done. done.
  - destruct (Z.eq_dec (queue_count rb) 0) as [Hc|Hc].
    + exists rb. simpl. rewrite queue_get_empty by done.
      rewrite queue_contents_empty by done. done.
    + destruct (queue_get_nonempty rb Hwf Hc)
        as (it & rb1 & Hget & Hwf1 & Hlen1 & Hcont & Hcnt).
      pose proof (queue_count_range rb Hwf).
      destruct (IH rb1 Hwf1 ltac:(lia)) as (rb' & Hloop & Hwf' & Hlen' & Hc').
      exists rb'. simpl. rewrite Hget, Hloop, Hcont.
      split; [done|]. split; [done|]. split; [congruence|done].
Qed.

Lemma queue_get_all_drains (rb : ring_buf) :
  ring_buf_wf rb ->
  exists rb',
    queue_get_all rb = (queue_contents rb, rb') /\
    ring_buf_wf rb' /\ rb_len rb' = rb_len rb /\ queue_count rb' = 0.
Proof.
  intros Hwf. apply queue_get_loop_contents; [done|].
  pose proof (queue_count_range rb Hwf). lia.
Qed.

(** Simulation of a run by the list of entries held. *)
Lemma queue_run_contents (ops : list queue_op) :
  forall rb rs rb',
    ring_buf_wf rb ->
    queue_run ops rb = (rs, rb') ->
    puts_succeeded rs = true ->
    ring_buf_wf rb' /\ rb_len rb' = rb_len rb /\
    queue_contents rb ++ puts_of ops = gets_of rs ++ queue_contents rb'.
Proof.
  induction ops as [|op ops IH]; intros rb rs rb' Hwf Hrun Hok.
  - simpl in Hrun. injection Hrun as <- <-. simpl. rewrite app_nil_r. done.
  - destruct op as [b s|]; simpl in Hrun.
    + pose proof (queue_count_range rb Hwf) as Hr.
      destruct (Z.eq_dec (queue_count rb) (rb_len rb - 1)) as [Hfull|Hroom].
      * rewrite (queue_put_full rb b s Hwf Hfull) in Hrun.
        destruct (queue_run ops rb) as [rs1 rb1].
        injection Hrun as <- <-. simpl in Hok. done.
      * destruct (queue_put_room rb b s Hwf ltac:(lia))
          as (rb1 & Hput & Hwf1 & Hlen1 & Hcont & _).
        rewrite Hput in Hrun.
        destruct (queue_run ops rb1) as [rs1 rb2] eqn:Hrun1.
        injection Hrun as <- <-. simpl in Hok.
        destruct (IH rb1 rs1 rb2 Hwf1 Hrun1 Hok) as (Hwf2 & Hlen2 & Heq).
        split; [done|]. split; [congruence|].
        simpl. rewrite <- Heq, Hcont, <- app_assoc. done.
    + destruct (Z.eq_dec (queue_count rb) 0) as [Hc|Hc].
      * rewrite (queue_get_empty rb Hwf Hc) in Hrun.
        destruct (queue_run ops rb) as [rs1 rb1] eqn:Hrun1.
        injection Hrun as <- <-. simpl in Hok.
        destruct (IH rb rs1 rb1 Hwf Hrun1 Hok) as (Hwf2 & Hlen2 & Heq).
        done.
      * destruct (queue_get_nonempty rb Hwf Hc)
          as (it & rb1 & Hget & Hwf1 & Hlen1 & Hcont & _).
        rewrite Hget in Hrun.
        destruct (queue_run ops rb1) as [rs1 rb2] eqn:Hrun1.
        injection Hrun as <- <-. simpl in Hok.
        destruct (IH rb1 rs1 rb2 Hwf1 Hrun1 Hok) as (Hwf2 & Hlen2 & Heq).
        split; [done|]. split; [congruence|].
        simpl. rewrite Hcont. simpl. rewrite Heq. done.
Qed.

Lemma ring_buf_init_wf (buf : list queue_item) :
  0 < Z.of_nat (length buf) < 65536 -> ring_buf_wf (ring_buf_init buf).
Proof. intros H. unfold ring_buf_wf, ring_buf_init. simpl. lia. Qed.

Lemma ring_buf_init_count (buf : list queue_item) :
  queue_count (ring_buf_init buf) = 0.
Proof. unfold queue_count, ring_buf_init. simpl. apply Zmod_0_l. Qed.

(** C1.  On a Block Queue of capacity [C] ([C + 1] physical slots,
    initially empty), after any sequence of [queue_put]/[queue_get] calls
    in which every [queue_put] succeeded, with [N] puts and [M] successful
    gets: [M <= N]; the successful gets returned, in order, exactly the
    first [M] pairs put (the k-th get matches the k-th put); the entries
    still retrievable by [queue_get] are the remaining pairs, in put
    order, so there are [N - M] of them, after which [queue_get] fails;
    and of the [C + 1] slots only [C] are usable: a further [queue_put]
    succeeds exactly when fewer than [C] entries are held. *)
Theorem queue_fifo (C : Z) (buf : list queue_item) (ops : list queue_op)
    (rs : list queue_res) (rb' : ring_buf) :
  0 <= C < 65535 ->
  Z.of_nat (length buf) = C + 1 ->
  queue_run ops (ring_buf_init buf) = (rs, rb') ->
  puts_succeeded rs = true ->
  let N := length (puts_of ops) in
  let M := length (gets_of rs) in
  (M <= N)%nat /\
  gets_of rs = firstn M (puts_of ops) /\
  (forall k it, gets_of rs !! k = Some it -> puts_of ops !! k = Some it) /\
  (queue_get_all rb').1 = skipn M (puts_of ops) /\
  length (queue_get_all rb').1 = (N - M)%nat /\
  (queue_get (queue_get_all rb').2).1.1 = - ENOMEM /\
  (Z.of_nat (N - M) <= C) /\
  (forall b s, (queue_put rb' b s).1 = 0 <-> Z.of_nat (N - M) < C).
Proof.
  intros HC Hlen Hrun Hok N M.
  assert (Hwf : ring_buf_wf (ring_buf_init buf)) by (apply ring_buf_init_wf; lia).
  destruct (queue_run_contents ops _ _ _ Hwf Hrun Hok) as (Hwf' & Hlen' & Heq).
  rewrite (queue_contents_empty (ring_buf_init buf)) in Heq
    by apply ring_buf_init_count.
  simpl in Heq.
  assert (HM : (M <= N)%nat).
  { subst N M. rewrite Heq, length_app. lia. }
  assert (Hfirst : gets_of rs = firstn M (puts_of ops)).
  { subst M. rewrite Heq. rewrite firstn_app, Nat.sub_diag, firstn_all. simpl.
    rewrite app_nil_r. done. }
  assert (Hrest : queue_contents rb' = skipn M (puts_of ops)).
  { subst M. rewrite Heq. rewrite skipn_app, Nat.sub_diag, skipn_all. done. }
  destruct (queue_get_all_drains rb' Hwf') as (rb'' & Hall & Hwf'' & _ & Hc'').
  pose proof (queue_contents_length rb' Hwf') as Hcl.
  pose proof (queue_count_range rb' Hwf') as Hcr.
  assert (HNM : length (queue_contents rb') = (N - M)%nat).
  { rewrite Hrest, length_skipn. done. }
  assert (Hlenrb : rb_len rb' = C + 1).
  { rewrite Hlen'. unfold ring_buf_init. simpl. done. }
  rewrite Hall. simpl.
  repeat split; try done.
  - intros k it Hk. rewrite Hfirst in Hk.
    apply lookup_take_Some in Hk. tauto.
  - rewrite (queue_get_empty rb'' Hwf'' Hc''). done.
  - lia.
  - intros Hput.
    destruct (Z.eq_dec (queue_count rb') (rb_len rb' - 1)) as [Hfull|Hroom]; [|lia].
    rewrite (queue_put_full rb' b s Hwf' Hfull) in Hput. done.
  - intros Hlt.
    destruct (queue_put_room rb' b s Hwf' ltac:(lia)) as (rb1 & Hput & _).
    rewrite Hput. done.
Qed.

Lemma queue_fifo_witness :
  let buf := replicate 3 inhabitant in
  let ops := [OpPut 101 64; OpPut 102 64; OpGet; OpPut 103 32] in
  gets_of (queue_run ops (ring_buf_init buf)).1 = [ {| item_mem_block := 101; item_size := 64 |} ] /\
  (queue_get_all (queue_run ops (ring_buf_init buf)).2).1 =
    [ {| item_mem_block := 102; item_size := 64 |};
      {| item_mem_block := 103; item_size := 32 |} ].
Proof.
  intros buf ops.
  destruct (queue_fifo 2 buf ops (queue_run ops (ring_buf_init buf)).1
              (queue_run ops (ring_buf_init buf)).2)
    as (_ & Hg & _ & Hd & _).
  - lia.
  - reflexivity.
  - reflexivity.
  - reflexivity.
  - split; [exact Hg | exact Hd].
Defined.

(** ** Symbolic execution

    [wcbv] unfolds the record accessors, the setters and the primitive
    world updates, leaving arithmetic, the queue functions and the
    driver's own functions folded. *)
Ltac wcbv :=
  cbn beta iota zeta delta
    [
      set_sem_count sem_count sem_limit word_size channels format options
      frame_clk_freq mem_slab block_size timeout set_state set_sem set_cfg
      set_mem_block_queue set_mem_block set_mem_block_size set_last_block
      set_master set_tx_underrun set_last_mem_block set_last_mem_block_size
      state sem dma_channel cfg mem_block_queue mem_block mem_block_size
      last_block master tx_underrun last_mem_block last_mem_block_size
      set_transfer_mode set_dma_req_rx set_dma_req_tx set_it_err set_it_fre
      set_it_ovr set_it_udr set_i2s_enabled set_master_transfer set_flag_ovr
      set_flag_udr set_flag_fre set_master_clock set_io_swap set_data_format
      set_standard set_clock_polarity set_prescaler_linear
      set_prescaler_parity transfer_mode dma_req_rx dma_req_tx it_err it_fre
      it_ovr it_udr i2s_enabled master_transfer flag_ovr flag_udr flag_fre
      master_clock io_swap data_format standard clock_polarity
      prescaler_linear prescaler_parity set_dma_running dma_running dma_src
      dma_dst dma_blk_size set_rx set_tx set_regs set_fregs set_dma_rx
      set_dma_tx set_active_dma_rx_channel set_active_dma_tx_channel
      set_slab_free_log set_irq_locked set_i2s_stm32_irq_count
      set_i2s_stm32_irq_ovr_count set_i2s_stm32_irq_udr_count
      set_i2s_stm32_irq_fre_count set_plli2s_ms_count rx tx regs fregs
      dma_rx dma_tx active_dma_rx_channel active_dma_tx_channel
      slab_free_log irq_locked i2s_stm32_irq_count i2s_stm32_irq_ovr_count
      i2s_stm32_irq_udr_count i2s_stm32_irq_fre_count plli2s_ms_count
      get_stream set_stream upd_stream upd_regs upd_fregs get_dma set_dma
      irq_lock irq_unlock k_mem_slab_free dma_stop dma_program
      LL_I2S_GetTransferMode LL_I2S_SetTransferMode LL_I2S_EnableDMAReq_RX
      LL_I2S_DisableDMAReq_RX LL_I2S_EnableDMAReq_TX LL_I2S_DisableDMAReq_TX
      LL_I2S_Enable LL_I2S_Disable LL_SPI_StartMasterTransfer
      LL_SPI_SuspendMasterTransfer enable_error_interrupts
      disable_error_interrupts suspend_master_transfer_h7
      start_master_transfer_h7 rx_data_reg tx_data_reg
      error_interrupts_enabled rx_hw_disabled tx_hw_disabled both_error
      regs_error_interrupts_off regs_suspended released_last
      stream_disable queue_drop full_duplex_queue_drop dir_of
      get_dev_from_rx_dma_channel get_dev_from_tx_dma_channel k_sem_reset
      k_sem_init is_full_duplex_mode is_running is_ready is_not_ready
      is_error start_transfer_mode CONFIG_I2S_STM32_FULL_DUPLEX
      CONFIG_I2S_STM32_RX_OVERRUN_DROP
      CONFIG_I2S_STM32_TX_UNDERRUN_LAST_REPEAT CONFIG_SOC_SERIES_STM32H7X
      CONFIG_I2S_STM32_USE_PLLI2S_ENABLE negb andb orb dropped
    fst snd].

Ltac wcbv_in H :=
  cbn beta iota zeta delta
    [
      set_sem_count sem_count sem_limit word_size channels format options
      frame_clk_freq mem_slab block_size timeout set_state set_sem set_cfg
      set_mem_block_queue set_mem_block set_mem_block_size set_last_block
      set_master set_tx_underrun set_last_mem_block set_last_mem_block_size
      state sem dma_channel cfg mem_block_queue mem_block mem_block_size
      last_block master tx_underrun last_mem_block last_mem_block_size
      set_transfer_mode set_dma_req_rx set_dma_req_tx set_it_err set_it_fre
      set_it_ovr set_it_udr set_i2s_enabled set_master_transfer set_flag_ovr
      set_flag_udr set_flag_fre set_master_clock set_io_swap set_data_format
      set_standard set_clock_polarity set_prescaler_linear
      set_prescaler_parity transfer_mode dma_req_rx dma_req_tx it_err it_fre
      it_ovr it_udr i2s_enabled master_transfer flag_ovr flag_udr flag_fre
      master_clock io_swap data_format standard clock_polarity
      prescaler_linear prescaler_parity set_dma_running dma_running dma_src
      dma_dst dma_blk_size set_rx set_tx set_regs set_fregs set_dma_rx
      set_dma_tx set_active_dma_rx_channel set_active_dma_tx_channel
      set_slab_free_log set_irq_locked set_i2s_stm32_irq_count
      set_i2s_stm32_irq_ovr_count set_i2s_stm32_irq_udr_count
      set_i2s_stm32_irq_fre_count set_plli2s_ms_count rx tx regs fregs
      dma_rx dma_tx active_dma_rx_channel active_dma_tx_channel
      slab_free_log irq_locked i2s_stm32_irq_count i2s_stm32_irq_ovr_count
      i2s_stm32_irq_udr_count i2s_stm32_irq_fre_count plli2s_ms_count
      get_stream set_stream upd_stream upd_regs upd_fregs get_dma set_dma
      irq_lock irq_unlock k_mem_slab_free dma_stop dma_program
      LL_I2S_GetTransferMode LL_I2S_SetTransferMode LL_I2S_EnableDMAReq_RX
      LL_I2S_DisableDMAReq_RX LL_I2S_EnableDMAReq_TX LL_I2S_DisableDMAReq_TX
      LL_I2S_Enable LL_I2S_Disable LL_SPI_StartMasterTransfer
      LL_SPI_SuspendMasterTransfer enable_error_interrupts
      disable_error_interrupts suspend_master_transfer_h7
      start_master_transfer_h7 rx_data_reg tx_data_reg
      error_interrupts_enabled rx_hw_disabled tx_hw_disabled both_error
      regs_error_interrupts_off regs_suspended released_last
      stream_disable queue_drop full_duplex_queue_drop dir_of
      get_dev_from_rx_dma_channel get_dev_from_tx_dma_channel k_sem_reset
      k_sem_init is_full_duplex_mode is_running is_ready is_not_ready
      is_error start_transfer_mode CONFIG_I2S_STM32_FULL_DUPLEX
      CONFIG_I2S_STM32_RX_OVERRUN_DROP
      CONFIG_I2S_STM32_TX_UNDERRUN_LAST_REPEAT CONFIG_SOC_SERIES_STM32H7X
      CONFIG_I2S_STM32_USE_PLLI2S_ENABLE negb andb orb dropped
    fst snd] in H.

Ltac wcbv_all :=
  cbn beta iota zeta delta
    [
      set_sem_count sem_count sem_limit word_size channels format options
      frame_clk_freq mem_slab block_size timeout set_state set_sem set_cfg
      set_mem_block_queue set_mem_block set_mem_block_size set_last_block
      set_master set_tx_underrun set_last_mem_block set_last_mem_block_size
      state sem dma_channel cfg mem_block_queue mem_block mem_block_size
      last_block master tx_underrun last_mem_block last_mem_block_size
      set_transfer_mode set_dma_req_rx set_dma_req_tx set_it_err set_it_fre
      set_it_ovr set_it_udr set_i2s_enabled set_master_transfer set_flag_ovr
      set_flag_udr set_flag_fre set_master_clock set_io_swap set_data_format
      set_standard set_clock_polarity set_prescaler_linear
      set_prescaler_parity transfer_mode dma_req_rx dma_req_tx it_err it_fre
      it_ovr it_udr i2s_enabled master_transfer flag_ovr flag_udr flag_fre
      master_clock io_swap data_format standard clock_polarity
      prescaler_linear prescaler_parity set_dma_running dma_running dma_src
      dma_dst dma_blk_size set_rx set_tx set_regs set_fregs set_dma_rx
      set_dma_tx set_active_dma_rx_channel set_active_dma_tx_channel
      set_slab_free_log set_irq_locked set_i2s_stm32_irq_count
      set_i2s_stm32_irq_ovr_count set_i2s_stm32_irq_udr_count
      set_i2s_stm32_irq_fre_count set_plli2s_ms_count rx tx regs fregs
      dma_rx dma_tx active_dma_rx_channel active_dma_tx_channel
      slab_free_log irq_locked i2s_stm32_irq_count i2s_stm32_irq_ovr_count
      i2s_stm32_irq_udr_count i2s_stm32_irq_fre_count plli2s_ms_count
      get_stream set_stream upd_stream upd_regs upd_fregs get_dma set_dma
      irq_lock irq_unlock k_mem_slab_free dma_stop dma_program
      LL_I2S_GetTransferMode LL_I2S_SetTransferMode LL_I2S_EnableDMAReq_RX
      LL_I2S_DisableDMAReq_RX LL_I2S_EnableDMAReq_TX LL_I2S_DisableDMAReq_TX
      LL_I2S_Enable LL_I2S_Disable LL_SPI_StartMasterTransfer
      LL_SPI_SuspendMasterTransfer enable_error_interrupts
      disable_error_interrupts suspend_master_transfer_h7
      start_master_transfer_h7 rx_data_reg tx_data_reg
      error_interrupts_enabled rx_hw_disabled tx_hw_disabled both_error
      regs_error_interrupts_off regs_suspended released_last
      stream_disable queue_drop full_duplex_queue_drop dir_of
      get_dev_from_rx_dma_channel get_dev_from_tx_dma_channel k_sem_reset
      k_sem_init is_full_duplex_mode is_running is_ready is_not_ready
      is_error start_transfer_mode CONFIG_I2S_STM32_FULL_DUPLEX
      CONFIG_I2S_STM32_RX_OVERRUN_DROP
      CONFIG_I2S_STM32_TX_UNDERRUN_LAST_REPEAT CONFIG_SOC_SERIES_STM32H7X
      CONFIG_I2S_STM32_USE_PLLI2S_ENABLE negb andb orb dropped
    fst snd] in *.

Ltac explode_bc bc :=
  destruct bc as
    [b_fd b_drop b_rep b_h7 b_pll b_rxn b_txn
     c_mask c_i2s c_pcms c_pcml c_lj c_rj c_clkmask c_bclkinv c_bslave c_fslave
     c_swap].

(** ** Closed forms of the disable and drop routines

    Each routine is rewritten as one simultaneous update of the fields it
    touches, every new value being given in terms of the world before
    the call. *)

Lemma table_cleared (l : list bool) (i : nat) :
  default false (<[i := false]> l !! i) = false.
Proof.
  destruct (decide (i < length l)%nat).
  - rewrite list_lookup_insert_eq by done. done.
  - rewrite list_insert_ge by lia. rewrite lookup_ge_None_2 by lia. done.
Qed.

Lemma free_items_eq slab its w :
  free_items slab its w =
  set_slab_free_log
    (rev (map (fun it => (slab, item_mem_block it)) its) ++ slab_free_log w) w.
Proof.
  revert w. induction its as [|it its IH]; intros w.
  - destruct w; reflexivity.
  - simpl. rewrite IH. destruct w. unfold set_slab_free_log, k_mem_slab_free. simpl.
    rewrite <- app_assoc. reflexivity.
Qed.

Lemma release_mem_block_eq d w :
  release_mem_block d w =
  set_slab_free_log (released (get_stream d w) ++ slab_free_log w)
    (upd_stream d (set_mem_block NULL) w).
Proof.
  unfold release_mem_block, released.
  destruct (Z.eqb_spec (mem_block (get_stream d w)) NULL) as [E|E].
  - destruct d, w as [[] [] ? ? ? ? ? ? ? ? ? ? ? ? ?]; simpl in *; subst; reflexivity.
  - destruct d; reflexivity.
Qed.

Lemma rx_stream_disable_eq bc w :
  rx_stream_disable bc RX w =
  set_active_dma_rx_channel
    (<[Z.to_nat (dma_channel (rx w)) := false]> (active_dma_rx_channel w))
    (set_slab_free_log (released (rx w) ++ slab_free_log w)
       (set_dma_rx (set_dma_running false (dma_rx w))
          (set_regs
             (set_i2s_enabled false
                (regs_error_interrupts_off bc
                   (set_dma_req_rx false (regs_suspended bc (regs w)))))
             (set_rx (set_mem_block NULL (rx w)) w)))).
Proof.
  explode_bc bc. unfold rx_stream_disable.
  destruct b_h7; wcbv; rewrite release_mem_block_eq; wcbv; reflexivity.
Qed.

Lemma tx_stream_disable_eq bc w :
  tx_stream_disable bc TX w =
  set_active_dma_tx_channel
    (<[Z.to_nat (dma_channel (tx w)) := false]> (active_dma_tx_channel w))
    (set_slab_free_log
       (released_last bc (tx w) ++ released (tx w) ++ slab_free_log w)
       (set_dma_tx (set_dma_running false (dma_tx w))
          (set_regs
             (set_i2s_enabled false
                (regs_error_interrupts_off bc
                   (set_dma_req_tx false (regs_suspended bc (regs w)))))
             (set_tx (set_mem_block NULL (tx w)) w)))).
Proof.
  explode_bc bc. unfold tx_stream_disable.
  destruct b_h7, b_rep; wcbv; rewrite release_mem_block_eq; wcbv; reflexivity.
Qed.

Lemma full_duplex_stream_disable_eq bc w :
  full_duplex_stream_disable bc w =
  set_active_dma_tx_channel
    (<[Z.to_nat (dma_channel (tx w)) := false]> (active_dma_tx_channel w))
    (set_active_dma_rx_channel
       (<[Z.to_nat (dma_channel (rx w)) := false]> (active_dma_rx_channel w))
       (set_slab_free_log
          (released_last bc (tx w) ++ released (tx w) ++ released (rx w)
             ++ slab_free_log w)
          (set_dma_tx (set_dma_running false (dma_tx w))
             (set_dma_rx (set_dma_running false (dma_rx w))
                (set_regs
                   (set_i2s_enabled false
                      (regs_error_interrupts_off bc
                         (set_dma_req_tx false
                            (set_dma_req_rx false (regs_suspended bc (regs w))))))
                   (set_tx (set_mem_block NULL (tx w))
                      (set_rx (set_mem_block NULL (rx w)) w))))))).
Proof.
  explode_bc bc. unfold full_duplex_stream_disable.
  destruct b_h7, b_rep; wcbv; rewrite !release_mem_block_eq; wcbv;
    rewrite ?release_mem_block_eq; wcbv; reflexivity.
Qed.

Lemma rx_queue_drop_eq w :
  rx_queue_drop RX w =
  set_slab_free_log (dropped (rx w) ++ slab_free_log w)
    (set_rx
       (set_sem (k_sem_reset (sem (rx w)))
          (set_mem_block_queue (queue_get_all (mem_block_queue (rx w))).2 (rx w)))
       w).
Proof.
  unfold rx_queue_drop, dropped. rewrite free_items_eq. wcbv. reflexivity.
Qed.

Lemma tx_queue_drop_eq bc w :
  tx_queue_drop bc TX w =
  set_slab_free_log
    (released_last bc (tx w) ++ dropped (tx w) ++ slab_free_log w)
    (set_tx
       (set_sem
          (Nat.iter (length (queue_get_all (mem_block_queue (tx w))).1)
             k_sem_give (sem (tx w)))
          (set_mem_block_queue (queue_get_all (mem_block_queue (tx w))).2 (tx w)))
       w).
Proof.
  explode_bc bc. unfold tx_queue_drop, dropped. rewrite free_items_eq.
  destruct b_rep; wcbv; reflexivity.
Qed.

Create Rewrite HintDb closed_forms.

#[local] Hint Rewrite rx_stream_disable_eq tx_stream_disable_eq
  full_duplex_stream_disable_eq rx_queue_drop_eq tx_queue_drop_eq
  release_mem_block_eq : closed_forms.

(** Evaluate the world updates of the goal, replacing the disable and
    drop routines by their closed forms as they surface. *)
Ltac wexec := wcbv; repeat (progress autorewrite with closed_forms; wcbv).

(** Evaluate the observations ([rx_hw_disabled], ...) of the goal. *)
Ltac wobserve :=
  unfold rx_hw_disabled, tx_hw_disabled, both_error, error_interrupts_enabled,
    get_dev_from_rx_dma_channel, get_dev_from_tx_dma_channel;
  wexec; rewrite ?table_cleared.

(** ** Trigger state machine *)

Lemma trigger_dir_of bc d cmd e w :
  i2s_stm32_trigger bc (dir_of d) cmd e w =
  i2s_stm32_trigger_half_duplex bc d cmd e w.
Proof. destruct d; reflexivity. Qed.

Lemma state_upd_stream_set_state d s w :
  state (get_stream d (upd_stream d (set_state s) w)) = s.
Proof. destruct d; reflexivity. Qed.

(** C2.  START succeeds only from READY: a START that returns [0] found
    the stream READY.  On a RUNNING stream START returns the
    invalid-state error [-EIO] and changes nothing at all (state, queue
    contents and active block included); in particular a START issued
    right after a successful START fails that way.  The same holds for
    the full-duplex START when either stream is RUNNING. *)
Theorem start_only_from_ready bc (d : sdir) (e : env) (w : world) :
  ((i2s_stm32_trigger bc (dir_of d) I2S_TRIGGER_START e w).1 = 0 ->
   state (get_stream d w) = I2S_STATE_READY) /\
  (state (get_stream d w) = I2S_STATE_RUNNING ->
   i2s_stm32_trigger bc (dir_of d) I2S_TRIGGER_START e w = (- EIO, w)) /\
  (forall e2 w1,
     i2s_stm32_trigger bc (dir_of d) I2S_TRIGGER_START e w = (0, w1) ->
     state (get_stream d w1) = I2S_STATE_RUNNING /\
     i2s_stm32_trigger bc (dir_of d) I2S_TRIGGER_START e2 w1 = (- EIO, w1)) /\
  (CONFIG_I2S_STM32_FULL_DUPLEX bc = true ->
   state (rx w) = I2S_STATE_RUNNING \/ state (tx w) = I2S_STATE_RUNNING ->
   i2s_stm32_trigger bc I2S_DIR_BOTH I2S_TRIGGER_START e w = (- EIO, w)).
Proof.
  rewrite !trigger_dir_of.
  assert (Hrun : forall e' w', state (get_stream d w') = I2S_STATE_RUNNING ->
            i2s_stm32_trigger_half_duplex bc d I2S_TRIGGER_START e' w' = (- EIO, w')).
  { intros e' w' H. unfold i2s_stm32_trigger_half_duplex. rewrite H. done. }
  split; [|split; [|split]].
  - unfold i2s_stm32_trigger_half_duplex.
    destruct (state (get_stream d w)); try done.
  - apply Hrun.
  - intros e2 w1 H. rewrite trigger_dir_of.
    assert (Hst : state (get_stream d w1) = I2S_STATE_RUNNING).
    { revert H. unfold i2s_stm32_trigger_half_duplex.
      destruct (state (get_stream d w)); try done.
      destruct (stream_start bc d e w) as [ret w2].
      destruct (Z.ltb_spec ret 0); [intros [= -> _]; lia|].
      intros [= <-]. destruct d; reflexivity. }
    split; [done|]. by apply Hrun.
  - intros Hfd Hst. unfold i2s_stm32_trigger. rewrite Hfd.
    unfold i2s_stm32_trigger_full_duplex.
    destruct Hst as [H|H]; rewrite H; simpl; [done|].
    destruct (is_ready (state (rx w))); done.
Qed.

Lemma start_only_from_ready_witness :
  let e := env_ok (Some 536875008) (Some 536879104) in
  let w1 :=
    world_after bc_default
      [(CallInitialize, e); (CallConfigure I2S_DIR_TX (cfg_48k 1024), e);
       (CallWrite 536883200 192, e);
       (CallTrigger I2S_DIR_TX I2S_TRIGGER_START, e)] in
  state (tx w1) = I2S_STATE_RUNNING /\
  i2s_stm32_trigger bc_default I2S_DIR_TX I2S_TRIGGER_START e w1 = (- EIO, w1).
Proof.
  intros e w1.
  destruct (start_only_from_ready bc_default TX e w1) as (_ & H & _).
  split; [reflexivity|]. apply H. reflexivity.
Defined.

(** DROP on one direction: rejected with [-EIO] from NOT_READY and
    nothing changes; from any other state it succeeds, the stream's
    hardware is disabled, the queue is emptied and the state is READY. *)
Lemma drop_half_duplex bc (d : sdir) (e : env) (w : world) :
  ring_buf_wf (mem_block_queue (get_stream d w)) ->
  (state (get_stream d w) = I2S_STATE_NOT_READY ->
   i2s_stm32_trigger bc (dir_of d) I2S_TRIGGER_DROP e w = (- EIO, w)) /\
  (state (get_stream d w) <> I2S_STATE_NOT_READY ->
   exists w',
     i2s_stm32_trigger bc (dir_of d) I2S_TRIGGER_DROP e w = (0, w') /\
     state (get_stream d w') = I2S_STATE_READY /\
     match d with
     | RX => rx_hw_disabled bc w'
     | TX => tx_hw_disabled bc w'
     end = true /\
     queue_count (mem_block_queue (get_stream d w')) = 0 /\
     exists its, slab_free_log w' = its ++ slab_free_log w /\
       incl (map (fun it => (mem_slab (cfg (get_stream d w)), item_mem_block it))
               (queue_contents (mem_block_queue (get_stream d w)))) its).
Proof.
  intros Hwf. rewrite trigger_dir_of. unfold i2s_stm32_trigger_half_duplex.
  split.
  - intros ->. reflexivity.
  - intros Hst.
    destruct (queue_get_all_drains _ Hwf) as (q' & Hall & Hwf' & Hlen' & Hc').
    eexists. split.
    { destruct (state (get_stream d w)); try done; reflexivity. }
    explode_bc bc. destruct d, b_h7, b_rep; wobserve.
    all: unfold dropped; wcbv_in Hall; rewrite Hall; wcbv.
    all: rewrite Hc'.
    all: repeat split; try reflexivity.
    all: eexists; split;
      [rewrite ?app_assoc; reflexivity
      |intros x Hx; rewrite !in_app_iff, <- in_rev, ?Hall; tauto].
Qed.

(** C3.  The full-duplex DROP does the opposite of what the claim says
    (and of what the half-duplex DROP does): as soon as one of the two
    streams is not in NOT_READY, which includes READY and RUNNING, it
    returns [-EIO] and changes nothing at all: no hardware is disabled
    and no queued block is discarded. *)
Theorem drop_full_duplex_rejected bc (e : env) (w : world) :
  CONFIG_I2S_STM32_FULL_DUPLEX bc = true ->
  state (rx w) <> I2S_STATE_NOT_READY \/ state (tx w) <> I2S_STATE_NOT_READY ->
  i2s_stm32_trigger bc I2S_DIR_BOTH I2S_TRIGGER_DROP e w = (- EIO, w).
Proof.
  intros Hfd Hst. unfold i2s_stm32_trigger. rewrite Hfd.
  unfold i2s_stm32_trigger_full_duplex.
  destruct (state (rx w)), (state (tx w)); try reflexivity.
  destruct Hst; done.
Qed.

Lemma drop_full_duplex_rejected_witness :
  let bc := bc_with true false false in
  let e := env_ok (Some 536875008) (Some 536879104) in
  let w :=
    world_after bc
      [(CallInitialize, e); (CallConfigure I2S_DIR_BOTH (cfg_48k 1024), e)] in
  state (rx w) = I2S_STATE_READY /\ state (tx w) = I2S_STATE_READY /\
  i2s_stm32_trigger bc I2S_DIR_BOTH I2S_TRIGGER_DROP e w = (- EIO, w).
Proof.
  intros bc e w. split; [reflexivity|]. split; [reflexivity|].
  apply (drop_full_duplex_rejected bc e w).
  - reflexivity.
  - left. discriminate.
Defined.

(** ** Completion handlers *)

(** What the code after [tx_disable:] leaves behind: the TX hardware is
    disabled and the TX state is the one it was entered with; when the
    peripheral is in a full-duplex mode of a full-duplex build, the RX
    hardware is disabled too and the RX state is ERROR. *)
Lemma tx_disable_label_spec bc (w : world) :
  let w' := tx_disable_label bc w in
  tx_hw_disabled bc w' = true /\
  state (tx w') = state (tx w) /\
  sem (tx w') = sem (tx w) /\
  mem_block_queue (tx w') = mem_block_queue (tx w) /\
  (CONFIG_I2S_STM32_FULL_DUPLEX bc = true ->
   is_full_duplex_mode (transfer_mode (regs w)) = true ->
   rx_hw_disabled bc w' = true /\ state (rx w') = I2S_STATE_ERROR).
Proof.
  explode_bc bc. unfold tx_disable_label, LL_I2S_GetTransferMode.
  destruct b_fd, b_h7, b_rep, (transfer_mode (regs w)) eqn:Em;
    wobserve; repeat split; try done.
Qed.

Lemma rx_disable_label_spec bc (w : world) :
  let w' := rx_disable_label bc w in
  rx_hw_disabled bc w' = true /\
  state (rx w') = state (rx w) /\
  sem (rx w') = sem (rx w) /\
  mem_block_queue (rx w') = mem_block_queue (rx w) /\
  (CONFIG_I2S_STM32_FULL_DUPLEX bc = true ->
   is_full_duplex_mode (transfer_mode (regs w)) = true ->
   tx_hw_disabled bc w' = true /\ state (tx w') = I2S_STATE_ERROR).
Proof.
  explode_bc bc. unfold rx_disable_label, LL_I2S_GetTransferMode.
  destruct b_fd, b_h7, b_rep, (transfer_mode (regs w)) eqn:Em;
    wobserve; repeat split; try done.
Qed.

(** The accounting of the sent block touches neither the state, the
    stop request, the queue, the semaphore nor the peripheral. *)
Lemma tx_block_sent_frame bc (w : world) :
  let w' := tx_block_sent bc w in
  state (tx w') = state (tx w) /\
  last_block (tx w') = last_block (tx w) /\
  mem_block_queue (tx w') = mem_block_queue (tx w) /\
  sem (tx w') = sem (tx w) /\
  cfg (tx w') = cfg (tx w) /\
  rx w' = rx w /\
  regs w' = regs w /\
  dma_tx w' = dma_tx w /\ dma_rx w' = dma_rx w /\
  active_dma_tx_channel w' = active_dma_tx_channel w /\
  active_dma_rx_channel w' = active_dma_rx_channel w.
Proof.
  explode_bc bc. unfold tx_block_sent.
  destruct b_rep, (tx_underrun (tx w)) eqn:Eu; wcbv; rewrite ?Eu; wcbv; done.
Qed.

Lemma neg_ENOMEM_negative : (- ENOMEM <? 0) = true.
Proof. reflexivity. Qed.

(** C4.  Block-mode TX underrun: when the TX completion handler runs
    with an empty TX queue and no stop pending (state not STOPPING,
    [last_block] clear), then, whatever the status and the collaborators'
    answers, the handler returns with the TX stream in ERROR and with the
    TX transfer engine stopped, the TX DMA request line, the error
    interrupts and the peripheral disabled, no block in flight and the
    channel unregistered. *)
Theorem tx_underrun_block_mode bc (channel status : Z) (e : env) (w : world) :
  CONFIG_I2S_STM32_TX_UNDERRUN_LAST_REPEAT bc = false ->
  get_dev_from_tx_dma_channel channel w = true ->
  ring_buf_wf (mem_block_queue (tx w)) ->
  queue_count (mem_block_queue (tx w)) = 0 ->
  state (tx w) <> I2S_STATE_STOPPING ->
  last_block (tx w) = false ->
  exists w',
    dma_tx_callback bc channel status e w = Some w' /\
    state (tx w') = I2S_STATE_ERROR /\
    tx_hw_disabled bc w' = true.
Proof.
  intros Hpol Hreg Hwf Hempty Hstop Hlast.
  unfold dma_tx_callback. rewrite Hreg. eexists. split; [reflexivity|].
  unfold dma_tx_callback_body.
  destruct (status =? 0); simpl negb; cbv iota.
  - destruct (tx_block_sent_frame bc w) as (Hs & Hl & Hq & _).
    unfold dma_tx_callback_sent. rewrite Hs, Hl, Hq, Hlast.
    rewrite (queue_get_empty _ Hwf Hempty).
    assert (Hfetch :
      forall w1, state (tx w1) = state (tx w) ->
        state (tx (dma_tx_callback_fetched bc
                     (- ENOMEM, mem_block_queue (tx w), None) e w1)) = I2S_STATE_ERROR /\
        tx_hw_disabled bc (dma_tx_callback_fetched bc
                     (- ENOMEM, mem_block_queue (tx w), None) e w1) = true).
    { intros w1 Hs1. unfold dma_tx_callback_fetched. rewrite Hpol. wcbv_all.
      rewrite neg_ENOMEM_negative, Hs1.
      destruct (state (tx w)) eqn:Es; try done; wcbv;
        match goal with
        | |- context [tx_disable_label bc ?W] =>
            destruct (tx_disable_label_spec bc W) as (Hd & Hst & _)
        end; wcbv_all; rewrite Hst; split; done. }
    destruct (state (tx w)) eqn:Es; try done;
      try (apply Hfetch; done).
    destruct (tx_disable_label_spec bc (tx_block_sent bc w)) as (Hd & Hst & _).
    wcbv_all. rewrite Hst, Hs. done.
  - destruct (tx_disable_label_spec bc
                (upd_stream TX (set_state I2S_STATE_ERROR) w)) as (Hd & Hst & _).
    wcbv_all. rewrite Hst. done.
Qed.

Lemma tx_underrun_block_mode_witness :
  let e := env_ok (Some 536875008) (Some 536879104) in
  let w :=
    world_after bc_default
      [(CallInitialize, e); (CallConfigure I2S_DIR_TX (cfg_48k 1024), e);
       (CallWrite 536883200 192, e);
       (CallTrigger I2S_DIR_TX I2S_TRIGGER_START, e)] in
  state (tx w) = I2S_STATE_RUNNING /\
  exists w',
    dma_tx_callback bc_default 4 0 e w = Some w' /\
    state (tx w') = I2S_STATE_ERROR /\
    tx_hw_disabled bc_default w' = true.
Proof.
  intros e w. split; [reflexivity|].
  apply (tx_underrun_block_mode bc_default 4 0 e w).
  - reflexivity.
  - reflexivity.
  - repeat split; vm_compute; congruence.
  - reflexivity.
  - discriminate.
  - reflexivity.
Defined.

Lemma ltb_nonneg (z : Z) : 0 <= z -> (z <? 0) = false.
Proof. intros H. apply Z.ltb_ge. done. Qed.

(** An accepted reload arms the channel with the new addresses. *)
Lemma reload_dma_accepted (d : sdir) src dst blk_size (e : env) (w : world) :
  reload_accepted d e ->
  reload_dma d src dst blk_size e w =
  (env_dma_start e d,
   set_dma d {| dma_running := true; dma_src := src; dma_dst := dst;
                dma_blk_size := blk_size |} w).
Proof.
  intros [Hr Hs]. unfold reload_dma, dma_reload.
  rewrite (ltb_nonneg _ Hr). cbv beta iota zeta. rewrite (ltb_nonneg _ Hr).
  unfold dma_start. rewrite (ltb_nonneg _ Hs). destruct d; reflexivity.
Qed.

(** One completion in that state. *)
Lemma tx_repeat_step bc (channel b : Z) (e : env) (w : world) :
  repeating bc channel b w ->
  reload_accepted TX e ->
  exists w',
    dma_tx_callback bc channel 0 e w = Some w' /\
    repeating bc channel b w' /\
    tx_underrun (tx w') = true /\
    mem_block (tx w') = b /\ last_mem_block (tx w') = b /\
    dma_running (dma_tx w') = true /\ dma_src (dma_tx w') = AddrMem b /\
    state (tx w') = state (tx w) /\ sem (tx w') = sem (tx w).
Proof.
  intros (Hpol & Hreg & Hwf & Hempty & Herr & Hlast & Hb) Hacc.
  unfold dma_tx_callback. rewrite Hreg. eexists. split; [reflexivity|].
  unfold dma_tx_callback_body. simpl negb. cbv iota.
  destruct (tx_block_sent_frame bc w) as (Hs & Hl & Hq & Hsem & Hcfg & _ & _ & _ & _ & Hat & _).
  unfold dma_tx_callback_sent. rewrite Hs, Hl, Hq, Hlast.
  rewrite (queue_get_empty _ Hwf Hempty).
  unfold dma_tx_callback_fetched. rewrite Hpol. wcbv.
  rewrite Z.eqb_refl. wcbv. change (0 <? 0) with false. wcbv.
  rewrite reload_dma_accepted by done. unfold dma_tx_callback_reloaded.
  rewrite (ltb_nonneg _ (proj2 Hacc)).
  assert (Hlmb : last_mem_block (tx (tx_block_sent bc w)) = b).
  { unfold tx_block_sent. rewrite Hpol.
    destruct Hb as [[Hu Hb]|[Hu Hb]]; rewrite Hu; wcbv; done. }
  unfold repeating, get_dev_from_tx_dma_channel in *.
  destruct (state (tx w)) eqn:Es; try done; wcbv;
    rewrite ?Hat, ?Hsem, ?Hlmb, ?Hs, ?Hl, ?Es;
    repeat match goal with |- _ /\ _ => split end; try done; auto.
Qed.

Lemma tx_repeat_steps bc (channel b : Z) (es : list env) :
  forall w,
    repeating bc channel b w ->
    Forall (reload_accepted TX) es ->
    es <> [] ->
    exists w',
      tx_completions bc channel es w = Some w' /\
      repeating bc channel b w' /\
      tx_underrun (tx w') = true /\
      mem_block (tx w') = b /\ last_mem_block (tx w') = b /\
      dma_running (dma_tx w') = true /\ dma_src (dma_tx w') = AddrMem b /\
      state (tx w') = state (tx w) /\ sem (tx w') = sem (tx w).
Proof.
  induction es as [|e es IH]; intros w Hrep Hacc Hne; [done|].
  apply Forall_cons in Hacc as [He Hes].
  destruct (tx_repeat_step bc channel b e w Hrep He)
    as (w1 & Hcb & Hrep1 & Hu1 & Hm1 & Hl1 & Hr1 & Hsrc1 & Hst1 & Hsem1).
  simpl. rewrite Hcb.
  destruct es as [|e2 es'].
  - exists w1. simpl. done.
  - destruct (IH w1 Hrep1 Hes ltac:(done))
      as (w2 & Hrun & Hrep2 & Hu2 & Hm2 & Hl2 & Hr2 & Hsrc2 & Hst2 & Hsem2).
    exists w2. rewrite Hrun, Hst2, Hsem2. done.
Qed.

(** C5.  Repeat-last-block policy: from the state in which block [b] is
    in flight for the first time (written, fetched, not yet repeated)
    with the TX queue empty, no stop requested and the stream not in
    ERROR, after any number [n >= 1] of further completions (status [0],
    reloads accepted by the Transfer Engine) the handler has each time
    re-armed the transfer with [b], which is the cached last block: [b]
    is the active block and the source of the running DMA transfer; the
    stream's state is what it was, hence never ERROR; and the flow
    semaphore is what it was, so no send of the repeated block was
    signalled to the writer. *)
Theorem tx_underrun_repeat_last bc (channel b : Z) (es : list env) (w : world) :
  CONFIG_I2S_STM32_TX_UNDERRUN_LAST_REPEAT bc = true ->
  get_dev_from_tx_dma_channel channel w = true ->
  ring_buf_wf (mem_block_queue (tx w)) ->
  queue_count (mem_block_queue (tx w)) = 0 ->
  state (tx w) <> I2S_STATE_ERROR ->
  last_block (tx w) = false ->
  tx_underrun (tx w) = false ->
  mem_block (tx w) = b ->
  Forall (reload_accepted TX) es ->
  es <> [] ->
  exists w',
    tx_completions bc channel es w = Some w' /\
    mem_block (tx w') = b /\
    last_mem_block (tx w') = b /\
    dma_running (dma_tx w') = true /\
    dma_src (dma_tx w') = AddrMem b /\
    state (tx w') = state (tx w) /\
    state (tx w') <> I2S_STATE_ERROR /\
    sem (tx w') = sem (tx w) /\
    queue_count (mem_block_queue (tx w')) = 0.
Proof.
  intros Hpol Hreg Hwf Hempty Herr Hlast Hu Hb Hacc Hne.
  destruct (tx_repeat_steps bc channel b es w) as
    (w' & Hrun & Hrep & _ & Hm & Hl & Hr & Hsrc & Hst & Hsem); try done.
  { unfold repeating. auto 10. }
  exists w'. destruct Hrep as (_ & _ & _ & Hc & _).
  rewrite Hst. done.
Qed.

Lemma tx_underrun_repeat_last_witness :
  let bc := bc_with false false true in
  let e := env_ok (Some 536875008) (Some 536879104) in
  let w :=
    world_after bc
      [(CallInitialize, e); (CallConfigure I2S_DIR_TX (cfg_48k 1024), e);
       (CallWrite 536883200 192, e);
       (CallTrigger I2S_DIR_TX I2S_TRIGGER_START, e)] in
  exists w',
    tx_completions bc 4 [e; e; e] w = Some w' /\
    mem_block (tx w') = 536883200 /\
    last_mem_block (tx w') = 536883200 /\
    dma_running (dma_tx w') = true /\
    dma_src (dma_tx w') = AddrMem 536883200 /\
    state (tx w') = I2S_STATE_RUNNING /\
    state (tx w') <> I2S_STATE_ERROR /\
    sem (tx w') = {| sem_count := 2; sem_limit := 2 |} /\
    queue_count (mem_block_queue (tx w')) = 0.
Proof.
  intros bc e w.
  apply (tx_underrun_repeat_last bc 4 536883200 [e; e; e] w).
  - reflexivity.
  - reflexivity.
  - repeat split; vm_compute; congruence.
  - reflexivity.
  - discriminate.
  - reflexivity.
  - reflexivity.
  - reflexivity.
  - repeat constructor; vm_compute; congruence.
  - discriminate.
Defined.

(** C6, as amended.  RX drop policy: when a completion (status [0]) on a
    RUNNING stream finds the queue at capacity, and the pool supplied
    the next block and the Transfer Engine accepted the reload, then the
    just-completed block is freed back to the pool (the one call of
    [k_mem_slab_free] of this handler run), the reader's semaphore is
    not incremented, the state is still RUNNING, the new block is in
    flight, and the queue is exactly what it was: the completed block is
    not in it, and a read returns what it would have returned before. *)
Theorem rx_overrun_drop bc (channel blk : Z) (e : env) (w : world) :
  CONFIG_I2S_STM32_RX_OVERRUN_DROP bc = true ->
  get_dev_from_rx_dma_channel channel w = true ->
  state (rx w) = I2S_STATE_RUNNING ->
  ring_buf_wf (mem_block_queue (rx w)) ->
  queue_count (mem_block_queue (rx w)) = rb_len (mem_block_queue (rx w)) - 1 ->
  env_slab_alloc e RX = Some blk ->
  reload_accepted RX e ->
  exists w',
    dma_rx_callback bc channel 0 e w = Some w' /\
    slab_free_log w' =
      (mem_slab (cfg (rx w)), mem_block (rx w)) :: slab_free_log w /\
    sem (rx w') = sem (rx w) /\
    state (rx w') = I2S_STATE_RUNNING /\
    mem_block (rx w') = blk /\
    mem_block_queue (rx w') = mem_block_queue (rx w) /\
    (i2s_stm32_read w').1.1 = (i2s_stm32_read w).1.1 /\
    (i2s_stm32_read w').2 = (i2s_stm32_read w).2.
Proof.
  intros Hpol Hreg Hst Hwf Hfull Halloc Hacc.
  unfold dma_rx_callback. rewrite Hreg. eexists. split; [reflexivity|].
  unfold dma_rx_callback_body. simpl negb. cbv iota.
  rewrite Hst, Halloc. cbv beta iota zeta.
  rewrite reload_dma_accepted by done. unfold dma_rx_callback_reloaded.
  rewrite (ltb_nonneg _ (proj2 Hacc)). wcbv.
  rewrite (queue_put_full _ _ _ Hwf Hfull).
  unfold dma_rx_callback_queued. rewrite Hpol. wcbv.
  rewrite Z.eqb_refl. wcbv. change (0 <? 0) with false. wcbv.
  rewrite Hst. wcbv.
  unfold i2s_stm32_read. wcbv. rewrite Hst.
  repeat match goal with |- _ /\ _ => split end; try reflexivity.
  - destruct (k_sem_take (sem (rx w)) (timeout (cfg (rx w)))) as [ret s].
    destruct (ret <? 0); reflexivity.
  - destruct (k_sem_take (sem (rx w)) (timeout (cfg (rx w)))) as [ret s].
    destruct (ret <? 0); reflexivity.
Qed.

Lemma rx_overrun_drop_witness :
  let bc := bc_with false true false in
  let e := env_ok (Some 4672) None in
  let w := world_rx_queue_full in
  exists w',
    dma_rx_callback bc 3 0 e w = Some w' /\
    slab_free_log w' = [(1024, 4480)] /\
    sem (rx w') = sem (rx w) /\
    state (rx w') = I2S_STATE_RUNNING /\
    mem_block (rx w') = 4672 /\
    mem_block_queue (rx w') = mem_block_queue (rx w) /\
    (i2s_stm32_read w').1.1 = (i2s_stm32_read w).1.1 /\
    (i2s_stm32_read w').2 = (i2s_stm32_read w).2.
Proof.
  intros bc e w.
  apply (rx_overrun_drop bc 3 4672 e w).
  - reflexivity.
  - reflexivity.
  - reflexivity.
  - repeat split; vm_compute; congruence.
  - reflexivity.
  - reflexivity.
  - split; vm_compute; congruence.
Defined.

(** C6 as stated fails when the pool is exhausted: the queue is at
    capacity and the stream RUNNING, yet the handler leaves the stream in
    ERROR and the completed block is not freed. *)
Lemma rx_overrun_drop_counterexample :
  let bc := bc_with false true false in
  let e := env_ok None None in
  let w := world_rx_queue_full in
  CONFIG_I2S_STM32_RX_OVERRUN_DROP bc = true /\
  state (rx w) = I2S_STATE_RUNNING /\
  queue_count (mem_block_queue (rx w)) = rb_len (mem_block_queue (rx w)) - 1 /\
  exists w',
    dma_rx_callback bc 3 0 e w = Some w' /\
    state (rx w') <> I2S_STATE_RUNNING /\
    state (rx w') = I2S_STATE_ERROR /\
    ~ In (mem_slab (cfg (rx w)), mem_block (rx w)) (slab_free_log w').
Proof.
  intros bc e w. split; [reflexivity|]. split; [reflexivity|].
  split; [reflexivity|]. eexists. split; [reflexivity|].
  split; [vm_compute; discriminate|]. split; [vm_compute; reflexivity|].
  intros H. vm_compute in H. destruct H.
Qed.

(** ** Full-duplex coupling *)

Lemma rx_disable_label_full_duplex bc (w : world) :
  CONFIG_I2S_STM32_FULL_DUPLEX bc = true ->
  is_full_duplex_mode (transfer_mode (regs w)) = true ->
  state (rx w) = I2S_STATE_ERROR ->
  both_error (rx_disable_label bc w) = true /\
  rx_hw_disabled bc (rx_disable_label bc w) = true /\
  tx_hw_disabled bc (rx_disable_label bc w) = true.
Proof.
  intros Hfd Hmode Hst.
  destruct (rx_disable_label_spec bc w) as (Hrx & Hs & _ & _ & Htx).
  destruct (Htx Hfd Hmode) as [Htx1 Htx2].
  unfold both_error. rewrite Hs, Hst, Htx2. done.
Qed.

Lemma tx_disable_label_full_duplex bc (w : world) :
  CONFIG_I2S_STM32_FULL_DUPLEX bc = true ->
  is_full_duplex_mode (transfer_mode (regs w)) = true ->
  state (tx w) = I2S_STATE_ERROR ->
  both_error (tx_disable_label bc w) = true /\
  rx_hw_disabled bc (tx_disable_label bc w) = true /\
  tx_hw_disabled bc (tx_disable_label bc w) = true.
Proof.
  intros Hfd Hmode Hst.
  destruct (tx_disable_label_spec bc w) as (Htx & Hs & _ & _ & Hrx).
  destruct (Hrx Hfd Hmode) as [Hrx1 Hrx2].
  unfold both_error. rewrite Hs, Hst, Hrx2. done.
Qed.

(** The error interrupt marks both streams in a full-duplex mode. *)
Lemma isr_full_duplex bc (w : world) :
  CONFIG_I2S_STM32_FULL_DUPLEX bc = true ->
  is_full_duplex_mode (transfer_mode (regs w)) = true ->
  both_error (i2s_stm32_isr bc w) = true.
Proof.
  intros Hfd Hmode. explode_bc bc. simpl in Hfd. subst b_fd.
  destruct w as [rxs txs [md rqrx rqtx ier ifre iovr iudr en mt fovr fudr ffre]
                 fr drx dtx arx atx lg irq n1 n2 n3 n4 pl].
  simpl in Hmode.
  destruct md; try discriminate; destruct fovr, fudr, ffre, b_h7; reflexivity.
Qed.

(** C7, as amended.  In a full-duplex build with the peripheral in a
    full-duplex transfer mode:
    - the RX completion handler, when it detects a DMA error status, an
      ERROR state left by the error interrupt, a failed allocation of
      the next block, or (block mode) a full queue, returns with both
      streams in ERROR and the hardware of both streams disabled;
    - the TX completion handler, when it detects a DMA error status, an
      ERROR state left by the error interrupt, or (block mode, no stop
      pending) an empty queue, does the same;
    - the peripheral error interrupt sets both streams' state to ERROR
      (the hardware is disabled by the next completion handler, which
      finds the ERROR state). *)
Theorem full_duplex_error_coupling bc (channel status : Z) (e : env) (w : world) :
  CONFIG_I2S_STM32_FULL_DUPLEX bc = true ->
  is_full_duplex_mode (transfer_mode (regs w)) = true ->
  (get_dev_from_rx_dma_channel channel w = true ->
   status <> 0 \/ state (rx w) = I2S_STATE_ERROR \/
   env_slab_alloc e RX = None \/
   (CONFIG_I2S_STM32_RX_OVERRUN_DROP bc = false /\
    reload_accepted RX e /\
    ring_buf_wf (mem_block_queue (rx w)) /\
    queue_count (mem_block_queue (rx w)) = rb_len (mem_block_queue (rx w)) - 1) ->
   exists w',
     dma_rx_callback bc channel status e w = Some w' /\
     both_error w' = true /\
     rx_hw_disabled bc w' = true /\ tx_hw_disabled bc w' = true) /\
  (get_dev_from_tx_dma_channel channel w = true ->
   status <> 0 \/ state (tx w) = I2S_STATE_ERROR \/
   (CONFIG_I2S_STM32_TX_UNDERRUN_LAST_REPEAT bc = false /\
    last_block (tx w) = false /\
    state (tx w) <> I2S_STATE_STOPPING /\
    ring_buf_wf (mem_block_queue (tx w)) /\
    queue_count (mem_block_queue (tx w)) = 0) ->
   exists w',
     dma_tx_callback bc channel status e w = Some w' /\
     both_error w' = true /\
     rx_hw_disabled bc w' = true /\ tx_hw_disabled bc w' = true) /\
  both_error (i2s_stm32_isr bc w) = true.
Proof.
  intros Hfd Hmode. split; [|split].
  - intros Hreg Hcase.
    unfold dma_rx_callback. rewrite Hreg. eexists. split; [reflexivity|].
    unfold dma_rx_callback_body.
    destruct (Z.eqb_spec status 0) as [->|Hne]; simpl negb; cbv iota;
      [|by apply rx_disable_label_full_duplex].
    destruct (decide (state (rx w) = I2S_STATE_ERROR)) as [Hst|Hst].
    { rewrite Hst. by apply rx_disable_label_full_duplex. }
    destruct (env_slab_alloc e RX) as [blk|] eqn:Halloc.
    + destruct Hcase as [?|[?|[?|(Hpol & Hacc & Hwf & Hfull)]]]; try done.
      assert (Hgo :
        dma_rx_callback_reloaded bc (mem_block (rx w))
          (reload_dma RX (rx_data_reg bc)
             (AddrMem (mem_block (rx (upd_stream RX (set_mem_block blk) w))))
             (block_size (cfg (rx (upd_stream RX (set_mem_block blk) w)))) e
             (upd_stream RX (set_mem_block blk) w)) =
        rx_disable_label bc
          (upd_stream RX (set_state I2S_STATE_ERROR)
             (set_dma RX
                {| dma_running := true; dma_src := rx_data_reg bc;
                   dma_dst := AddrMem blk;
                   dma_blk_size := block_size (cfg (rx w)) |}
                (upd_stream RX (set_mem_block blk) w)))).
      { rewrite reload_dma_accepted by done. unfold dma_rx_callback_reloaded.
        rewrite (ltb_nonneg _ (proj2 Hacc)). wcbv.
        rewrite (queue_put_full _ _ _ Hwf Hfull).
        unfold dma_rx_callback_queued. rewrite Hpol. wcbv.
        rewrite neg_ENOMEM_negative. reflexivity. }
      destruct (state (rx w)) eqn:Es; try done; cbv beta iota zeta;
        rewrite Hgo; by apply rx_disable_label_full_duplex.
    + destruct (state (rx w)) eqn:Es; try done;
        by apply rx_disable_label_full_duplex.
  - intros Hreg Hcase.
    unfold dma_tx_callback. rewrite Hreg. eexists. split; [reflexivity|].
    unfold dma_tx_callback_body.
    destruct (Z.eqb_spec status 0) as [->|Hne]; simpl negb; cbv iota;
      [|by apply tx_disable_label_full_duplex].
    destruct (tx_block_sent_frame bc w)
      as (Hs & Hl & Hq & _ & _ & _ & Hregs & _).
    unfold dma_tx_callback_sent. rewrite Hs, Hl, Hq.
    destruct (decide (state (tx w) = I2S_STATE_ERROR)) as [Hst|Hst].
    { rewrite Hst. apply tx_disable_label_full_duplex; try done.
      - by rewrite Hregs.
      - by rewrite Hs. }
    destruct Hcase as [?|[?|(Hpol & Hlast & Hstop & Hwf & Hempty)]]; try done.
    rewrite Hlast, (queue_get_empty _ Hwf Hempty).
    assert (Hgo :
      dma_tx_callback_fetched bc (- ENOMEM, mem_block_queue (tx w), None) e
        (tx_block_sent bc w) =
      tx_disable_label bc
        (upd_stream TX (set_state I2S_STATE_ERROR)
           (upd_stream TX (set_mem_block_queue (mem_block_queue (tx w)))
              (tx_block_sent bc w)))).
    { unfold dma_tx_callback_fetched. rewrite Hpol. wcbv.
      rewrite neg_ENOMEM_negative, Hs.
      destruct (state (tx w)); try done. }
    destruct (state (tx w)) eqn:Es; try done; rewrite Hgo;
      apply tx_disable_label_full_duplex; try done; wcbv; by rewrite Hregs.
  - by apply isr_full_duplex.
Qed.

Lemma full_duplex_error_coupling_witness :
  let bc := bc_with true false false in
  let e := env_ok None None in
  let w := world_full_duplex_running in
  state (rx w) = I2S_STATE_RUNNING /\ state (tx w) = I2S_STATE_RUNNING /\
  exists w',
    dma_rx_callback bc 3 (- EIO) e w = Some w' /\
    both_error w' = true /\
    rx_hw_disabled bc w' = true /\ tx_hw_disabled bc w' = true.
Proof.
  intros bc e w. split; [reflexivity|]. split; [reflexivity|].
  destruct (full_duplex_error_coupling bc 3 (- EIO) e w) as (Hrx & _ & _).
  - reflexivity.
  - reflexivity.
  - apply Hrx; [reflexivity|]. left. discriminate.
Defined.

(** C7 as stated fails for the peripheral error interrupt: in a
    full-duplex mode with both streams RUNNING, [i2s_stm32_isr] marks
    both streams ERROR but returns with the hardware of both streams
    still enabled and both DMA transfers still running. *)
Lemma full_duplex_error_coupling_counterexample :
  let bc := bc_with true false false in
  let w := world_full_duplex_running in
  CONFIG_I2S_STM32_FULL_DUPLEX bc = true /\
  is_full_duplex_mode (transfer_mode (regs w)) = true /\
  both_error (i2s_stm32_isr bc w) = true /\
  rx_hw_disabled bc (i2s_stm32_isr bc w) = false /\
  tx_hw_disabled bc (i2s_stm32_isr bc w) = false /\
  dma_running (dma_rx (i2s_stm32_isr bc w)) = true /\
  dma_running (dma_tx (i2s_stm32_isr bc w)) = true /\
  i2s_enabled (regs (i2s_stm32_isr bc w)) = true.
Proof. intros bc w. repeat split; vm_compute; reflexivity. Qed.

(** The reload-failure path of the RX handler, for the record: the peer
    is marked ERROR and both streams are disabled, but the RX stream's
    own state is left as it was. *)
Example rx_reload_failure_example :
  let bc := bc_with true false false in
  let e :=
    {| env_slab_alloc := fun _ => Some 4288;
       env_dma_config := fun _ => 0;
       env_dma_start := fun _ => 0;
       env_dma_reload := fun _ => - EINVAL;
       env_freq_in := 49152000; env_plli2s_polls := 0;
       env_clk_ready := true; env_clock_control_on := 0;
       env_pinctrl_apply_state := 0; env_dma_ready := fun _ => true |} in
  let w := world_full_duplex_running in
  exists w',
    dma_rx_callback bc 3 0 e w = Some w' /\
    state (rx w') = I2S_STATE_RUNNING /\ state (tx w') = I2S_STATE_ERROR /\
    rx_hw_disabled bc w' = true /\ tx_hw_disabled bc w' = true.
Proof.
  intros bc e w. eexists. split; [reflexivity|].
  repeat split; vm_compute; reflexivity.
Qed.

(** ** STOP and DRAIN *)

(** C8.  On a RUNNING stream STOP and DRAIN both return [0] at once and
    leave the same world behind, up to the private [last_block] flag
    that STOP sets: the same transfer engine and peripheral state (all
    disabled), the same blocks handed back to the pool in the same
    order (the in-flight block and then every queued block, oldest
    first; [slab_free_log] has the latest free first), the same empty
    queue, the same semaphore (RX: emptied; TX: given once per
    discarded block), the state READY, interrupts as they were, the
    other stream untouched.  Neither waits for, nor lets through, any
    pending block.  The same holds for the full-duplex pair when both
    streams are RUNNING: both queues are emptied, every queued block of
    both streams and both in-flight blocks are handed back, both
    semaphores are adjusted as above.  (Under the repeat-last-block
    policy the TX side hands [last_mem_block] back as well, by
    [tx_stream_disable] and again by [tx_queue_drop].) *)
Theorem stop_drain_same_effects bc (d : sdir) (e : env) (w : world) :
  state (get_stream d w) = I2S_STATE_RUNNING ->
  ring_buf_wf (mem_block_queue (get_stream d w)) ->
  exists w_drain,
    i2s_stm32_trigger bc (dir_of d) I2S_TRIGGER_DRAIN e w = (0, w_drain) /\
    i2s_stm32_trigger bc (dir_of d) I2S_TRIGGER_STOP e w =
      (0, upd_stream d (set_last_block true) w_drain) /\
    state (get_stream d w_drain) = I2S_STATE_READY /\
    match d with
    | RX => rx_hw_disabled bc w_drain
    | TX => tx_hw_disabled bc w_drain
    end = true /\
    queue_count (mem_block_queue (get_stream d w_drain)) = 0 /\
    irq_locked w_drain = irq_locked w /\
    w_drain = (i2s_stm32_trigger bc (dir_of d) I2S_TRIGGER_DROP e w).2 /\
    slab_free_log w_drain =
      match d with RX => [] | TX => released_last bc (tx w) end
      ++ rev (map (fun it => (mem_slab (cfg (get_stream d w)), item_mem_block it))
                (queue_contents (mem_block_queue (get_stream d w))))
      ++ match d with RX => [] | TX => released_last bc (tx w) end
      ++ released (get_stream d w)
      ++ slab_free_log w /\
    sem (get_stream d w_drain) =
      match d with
      | RX => k_sem_reset (sem (rx w))
      | TX =>
          Nat.iter (length (queue_contents (mem_block_queue (tx w))))
            k_sem_give (sem (tx w))
      end /\
    match d with RX => tx w_drain = tx w | TX => rx w_drain = rx w end /\
    (CONFIG_I2S_STM32_FULL_DUPLEX bc = true ->
     state (rx w) = I2S_STATE_RUNNING -> state (tx w) = I2S_STATE_RUNNING ->
     ring_buf_wf (mem_block_queue (rx w)) ->
     ring_buf_wf (mem_block_queue (tx w)) ->
     exists w_both,
       i2s_stm32_trigger bc I2S_DIR_BOTH I2S_TRIGGER_DRAIN e w = (0, w_both) /\
       i2s_stm32_trigger bc I2S_DIR_BOTH I2S_TRIGGER_STOP e w =
         (0, upd_stream TX (set_last_block true)
               (upd_stream RX (set_last_block true) w_both)) /\
       state (rx w_both) = I2S_STATE_READY /\
       state (tx w_both) = I2S_STATE_READY /\
       rx_hw_disabled bc w_both = true /\ tx_hw_disabled bc w_both = true /\
       queue_count (mem_block_queue (rx w_both)) = 0 /\
       queue_count (mem_block_queue (tx w_both)) = 0 /\
       slab_free_log w_both =
         released_last bc (tx w)
         ++ rev (map (fun it => (mem_slab (cfg (tx w)), item_mem_block it))
                   (queue_contents (mem_block_queue (tx w))))
         ++ rev (map (fun it => (mem_slab (cfg (rx w)), item_mem_block it))
                   (queue_contents (mem_block_queue (rx w))))
         ++ released_last bc (tx w)
         ++ released (tx w) ++ released (rx w)
         ++ slab_free_log w /\
       sem (rx w_both) = k_sem_reset (sem (rx w)) /\
       sem (tx w_both) =
         Nat.iter (length (queue_contents (mem_block_queue (tx w))))
           k_sem_give (sem (tx w)) /\
       irq_locked w_both = irq_locked w).
Proof.
  intros Hst Hwf. rewrite !trigger_dir_of.
  unfold i2s_stm32_trigger_half_duplex.
  destruct (queue_get_all_drains _ Hwf) as (q' & Hall & Hwf' & Hlen' & Hc').
  eexists.
  split; [|split; [|split; [|split; [|split; [|split; [|split;
    [|split; [|split; [|split]]]]]]]]].
  - unfold irq_lock. cbv beta iota zeta.
    replace (state (get_stream d (set_irq_locked true w)))
      with I2S_STATE_RUNNING by (destruct d; done).
    reflexivity.
  - unfold irq_lock. cbv beta iota zeta.
    replace (state (get_stream d (set_irq_locked true w)))
      with I2S_STATE_RUNNING by (destruct d; done).
    f_equal. explode_bc bc. destruct d, b_h7, b_rep; wexec; reflexivity.
  - destruct d; reflexivity.
  - explode_bc bc. destruct d, b_h7, b_rep; wobserve; reflexivity.
  - destruct d; wexec; wcbv_in Hall; rewrite Hall; exact Hc'.
  - explode_bc bc. destruct d, b_h7, b_rep; wexec; reflexivity.
  - rewrite Hst. explode_bc bc. destruct d, b_h7, b_rep; wexec; reflexivity.
  - explode_bc bc.
    destruct d, b_h7, b_rep; wexec; unfold dropped; wcbv; wcbv_in Hall;
      rewrite Hall; reflexivity.
  - explode_bc bc.
    destruct d, b_h7, b_rep; wexec; wcbv_in Hall; rewrite ?Hall; reflexivity.
  - explode_bc bc. destruct d, b_h7, b_rep; wexec; reflexivity.
  - intros Hfd Hrx Htx Hwr Hwt. unfold i2s_stm32_trigger. rewrite Hfd.
    unfold i2s_stm32_trigger_full_duplex, irq_lock. cbv beta iota zeta.
    replace (state (rx (set_irq_locked true w)))
      with I2S_STATE_RUNNING by done.
    replace (state (tx (set_irq_locked true w)))
      with I2S_STATE_RUNNING by done.
    simpl negb. cbv iota.
    destruct (queue_get_all_drains _ Hwr) as (qr & Hallr & _ & _ & Hcr).
    destruct (queue_get_all_drains _ Hwt) as (qt & Hallt & _ & _ & Hct).
    eexists. split; [reflexivity|].
    explode_bc bc.
    split; [f_equal; destruct b_h7, b_rep; wexec; reflexivity|].
    wcbv_in Hallr. wcbv_in Hallt.
    destruct b_h7, b_rep; wobserve; unfold dropped; wcbv;
      rewrite ?Hallr, ?Hallt; wcbv; rewrite ?Hcr, ?Hct;
      repeat match goal with |- _ /\ _ => split end; reflexivity.
Qed.

Lemma stop_drain_same_effects_witness :
  let bc := bc_with true false false in
  let e := env_ok (Some 4096) None in
  let w :=
    world_after bc
      [(CallInitialize, e); (CallConfigure I2S_DIR_BOTH (cfg_48k 1024), e);
       (CallWrite 8192 192, e); (CallWrite 8384 192, e);
       (CallTrigger I2S_DIR_BOTH I2S_TRIGGER_START, e);
       (CallRxComplete 0, env_ok (Some 4288) None)] in
  exists w_drain w_both,
    i2s_stm32_trigger bc I2S_DIR_TX I2S_TRIGGER_DRAIN e w = (0, w_drain) /\
    i2s_stm32_trigger bc I2S_DIR_TX I2S_TRIGGER_STOP e w =
      (0, upd_stream TX (set_last_block true) w_drain) /\
    state (tx w_drain) = I2S_STATE_READY /\
    tx_hw_disabled bc w_drain = true /\
    queue_count (mem_block_queue (tx w_drain)) = 0 /\
    slab_free_log w_drain = [(1024, 8384); (1024, 8192)] /\
    i2s_stm32_trigger bc I2S_DIR_BOTH I2S_TRIGGER_DRAIN e w = (0, w_both) /\
    i2s_stm32_trigger bc I2S_DIR_BOTH I2S_TRIGGER_STOP e w =
      (0, upd_stream TX (set_last_block true)
            (upd_stream RX (set_last_block true) w_both)) /\
    queue_count (mem_block_queue (rx w_both)) = 0 /\
    queue_count (mem_block_queue (tx w_both)) = 0 /\
    slab_free_log w_both =
      [(1024, 8384); (1024, 4096); (1024, 8192); (1024, 4288)].
Proof.
  intros bc e w.
  destruct (stop_drain_same_effects bc TX e w)
    as (wd & Hdrain & Hstop & Hst & Hhw & Hq & _ & _ & Hlog & _ & _ & Hboth).
  - vm_compute. reflexivity.
  - repeat split; vm_compute; congruence.
  - destruct Hboth
      as (wb & Hbd & Hbs & _ & _ & _ & _ & Hqr & Hqt & Hlb & _).
    + reflexivity.
    + vm_compute. reflexivity.
    + vm_compute. reflexivity.
    + repeat split; vm_compute; congruence.
    + repeat split; vm_compute; congruence.
    + exists wd, wb.
      repeat match goal with |- _ /\ _ => split end; assumption.
Defined.

(** ** Configuration *)

Lemma configure_stream_accepts bc (d : sdir) (i2s_cfg : i2s_config) (w : world) :
  state (get_stream d w) = I2S_STATE_NOT_READY \/
  state (get_stream d w) = I2S_STATE_READY ->
  frame_clk_freq i2s_cfg <> 0 ->
  exists w',
    i2s_stm32_configure_stream bc d i2s_cfg w = (0, w') /\
    state (get_stream d w') = state (get_stream d w) /\
    cfg (get_stream d w') = i2s_cfg /\
    master (get_stream d w') = negb (clk_slave bc i2s_cfg) /\
    match d with RX => tx w' = tx w | TX => rx w' = rx w end.
Proof.
  intros Hst Hf. unfold i2s_stm32_configure_stream.
  apply Z.eqb_neq in Hf. rewrite Hf.
  destruct Hst as [Hst|Hst]; rewrite Hst; eexists; (split; [reflexivity|]);
    destruct d, (clk_slave bc i2s_cfg); wcbv; rewrite ?Hst; done.
Qed.

(** The clock setup touches the prescaler and the PLL counter only. *)
Lemma set_clock_ok bc (i2s_cfg : i2s_config) (e : env) (w : world) :
  clock_setup_ok bc i2s_cfg e w ->
  exists w',
    i2s_stm32_set_clock bc (bit_clk_freq_of i2s_cfg) e w = Some (0, w') /\
    rx w' = rx w /\ tx w' = tx w.
Proof.
  intros [Hbit Hpll]. unfold i2s_stm32_set_clock, div_round_closest.
  apply Z.eqb_neq in Hbit. rewrite Hbit.
  destruct (CONFIG_I2S_STM32_USE_PLLI2S_ENABLE bc).
  - specialize (Hpll eq_refl).
    destruct (plli2s_wait (env_plli2s_polls e) (plli2s_ms_count w)) as [r c].
    simpl in Hpll. subst r. eexists. split; [reflexivity|]. done.
  - eexists. split; [reflexivity|]. done.
Qed.

(** After the stream part, a call with an unsupported word size or
    format comes back with [-EINVAL] and the streams as the stream part
    left them. *)
Lemma configure_device_rejects bc (dir : i2s_dir) (i2s_cfg : i2s_config)
    (e : env) (w : world) :
  clock_setup_ok bc i2s_cfg e w ->
  (word_size i2s_cfg <> 16 /\ word_size i2s_cfg <> 24 /\ word_size i2s_cfg <> 32) \/
  standard_of_format bc i2s_cfg = None ->
  exists w',
    i2s_stm32_configure_device bc dir i2s_cfg e w = Some (- EINVAL, w') /\
    rx w' = rx w /\ tx w' = tx w.
Proof.
  intros Hclk Hbad. unfold i2s_stm32_configure_device.
  destruct (set_clock_ok bc i2s_cfg e w Hclk) as (w1 & Hset & Hrx & Htx).
  fold (bit_clk_freq_of i2s_cfg). rewrite Hset. change (0 <? 0) with false.
  cbv iota.
  destruct (negb (Z.land (options i2s_cfg) (I2S_OPT_IO_SWAP bc) =? 0));
    destruct (dataformat_of_word_size i2s_cfg) as [df|] eqn:Hdf;
    destruct (standard_of_format bc i2s_cfg) as [st|] eqn:Hstd;
    try (eexists; split; [reflexivity|]; wcbv; done).
  all: exfalso; destruct Hbad as [(H16 & H24 & H32)|?]; [|done].
  all: unfold dataformat_of_word_size in Hdf.
  all: apply Z.eqb_neq in H16, H24, H32; rewrite H16, H24, H32 in Hdf; done.
Qed.

(** C9, as amended.  A configure call for one direction with an
    unsupported word size (not 16, 24 or 32) or an unsupported data
    format, made while that stream is NOT_READY or READY, with a
    non-zero frame clock frequency and a clock setup that goes through,
    returns the invalid-argument error [-EINVAL]; the state of both
    streams is unchanged (in particular the stream is not made READY)
    and the other stream is untouched; but the stream's stored
    configuration is already the rejected one and its master/slave role
    is already the one the rejected options ask for. *)
Theorem configure_rejects_bad_format bc (d : sdir) (i2s_cfg : i2s_config)
    (e : env) (w : world) :
  state (get_stream d w) = I2S_STATE_NOT_READY \/
  state (get_stream d w) = I2S_STATE_READY ->
  frame_clk_freq i2s_cfg <> 0 ->
  clock_setup_ok bc i2s_cfg e w ->
  (word_size i2s_cfg <> 16 /\ word_size i2s_cfg <> 24 /\ word_size i2s_cfg <> 32) \/
  standard_of_format bc i2s_cfg = None ->
  exists w',
    i2s_stm32_configure bc (dir_of d) i2s_cfg e w = Some (- EINVAL, w') /\
    state (rx w') = state (rx w) /\
    state (tx w') = state (tx w) /\
    match d with RX => tx w' = tx w | TX => rx w' = rx w end /\
    cfg (get_stream d w') = i2s_cfg /\
    master (get_stream d w') = negb (clk_slave bc i2s_cfg).
Proof.
  intros Hst Hf Hclk Hbad.
  destruct (configure_stream_accepts bc d i2s_cfg w Hst Hf)
    as (w1 & Hcs & Hst1 & Hcfg1 & Hm1 & Hother).
  assert (Hclk1 : clock_setup_ok bc i2s_cfg e w1).
  { destruct Hclk as [Hb Hp]. split; [done|].
    replace (plli2s_ms_count w1) with (plli2s_ms_count w); [done|].
    revert Hcs. unfold i2s_stm32_configure_stream.
    apply Z.eqb_neq in Hf. rewrite Hf.
    destruct Hst as [Hs|Hs]; rewrite Hs; intros [= <-];
      destruct d, (clk_slave bc i2s_cfg); reflexivity. }
  destruct (configure_device_rejects bc (dir_of d) i2s_cfg e w1 Hclk1 Hbad)
    as (w2 & Hdev & Hrx & Htx).
  exists w2. unfold i2s_stm32_configure.
  destruct d; simpl dir_of in *; cbv iota; rewrite Hcs; simpl negb; cbv iota;
    rewrite Hdev; simpl get_stream in *; rewrite ?Hrx, ?Htx, ?Hother;
    repeat match goal with |- _ /\ _ => split end; congruence.
Qed.

Lemma configure_rejects_bad_format_witness :
  let bc := bc_default in
  let e := env_ok None None in
  let w :=
    world_after bc
      [(CallInitialize, e); (CallConfigure I2S_DIR_TX (cfg_48k 1024), e)] in
  exists w',
    i2s_stm32_configure bc I2S_DIR_TX (cfg_bad_word_size 2048) e w =
      Some (- EINVAL, w') /\
    state (rx w') = state (rx w) /\
    state (tx w') = I2S_STATE_READY /\
    rx w' = rx w /\
    cfg (tx w') = cfg_bad_word_size 2048 /\
    master (tx w') = false.
Proof.
  intros bc e w.
  apply (configure_rejects_bad_format bc TX (cfg_bad_word_size 2048) e w).
  - right. reflexivity.
  - discriminate.
  - split; [vm_compute; discriminate | discriminate].
  - left. repeat split; discriminate.
Defined.

(** C9 as stated fails: a READY TX stream configured as master with
    16-bit words is offered an 8-bit slave configuration; the call
    returns [-EINVAL], the stream stays READY, but its stored
    configuration and its role are those of the rejected call. *)
Lemma configure_rejects_bad_format_counterexample :
  let bc := bc_default in
  let e := env_ok None None in
  let w :=
    world_after bc
      [(CallInitialize, e); (CallConfigure I2S_DIR_TX (cfg_48k 1024), e)] in
  state (tx w) = I2S_STATE_READY /\
  cfg (tx w) = cfg_48k 1024 /\ master (tx w) = true /\
  exists w',
    i2s_stm32_configure bc I2S_DIR_TX (cfg_bad_word_size 2048) e w =
      Some (- EINVAL, w') /\
    cfg (tx w') <> cfg (tx w) /\
    master (tx w') <> master (tx w).
Proof.
  intros bc e w. split; [vm_compute; reflexivity|].
  split; [vm_compute; reflexivity|]. split; [vm_compute; reflexivity|].
  eexists. split; [vm_compute; reflexivity|].
  split; vm_compute; discriminate.
Qed.

(** ** Write before START *)

Lemma start_dma_accepted (d : sdir) src dst blk_size (e : env) (w : world) :
  start_accepted d e ->
  start_dma d src dst blk_size e w =
  (env_dma_start e d,
   set_dma d {| dma_running := true; dma_src := src; dma_dst := dst;
                dma_blk_size := blk_size |} w).
Proof.
  intros [Hc Hs]. unfold start_dma, dma_config.
  rewrite (ltb_nonneg _ Hc). cbv beta iota zeta. rewrite (ltb_nonneg _ Hc).
  unfold dma_start. rewrite (ltb_nonneg _ Hs). destruct d; reflexivity.
Qed.

(** START on TX with an empty queue, block mode. *)
Lemma tx_start_empty_queue bc (e : env) (w : world) :
  CONFIG_I2S_STM32_TX_UNDERRUN_LAST_REPEAT bc = false ->
  state (tx w) = I2S_STATE_READY ->
  ring_buf_wf (mem_block_queue (tx w)) ->
  queue_count (mem_block_queue (tx w)) = 0 ->
  i2s_stm32_trigger bc I2S_DIR_TX I2S_TRIGGER_START e w = (- ENOMEM, w).
Proof.
  intros Hpol Hst Hwf Hempty.
  unfold i2s_stm32_trigger, i2s_stm32_trigger_half_duplex. simpl get_stream.
  rewrite Hst. unfold stream_start, tx_stream_start, tx_stream_start_dma.
  rewrite Hpol. unfold tx_stream_start_dma_fetch. simpl get_stream.
  rewrite (queue_get_empty _ Hwf Hempty).
  unfold tx_stream_start_dma_fetched. rewrite Hpol. wcbv.
  rewrite !neg_ENOMEM_negative. reflexivity.
Qed.

(** START on TX once a block is queued, block mode. *)
Lemma tx_start_with_block bc (b s : Z) (q' : ring_buf) (e : env) (w : world) :
  CONFIG_I2S_STM32_TX_UNDERRUN_LAST_REPEAT bc = false ->
  state (tx w) = I2S_STATE_READY ->
  queue_get (mem_block_queue (tx w)) =
    (0, q', Some {| item_mem_block := b; item_size := s |}) ->
  start_accepted TX e ->
  exists w',
    i2s_stm32_trigger bc I2S_DIR_TX I2S_TRIGGER_START e w = (0, w') /\
    state (tx w') = I2S_STATE_RUNNING /\
    last_block (tx w') = false /\
    mem_block (tx w') = b /\ mem_block_size (tx w') = s /\
    mem_block_queue (tx w') = q' /\
    sem (tx w') = k_sem_give (sem (tx w)) /\
    dma_running (dma_tx w') = true /\
    dma_src (dma_tx w') = AddrMem b /\
    dma_req_tx (regs w') = true /\ i2s_enabled (regs w') = true /\
    get_dev_from_tx_dma_channel (dma_channel (tx w)) w' =
      bool_decide (Z.to_nat (dma_channel (tx w)) < length (active_dma_tx_channel w))%nat.
Proof.
  intros Hpol Hst Hget Hacc.
  unfold i2s_stm32_trigger, i2s_stm32_trigger_half_duplex. simpl get_stream.
  rewrite Hst. unfold stream_start, tx_stream_start, tx_stream_start_dma.
  rewrite Hpol. unfold tx_stream_start_dma_fetch. simpl get_stream.
  rewrite Hget. unfold tx_stream_start_dma_fetched. rewrite Hpol. wcbv.
  change (0 <? 0) with false. wcbv.
  rewrite start_dma_accepted by done. rewrite (ltb_nonneg _ (proj2 Hacc)).
  change (0 <? 0) with false. cbv iota.
  eexists. split; [reflexivity|].
  explode_bc bc. unfold get_dev_from_tx_dma_channel.
  destruct b_h7; wcbv; repeat match goal with |- _ /\ _ => split end;
    try reflexivity.
  all: case_bool_decide as Hlt.
  all: try (rewrite list_lookup_insert_eq by done; reflexivity).
  all: rewrite list_insert_ge by lia; rewrite lookup_ge_None_2 by lia; reflexivity.
Qed.

(** C10.  Block mode: on a READY TX stream whose queue is empty, START
    fails: the [-ENOMEM] of [queue_get] is returned to the caller and
    nothing changes, so the stream stays READY.  A write is accepted in
    that state: with a free slot counted by the semaphore and a queue of
    at least one usable slot it returns [0], leaves the stream READY and
    queues the block; START then succeeds (the Transfer Engine
    accepting) and transmits that very block: the stream is RUNNING with
    the written block in flight as the source of the running DMA
    transfer. *)
Theorem tx_start_needs_written_block bc (b s : Z) (e : env) (w : world) :
  CONFIG_I2S_STM32_TX_UNDERRUN_LAST_REPEAT bc = false ->
  state (tx w) = I2S_STATE_READY ->
  ring_buf_wf (mem_block_queue (tx w)) ->
  queue_count (mem_block_queue (tx w)) = 0 ->
  i2s_stm32_trigger bc I2S_DIR_TX I2S_TRIGGER_START e w = (- ENOMEM, w) /\
  (0 < sem_count (sem (tx w)) ->
   1 < rb_len (mem_block_queue (tx w)) ->
   exists w1,
     i2s_stm32_write b s w = (0, w1) /\
     state (tx w1) = I2S_STATE_READY /\
     queue_contents (mem_block_queue (tx w1)) =
       [ {| item_mem_block := b; item_size := s |} ] /\
     sem_count (sem (tx w1)) = sem_count (sem (tx w)) - 1 /\
     (start_accepted TX e ->
      exists w2,
        i2s_stm32_trigger bc I2S_DIR_TX I2S_TRIGGER_START e w1 = (0, w2) /\
        state (tx w2) = I2S_STATE_RUNNING /\
        mem_block (tx w2) = b /\ mem_block_size (tx w2) = s /\
        dma_running (dma_tx w2) = true /\
        dma_src (dma_tx w2) = AddrMem b /\
        queue_count (mem_block_queue (tx w2)) = 0)).
Proof.
  intros Hpol Hst Hwf Hempty. split; [by apply tx_start_empty_queue|].
  intros Hsem Hlen.
  destruct (queue_put_room (mem_block_queue (tx w)) b s Hwf ltac:(lia))
    as (q1 & Hput & Hwf1 & Hlen1 & Hcont1 & Hcnt1).
  rewrite (queue_contents_empty _ Hempty) in Hcont1. simpl in Hcont1.
  unfold i2s_stm32_write. rewrite Hst. unfold k_sem_take.
  apply Z.ltb_lt in Hsem. rewrite Hsem. wcbv. change (0 <? 0) with false.
  cbv iota. rewrite Hput. wcbv.
  eexists. split; [reflexivity|]. wcbv.
  split; [done|]. split; [done|]. split; [done|].
  intros Hacc.
  destruct (queue_get_nonempty q1 Hwf1 ltac:(lia))
    as (it & q2 & Hget & Hwf2 & Hlen2 & Hcont2 & Hcnt2).
  rewrite Hcont1 in Hcont2. injection Hcont2 as <- Hnil.
  match goal with
  | |- context [i2s_stm32_trigger bc _ _ e ?W] =>
      destruct (tx_start_with_block bc b s q2 e W)
        as (w2 & Hstart & Hs2 & _ & Hmb & Hsz & Hq2 & _ & Hrun & Hsrc & _);
        try done
  end.
  exists w2. rewrite Hq2. repeat split; try done. lia.
Qed.

Lemma tx_start_needs_written_block_witness :
  let bc := bc_default in
  let e := env_ok None None in
  let w :=
    world_after bc
      [(CallInitialize, e); (CallConfigure I2S_DIR_TX (cfg_48k 1024), e)] in
  i2s_stm32_trigger bc I2S_DIR_TX I2S_TRIGGER_START e w = (- ENOMEM, w) /\
  exists w1 w2,
    i2s_stm32_write 536883200 192 w = (0, w1) /\
    i2s_stm32_trigger bc I2S_DIR_TX I2S_TRIGGER_START e w1 = (0, w2) /\
    state (tx w2) = I2S_STATE_RUNNING /\
    mem_block (tx w2) = 536883200.
Proof.
  intros bc e w.
  destruct (tx_start_needs_written_block bc 536883200 192 e w)
    as (Hfail & Hwrite).
  - reflexivity.
  - reflexivity.
  - repeat split; vm_compute; congruence.
  - reflexivity.
  - split; [exact Hfail|].
    destruct Hwrite as (w1 & Hw & _ & _ & _ & Hstart).
    + vm_compute. reflexivity.
    + vm_compute. reflexivity.
    + destruct Hstart as (w2 & Hs & Hst & Hmb & _).
      * split; vm_compute; congruence.
      * exists w1, w2. auto.
Defined.

(* ================================================================== *)
(** * Further properties of the driver *)
(* ================================================================== *)

(** ** Block queue: errors and invariants *)

(** X1.  [queue_put] fails exactly when the queue holds [len - 1]
    entries, [queue_get] exactly when it holds none; the error is
    [-ENOMEM] in both cases and the queue (array and indices) is left as
    it was. *)
Theorem queue_errors_without_mutation (rb : ring_buf) (b s : Z) :
  ring_buf_wf rb ->
  ((queue_put rb b s).1 <> 0 <-> queue_count rb = rb_len rb - 1) /\
  ((queue_put rb b s).1 <> 0 -> queue_put rb b s = (- ENOMEM, rb)) /\
  ((queue_get rb).1.1 <> 0 <-> queue_count rb = 0) /\
  ((queue_get rb).1.1 <> 0 -> queue_get rb = (- ENOMEM, rb, None)).
Proof.
  intros Hwf. pose proof (queue_count_range rb Hwf) as Hr.
  assert (Hput : (queue_put rb b s).1 <> 0 <-> queue_count rb = rb_len rb - 1).
  { split.
    - intros Hne.
      destruct (Z.eq_dec (queue_count rb) (rb_len rb - 1)) as [|Hroom]; [done|].
      destruct (queue_put_room rb b s Hwf ltac:(lia)) as (rb' & Hp & _).
      rewrite Hp in Hne. done.
    - intros Hfull. rewrite (queue_put_full rb b s Hwf Hfull). done. }
  assert (Hget : (queue_get rb).1.1 <> 0 <-> queue_count rb = 0).
  { split.
    - intros Hne.
      destruct (Z.eq_dec (queue_count rb) 0) as [|Hc]; [done|].
      destruct (queue_get_nonempty rb Hwf Hc) as (it & rb' & Hg & _).
      rewrite Hg in Hne. done.
    - intros Hc. rewrite (queue_get_empty rb Hwf Hc). done. }
  repeat split; try tauto.
  - intros Hne. apply queue_put_full; tauto.
  - intros Hne. apply queue_get_empty; tauto.
Qed.

Lemma queue_errors_without_mutation_witness :
  let rb := {| rb_buf := replicate 2 inhabitant; rb_len := 2;
               rb_head := 1; rb_tail := 0 |} in
  queue_put rb 77 8 = (- ENOMEM, rb).
Proof.
  intros rb.
  destruct (queue_errors_without_mutation rb 77 8) as (_ & H & _).
  - repeat split; vm_compute; congruence.
  - apply H. vm_compute. discriminate.
Defined.

(** X2.  Both queue operations keep a queue well formed (array size,
    length and index ranges), never change its length, and move the
    number of entries by exactly one on success: so the queue never
    holds more than [len - 1] entries. *)
Theorem queue_ops_keep_invariant (rb : ring_buf) (b s : Z) :
  ring_buf_wf rb ->
  ring_buf_wf (queue_put rb b s).2 /\
  ring_buf_wf (queue_get rb).1.2 /\
  rb_len (queue_put rb b s).2 = rb_len rb /\
  rb_len (queue_get rb).1.2 = rb_len rb /\
  ((queue_put rb b s).1 = 0 ->
   queue_count (queue_put rb b s).2 = queue_count rb + 1) /\
  ((queue_get rb).1.1 = 0 ->
   queue_count (queue_get rb).1.2 = queue_count rb - 1) /\
  0 <= queue_count rb <= rb_len rb - 1.
Proof.
  intros Hwf. pose proof (queue_count_range rb Hwf) as Hr.
  destruct (Z.eq_dec (queue_count rb) (rb_len rb - 1)) as [Hfull|Hroom];
    destruct (Z.eq_dec (queue_count rb) 0) as [Hc|Hc].
  - rewrite (queue_put_full rb b s Hwf Hfull), (queue_get_empty rb Hwf Hc).
    cbn [fst snd]. unfold ENOMEM.
    repeat match goal with |- _ /\ _ => split end; try done; try lia.
  - rewrite (queue_put_full rb b s Hwf Hfull).
    destruct (queue_get_nonempty rb Hwf Hc) as (it & r2 & Hg & Hw2 & Hl2 & _ & Hc2).
    rewrite Hg. cbn [fst snd]. unfold ENOMEM.
    repeat match goal with |- _ /\ _ => split end; try done; try lia.
  - rewrite (queue_get_empty rb Hwf Hc).
    destruct (queue_put_room rb b s Hwf ltac:(lia)) as (r1 & Hp & Hw1 & Hl1 & _ & Hc1).
    rewrite Hp. cbn [fst snd]. unfold ENOMEM.
    repeat match goal with |- _ /\ _ => split end; try done; try lia.
  - destruct (queue_get_nonempty rb Hwf Hc) as (it & r2 & Hg & Hw2 & Hl2 & _ & Hc2).
    destruct (queue_put_room rb b s Hwf ltac:(lia)) as (r1 & Hp & Hw1 & Hl1 & _ & Hc1).
    rewrite Hp, Hg. cbn [fst snd].
    repeat match goal with |- _ /\ _ => split end; try done; try lia.
Qed.

Lemma queue_ops_keep_invariant_witness :
  let rb := {| rb_buf := replicate 3 inhabitant; rb_len := 3;
               rb_head := 2; rb_tail := 2 |} in
  queue_count (queue_put rb 77 8).2 = 1 /\ rb_head (queue_put rb 77 8).2 = 0.
Proof.
  intros rb.
  destruct (queue_ops_keep_invariant rb 77 8) as (_ & _ & _ & _ & H & _).
  - repeat split; vm_compute; congruence.
  - split; [apply H|]; reflexivity.
Defined.

(** ** Clock divider *)

(** X3.  [div_round_closest] is undefined for a zero divisor; otherwise,
    as long as [dividend + divisor / 2] fits 32 bits, its result [q] is
    the quotient rounded to the nearest integer: [q * divisor] differs
    from [dividend] by at most half the divisor. *)
Theorem div_round_closest_nearest (dividend divisor : Z) :
  div_round_closest dividend 0 = None /\
  (0 < divisor -> 0 <= dividend -> dividend + divisor / 2 < 4294967296 ->
   exists q,
     div_round_closest dividend divisor = Some q /\
     0 <= q /\
     2 * Z.abs (dividend - q * divisor) <= divisor).
Proof.
  split; [reflexivity|]. intros Hd Hn Hfit.
  unfold div_round_closest, u32.
  destruct (Z.eqb_spec divisor 0) as [|_]; [lia|].
  eexists. split; [reflexivity|].
  assert (H2 : 0 <= divisor / 2) by (apply Z.div_pos; lia).
  rewrite Z.mod_small by lia.
  pose proof (Z.div_mod (dividend + divisor / 2) divisor ltac:(lia)) as Hdm.
  pose proof (Z.mod_pos_bound (dividend + divisor / 2) divisor Hd) as Hmb.
  pose proof (Z.div_mod divisor 2 ltac:(lia)) as Hd2.
  pose proof (Z.mod_pos_bound divisor 2 ltac:(lia)) as Hm2.
  split; [apply Z.div_pos; lia|].
  generalize dependent ((dividend + divisor / 2) / divisor).
  generalize dependent ((dividend + divisor / 2) mod divisor).
  generalize dependent (divisor mod 2).
  generalize dependent (divisor / 2).
  intros h Hh m Hd2 Hm2 r Hr q Hdm. nia.
Qed.

Lemma div_round_closest_nearest_witness :
  exists q, div_round_closest 49152000 1536000 = Some q /\
            2 * Z.abs (49152000 - q * 1536000) <= 1536000.
Proof.
  destruct (div_round_closest_nearest 49152000 1536000) as (_ & H).
  destruct H as (q & Hq & _ & Hb); [lia | lia | vm_compute; reflexivity|].
  exists q. split; assumption.
Defined.

(** X4.  The wait for the PLLI2S lock gives up after two unsuccessful
    polls counted over the whole life of the driver: [plli2s_ms_count]
    is never reset, so with the counter at [c] a wait succeeds exactly
    when the PLL is ready at once or [c] plus the number of unsuccessful
    polls is at most [2]; a successful wait leaves the counter at that
    sum, a failed one returns [-EIO]. *)
Theorem plli2s_wait_budget (polls : nat) (c : Z) :
  0 <= c < 65536 ->
  ((plli2s_wait polls c).1 = 0 <-> polls = O \/ c + Z.of_nat polls <= 2) /\
  ((plli2s_wait polls c).1 = 0 -> (plli2s_wait polls c).2 = c + Z.of_nat polls) /\
  ((plli2s_wait polls c).1 <> 0 -> (plli2s_wait polls c).1 = - EIO).
Proof.
  revert c. induction polls as [|n IH]; intros c Hc.
  - cbn [plli2s_wait fst snd]. split; [|split].
    + split; [by left|done].
    + intros _. simpl. lia.
    + done.
  - cbn [plli2s_wait]. unfold PLLI2S_MAX_MS_TIME.
    destruct (Z.gtb_spec c 1) as [Hgt|Hle].
    + cbn [fst snd]. unfold EIO. split; [|split].
      * split; [done|]. intros [?|?]; [done|lia].
      * done.
      * done.
    + assert (Hu : u16 (c + 1) = c + 1) by (unfold u16; apply Z.mod_small; lia).
      rewrite Hu. destruct (IH (c + 1) ltac:(lia)) as (H1 & H2 & H3).
      split; [|split].
      * split.
        -- intros H0. apply H1 in H0. right. destruct H0 as [->|?]; lia.
        -- intros [?|Hs]; [done|]. apply H1.
           destruct n; [by left|right; lia].
      * intros H0. rewrite (H2 H0). lia.
      * exact H3.
Qed.

Lemma plli2s_wait_budget_witness :
  (plli2s_wait 1 2).1 = - EIO /\ (plli2s_wait 2 0).1 = 0.
Proof.
  destruct (plli2s_wait_budget 1 2) as (_ & _ & H); [lia|].
  destruct (plli2s_wait_budget 2 0) as (H0 & _); [lia|].
  split; [apply H; vm_compute; discriminate | apply H0; right; lia].
Defined.

(** X5.  [i2s_stm32_set_clock] programs the prescaler so that twice the
    linear part plus the parity bit is the rounded clock ratio truncated
    to 8 bits ("(i2s_div * 2) + i2s_odd"), and touches nothing but the
    prescaler and the PLL poll counter; it is undefined for a zero bit
    clock, and a PLLI2S that does not lock in time makes it return
    [-EIO] with the prescaler untouched. *)
Theorem set_clock_prescaler bc (bit_clk : Z) (e : env) (w : world) :
  (CONFIG_I2S_STM32_USE_PLLI2S_ENABLE bc = true ->
   (plli2s_wait (env_plli2s_polls e) (plli2s_ms_count w)).1 <> 0 ->
   exists w',
     i2s_stm32_set_clock bc bit_clk e w = Some (- EIO, w') /\
     fregs w' = fregs w /\ rx w' = rx w /\ tx w' = tx w) /\
  ((CONFIG_I2S_STM32_USE_PLLI2S_ENABLE bc = true ->
    (plli2s_wait (env_plli2s_polls e) (plli2s_ms_count w)).1 = 0) ->
   (bit_clk = 0 -> i2s_stm32_set_clock bc bit_clk e w = None) /\
   (bit_clk <> 0 ->
    exists q w',
      div_round_closest (u32 (env_freq_in e)) bit_clk = Some q /\
      i2s_stm32_set_clock bc bit_clk e w = Some (0, w') /\
      2 * prescaler_linear (fregs w') + prescaler_parity (fregs w') = q mod 256 /\
      (prescaler_parity (fregs w') = 0 \/ prescaler_parity (fregs w') = 1) /\
      rx w' = rx w /\ tx w' = tx w /\ regs w' = regs w /\
      dma_rx w' = dma_rx w /\ dma_tx w' = dma_tx w)).
Proof.
  unfold i2s_stm32_set_clock. split.
  - intros Hpll Hfail. rewrite Hpll.
    destruct (plli2s_wait (env_plli2s_polls e) (plli2s_ms_count w)) as [r c] eqn:Ew.
    cbn [fst snd] in *.
    assert (Hr : (r <? 0) = true).
    { destruct (Z.ltb_spec r 0) as [|Hge]; [done|].
      (* the only codes the wait returns are 0 and -EIO *)
      exfalso. revert Ew.
      generalize (plli2s_ms_count w). induction (env_plli2s_polls e) as [|n IH];
        intros c0; cbn [plli2s_wait].
      - intros [= <- _]. done.
      - destruct (c0 >? PLLI2S_MAX_MS_TIME).
        + intros [= <- _]. unfold EIO in Hge. lia.
        + apply IH. }
    rewrite Hr. assert (r = - EIO) as ->.
    { destruct (Z.ltb_spec r 0) as [Hlt|]; [|done]. revert Ew.
      generalize (plli2s_ms_count w). induction (env_plli2s_polls e) as [|n IH];
        intros c0; cbn [plli2s_wait].
      - intros [= <- _]. lia.
      - destruct (c0 >? PLLI2S_MAX_MS_TIME).
        + intros [= <- _]. done.
        + apply IH. }
    eexists. split; [reflexivity|]. done.
  - intros Hpll.
    assert (Hpre :
      (let '(ret, w0) :=
         if CONFIG_I2S_STM32_USE_PLLI2S_ENABLE bc
         then
           let '(ret, count) :=
             plli2s_wait (env_plli2s_polls e) (plli2s_ms_count w) in
           (ret, set_plli2s_ms_count count w)
         else (0, w) in (ret, fregs w0, rx w0, tx w0, regs w0, dma_rx w0, dma_tx w0))
      = (0, fregs w, rx w, tx w, regs w, dma_rx w, dma_tx w)).
    { destruct (CONFIG_I2S_STM32_USE_PLLI2S_ENABLE bc); [|done].
      specialize (Hpll eq_refl).
      destruct (plli2s_wait (env_plli2s_polls e) (plli2s_ms_count w)) as [r c].
      cbn [fst] in Hpll. subst r. done. }
    destruct (if CONFIG_I2S_STM32_USE_PLLI2S_ENABLE bc
              then
                let '(ret, count) :=
                  plli2s_wait (env_plli2s_polls e) (plli2s_ms_count w) in
                (ret, set_plli2s_ms_count count w)
              else (0, w)) as [ret w0].
    injection Hpre as -> Hf Hrx Htx Hregs Hdrx Hdtx.
    change (0 <? 0) with false. cbv iota. unfold div_round_closest.
    split.
    + intros ->. reflexivity.
    + intros Hne. apply Z.eqb_neq in Hne. rewrite Hne.
      eexists _, _. split; [reflexivity|]. split; [reflexivity|]. wcbv.
      set (q := u32 (u32 (env_freq_in e) + bit_clk / 2) / bit_clk).
      unfold u8.
      assert (Hland : Z.land (q mod 256) 1 = (q mod 256) mod 2).
      { change 1 with (Z.ones 1). rewrite Z.land_ones by lia. done. }
      assert (Hpar :
        (if Z.land (q mod 256) 1 =? 0 then 0 else 1) = (q mod 256) mod 2).
      { rewrite Hland.
        pose proof (Z.mod_pos_bound (q mod 256) 2 ltac:(lia)).
        destruct (Z.eqb_spec ((q mod 256) mod 2) 0); lia. }
      rewrite Hpar, Z.shiftr_div_pow2 by lia. change (2 ^ 1) with 2.
      pose proof (Z.div_mod (q mod 256) 2 ltac:(lia)).
      pose proof (Z.mod_pos_bound (q mod 256) 2 ltac:(lia)).
      repeat match goal with |- _ /\ _ => split end; try done; lia.
Qed.

Lemma set_clock_prescaler_witness :
  let w := world_static bc_default in
  exists w',
    i2s_stm32_set_clock bc_default 1536000 (env_ok None None) w = Some (0, w') /\
    prescaler_linear (fregs w') = 16 /\ prescaler_parity (fregs w') = 0.
Proof.
  intros w.
  destruct (set_clock_prescaler bc_default 1536000 (env_ok None None) w)
    as (_ & H).
  destruct H as (_ & H); [discriminate|].
  destruct H as (q & w' & Hq & Hs & _); [discriminate|].
  exists w'. split; [exact Hs|].
  vm_compute in Hs. injection Hs as <-. split; reflexivity.
Defined.

(** ** Triggers: rejected requests *)

(** X6.  An unsupported trigger command is refused with [-EINVAL] and an
    unsupported direction with [-EINVAL]; [I2S_DIR_BOTH] in a build
    without full-duplex support is refused with [-ENOSYS], for triggers
    and for configure alike.  None of these calls changes anything. *)
Theorem unsupported_requests_rejected bc (dir : i2s_dir) (cmd : i2s_trigger_cmd)
    (i2s_cfg : i2s_config) (e : env) (w : world) :
  i2s_stm32_trigger bc I2S_DIR_INVALID cmd e w = (- EINVAL, w) /\
  i2s_stm32_configure bc I2S_DIR_INVALID i2s_cfg e w = Some (- EINVAL, w) /\
  (CONFIG_I2S_STM32_FULL_DUPLEX bc = false ->
   i2s_stm32_trigger bc I2S_DIR_BOTH cmd e w = (- ENOSYS, w) /\
   i2s_stm32_configure bc I2S_DIR_BOTH i2s_cfg e w = Some (- ENOSYS, w)) /\
  (dir <> I2S_DIR_INVALID ->
   (dir = I2S_DIR_BOTH -> CONFIG_I2S_STM32_FULL_DUPLEX bc = true) ->
   i2s_stm32_trigger bc dir I2S_TRIGGER_INVALID e w = (- EINVAL, w)).
Proof.
  split; [reflexivity|]. split; [reflexivity|]. split.
  - intros Hfd. unfold i2s_stm32_trigger, i2s_stm32_configure. rewrite Hfd. done.
  - intros Hdir Hfd. unfold i2s_stm32_trigger.
    destruct dir; try done. rewrite Hfd by done. reflexivity.
Qed.

Lemma unsupported_requests_rejected_witness :
  let w := world_static bc_default in
  i2s_stm32_trigger bc_default I2S_DIR_BOTH I2S_TRIGGER_START (env_ok None None) w
    = (- ENOSYS, w).
Proof.
  intros w.
  destruct (unsupported_requests_rejected bc_default I2S_DIR_BOTH
              I2S_TRIGGER_START (cfg_48k 0) (env_ok None None) w)
    as (_ & _ & H & _).
  apply H. reflexivity.
Defined.

(** X7.  STOP, DRAIN and PREPARE issued for one direction from a state
    they are not legal in (STOP and DRAIN: anything but RUNNING,
    PREPARE: anything but ERROR) return [-EIO] and leave the whole
    device as it was, the interrupt lock included. *)
Theorem illegal_half_duplex_triggers_rejected bc (d : sdir) (e : env) (w : world) :
  (state (get_stream d w) <> I2S_STATE_RUNNING ->
   i2s_stm32_trigger bc (dir_of d) I2S_TRIGGER_STOP e w = (- EIO, w) /\
   i2s_stm32_trigger bc (dir_of d) I2S_TRIGGER_DRAIN e w = (- EIO, w)) /\
  (state (get_stream d w) <> I2S_STATE_ERROR ->
   i2s_stm32_trigger bc (dir_of d) I2S_TRIGGER_PREPARE e w = (- EIO, w)).
Proof.
  rewrite !trigger_dir_of. unfold i2s_stm32_trigger_half_duplex, irq_lock.
  cbv beta iota zeta.
  replace (state (get_stream d (set_irq_locked true w)))
    with (state (get_stream d w)) by (destruct d; reflexivity).
  split.
  - intros Hst. destruct (state (get_stream d w)); try done; split; reflexivity.
  - intros Hst. destruct (state (get_stream d w)); try done.
Qed.

Lemma illegal_half_duplex_triggers_rejected_witness :
  let w := world_static bc_default in
  i2s_stm32_trigger bc_default I2S_DIR_RX I2S_TRIGGER_STOP (env_ok None None) w
    = (- EIO, w).
Proof.
  intros w.
  destruct (illegal_half_duplex_triggers_rejected bc_default RX
              (env_ok None None) w) as (H & _).
  apply H. discriminate.
Defined.

(** X8.  The full-duplex STOP and DRAIN, when one of the two streams is
    not RUNNING, return [-EIO] with both streams, the peripheral and the
    transfer engine untouched, but they return with the interrupts still
    locked: the early returns skip [irq_unlock]. *)
Theorem full_duplex_stop_rejected_keeps_irq_locked bc (e : env) (w : world) :
  CONFIG_I2S_STM32_FULL_DUPLEX bc = true ->
  state (rx w) <> I2S_STATE_RUNNING \/ state (tx w) <> I2S_STATE_RUNNING ->
  i2s_stm32_trigger bc I2S_DIR_BOTH I2S_TRIGGER_STOP e w =
    (- EIO, set_irq_locked true w) /\
  i2s_stm32_trigger bc I2S_DIR_BOTH I2S_TRIGGER_DRAIN e w =
    (- EIO, set_irq_locked true w) /\
  irq_locked (i2s_stm32_trigger bc I2S_DIR_BOTH I2S_TRIGGER_STOP e w).2 = true.
Proof.
  intros Hfd Hst. unfold i2s_stm32_trigger. rewrite Hfd.
  unfold i2s_stm32_trigger_full_duplex, irq_lock. cbv beta iota zeta.
  change (state (rx (set_irq_locked true w))) with (state (rx w)).
  change (state (tx (set_irq_locked true w))) with (state (tx w)).
  destruct (state (rx w)), (state (tx w)); try (repeat split; reflexivity).
  destruct Hst; done.
Qed.

Lemma full_duplex_stop_rejected_keeps_irq_locked_witness :
  let bc := bc_with true false false in
  let w := world_static bc in
  irq_locked w = false /\
  irq_locked
    (i2s_stm32_trigger bc I2S_DIR_BOTH I2S_TRIGGER_STOP (env_ok None None) w).2
  = true.
Proof.
  intros bc w. split; [reflexivity|].
  destruct (full_duplex_stop_rejected_keeps_irq_locked bc (env_ok None None) w)
    as (_ & _ & H).
  - reflexivity.
  - left. discriminate.
  - exact H.
Defined.

(** ** Configuration: the accepted and the refused calls *)

(** With a clock setup that goes through, [i2s_stm32_set_clock] is one
    update of the prescaler and of the PLL poll counter. *)
Lemma set_clock_frame bc (i2s_cfg : i2s_config) (e : env) (w : world) :
  clock_setup_ok bc i2s_cfg e w ->
  exists lin par c,
    i2s_stm32_set_clock bc (bit_clk_freq_of i2s_cfg) e w =
    Some (0, set_fregs (set_prescaler_parity par
                          (set_prescaler_linear lin (fregs w)))
               (set_plli2s_ms_count c w)).
Proof.
  intros [Hbit Hpll]. unfold i2s_stm32_set_clock, div_round_closest.
  apply Z.eqb_neq in Hbit. rewrite Hbit.
  destruct (CONFIG_I2S_STM32_USE_PLLI2S_ENABLE bc).
  - specialize (Hpll eq_refl).
    destruct (plli2s_wait (env_plli2s_polls e) (plli2s_ms_count w)) as [r c].
    simpl in Hpll. subst r. eexists _, _, c. reflexivity.
  - eexists _, _, (plli2s_ms_count w). reflexivity.
Qed.

(** X9.  A configure call for one direction with a supported word size
    and data format, made while the stream is NOT_READY or READY, with a
    non-zero frame clock and a clock setup that goes through, returns
    [0] and leaves the stream READY with the given configuration stored,
    the master role cleared exactly when a clock-slave option is set,
    and the underrun bookkeeping reset; the data format and standard
    registers hold the selected values; the master clock output is
    enabled exactly when a clock-slave option is set; IO swap is switched
    on when asked for and otherwise left as it was.  The queue, the
    semaphore, the other stream, the control registers and the block
    pool are not touched. *)
Theorem configure_makes_ready bc (d : sdir) (i2s_cfg : i2s_config)
    (df : ll_i2s_dataformat) (st : ll_i2s_standard) (e : env) (w : world) :
  state (get_stream d w) = I2S_STATE_NOT_READY \/
  state (get_stream d w) = I2S_STATE_READY ->
  frame_clk_freq i2s_cfg <> 0 ->
  clock_setup_ok bc i2s_cfg e w ->
  dataformat_of_word_size i2s_cfg = Some df ->
  standard_of_format bc i2s_cfg = Some st ->
  exists w',
    i2s_stm32_configure bc (dir_of d) i2s_cfg e w = Some (0, w') /\
    state (get_stream d w') = I2S_STATE_READY /\
    cfg (get_stream d w') = i2s_cfg /\
    master (get_stream d w') = negb (clk_slave bc i2s_cfg) /\
    tx_underrun (get_stream d w') = false /\
    last_mem_block (get_stream d w') = NULL /\
    mem_block_queue (get_stream d w') = mem_block_queue (get_stream d w) /\
    sem (get_stream d w') = sem (get_stream d w) /\
    match d with RX => tx w' = tx w | TX => rx w' = rx w end /\
    data_format (fregs w') = df /\
    standard (fregs w') = st /\
    master_clock (fregs w') = clk_slave bc i2s_cfg /\
    io_swap (fregs w') =
      (io_swap (fregs w) ||
       negb (Z.land (options i2s_cfg) (I2S_OPT_IO_SWAP bc) =? 0)) /\
    regs w' = regs w /\
    slab_free_log w' = slab_free_log w.
Proof.
  intros Hst Hf Hclk Hdf Hstd.
  assert (Hcs : exists w1,
    i2s_stm32_configure_stream bc d i2s_cfg w = (0, w1) /\
    w1 = upd_stream d
           (fun s =>
              set_mem_block_size 0
                (set_last_mem_block_size 0
                   (set_last_mem_block NULL
                      (set_tx_underrun false
                         (set_cfg i2s_cfg
                            (set_master (negb (clk_slave bc i2s_cfg)) s)))))) w).
  { unfold i2s_stm32_configure_stream. apply Z.eqb_neq in Hf. rewrite Hf.
    destruct Hst as [Hst|Hst]; rewrite Hst; eexists; (split; [reflexivity|]);
      destruct d, (clk_slave bc i2s_cfg); reflexivity. }
  destruct Hcs as (w1 & Hcs & Hw1).
  assert (Hclk1 : clock_setup_ok bc i2s_cfg e w1).
  { destruct Hclk as [Hb Hp]. split; [done|]. subst w1. destruct d; exact Hp. }
  destruct (set_clock_frame bc i2s_cfg e w1 Hclk1) as (lin & par & c & Hset).
  assert (Hdev : exists w',
    i2s_stm32_configure_device bc (dir_of d) i2s_cfg e w1 = Some (0, w') /\
    w' = upd_stream d (set_state I2S_STATE_READY)
           (set_fregs
              (set_clock_polarity
                 (if Z.land (format i2s_cfg) (I2S_FMT_CLK_FORMAT_MASK bc)
                     =? I2S_FMT_BIT_CLK_INV bc
                  then LL_I2S_POLARITY_HIGH else LL_I2S_POLARITY_LOW)
                 (set_standard st
                    (set_data_format df
                       (set_io_swap
                          (io_swap (fregs w1) ||
                           negb (Z.land (options i2s_cfg) (I2S_OPT_IO_SWAP bc) =? 0))
                          (set_master_clock (clk_slave bc i2s_cfg)
                             (set_prescaler_parity par
                                (set_prescaler_linear lin (fregs w1))))))))
              (set_plli2s_ms_count c w1))).
  { unfold i2s_stm32_configure_device. fold (bit_clk_freq_of i2s_cfg).
    rewrite Hset, Hdf, Hstd. change (0 <? 0) with false. cbv iota.
    eexists. split; [reflexivity|].
    destruct (Z.land (options i2s_cfg) (I2S_OPT_IO_SWAP bc) =? 0),
      (Z.land (format i2s_cfg) (I2S_FMT_CLK_FORMAT_MASK bc)
         =? I2S_FMT_BIT_CLK_INV bc), d;
      wcbv; rewrite ?orb_false_r, ?orb_true_r; reflexivity. }
  destruct Hdev as (w' & Hdev & Hw').
  exists w'. split.
  { unfold i2s_stm32_configure. destruct d; simpl dir_of in *;
      rewrite Hcs; exact Hdev. }
  subst w' w1. destruct d; wcbv; repeat split; reflexivity.
Qed.

Lemma configure_makes_ready_witness :
  let e := env_ok None None in
  let w := world_static bc_default in
  exists w',
    i2s_stm32_configure bc_default I2S_DIR_TX (cfg_48k 1024) e w = Some (0, w') /\
    state (tx w') = I2S_STATE_READY /\ state (rx w') = I2S_STATE_NOT_READY.
Proof.
  intros e w.
  destruct (configure_makes_ready bc_default TX (cfg_48k 1024)
              LL_I2S_DATAFORMAT_16B LL_I2S_STANDARD_PHILIPS e w)
    as (w' & Hc & Hs & _ & _ & _ & _ & _ & _ & Hrx & _).
  - left. reflexivity.
  - discriminate.
  - split; [discriminate|]. discriminate.
  - reflexivity.
  - reflexivity.
  - exists w'. split; [exact Hc|]. split; [exact Hs|].
    simpl in Hrx. rewrite Hrx. reflexivity.
Defined.

(** X10.  A configure call with a frame clock frequency of zero, which
    un-configures the stream (queue dropped, configuration zeroed, state
    NOT_READY), does not return after that: it goes on to
    [i2s_stm32_set_clock] with a bit clock of zero, and where the PLL
    wait does not fail first, [div_round_closest] divides by zero. *)
Theorem configure_zero_frame_clock_divides_by_zero bc (d : sdir)
    (i2s_cfg : i2s_config) (e : env) (w : world) :
  state (get_stream d w) = I2S_STATE_NOT_READY \/
  state (get_stream d w) = I2S_STATE_READY ->
  frame_clk_freq i2s_cfg = 0 ->
  (CONFIG_I2S_STM32_USE_PLLI2S_ENABLE bc = true ->
   (plli2s_wait (env_plli2s_polls e) (plli2s_ms_count w)).1 = 0) ->
  (exists w1,
     i2s_stm32_configure_stream bc d i2s_cfg w = (0, w1) /\
     state (get_stream d w1) = I2S_STATE_NOT_READY /\
     cfg (get_stream d w1) = i2s_config_zero) /\
  i2s_stm32_configure bc (dir_of d) i2s_cfg e w = None.
Proof.
  intros Hst Hf Hpll.
  assert (Hcs : exists w1,
    i2s_stm32_configure_stream bc d i2s_cfg w = (0, w1) /\
    state (get_stream d w1) = I2S_STATE_NOT_READY /\
    cfg (get_stream d w1) = i2s_config_zero /\
    plli2s_ms_count w1 = plli2s_ms_count w).
  { unfold i2s_stm32_configure_stream. rewrite Hf. change (0 =? 0) with true.
    cbv iota.
    destruct Hst as [Hst|Hst]; rewrite Hst; eexists; (split; [reflexivity|]);
      explode_bc bc; destruct d, (clk_slave _ i2s_cfg), b_rep; wexec;
      repeat split; reflexivity. }
  destruct Hcs as (w1 & Hcs & Hs1 & Hc1 & Hp1).
  split; [exists w1; done|].
  assert (Hdev : i2s_stm32_configure_device bc (dir_of d) i2s_cfg e w1 = None).
  { unfold i2s_stm32_configure_device, i2s_stm32_set_clock. rewrite Hf, Hp1.
    change (u32 (u32 (0 * word_size i2s_cfg) * channels i2s_cfg)) with 0.
    destruct (CONFIG_I2S_STM32_USE_PLLI2S_ENABLE bc).
    - specialize (Hpll eq_refl).
      destruct (plli2s_wait (env_plli2s_polls e) (plli2s_ms_count w)) as [r c].
      simpl in Hpll. subst r. reflexivity.
    - reflexivity. }
  unfold i2s_stm32_configure. destruct d; simpl dir_of; rewrite Hcs; exact Hdev.
Qed.

Lemma configure_zero_frame_clock_divides_by_zero_witness :
  i2s_stm32_configure bc_default I2S_DIR_RX
    cfg_unconfigure (env_ok None None)
    (world_static bc_default) = None.
Proof.
  apply (configure_zero_frame_clock_divides_by_zero bc_default RX).
  - left. reflexivity.
  - reflexivity.
  - discriminate.
Defined.



(** ** Flow control: the semaphores follow the queues *)

Lemma flow_of_view (w w' : world) :
  flow_view w' = flow_view w -> flow w -> flow w'.
Proof.
  unfold flow_view, flow, rx_flow, tx_flow.
  intros [= H1 H2 H3 H4]. rewrite H1, H2, H3, H4. done.
Qed.

Lemma rx_disable_label_view bc (w : world) :
  flow_view (rx_disable_label bc w) = flow_view w.
Proof.
  explode_bc bc. unfold rx_disable_label, LL_I2S_GetTransferMode, flow_view.
  destruct b_fd, b_h7, b_rep, (transfer_mode (regs w)); wexec; reflexivity.
Qed.

Lemma tx_disable_label_view bc (w : world) :
  flow_view (tx_disable_label bc w) = flow_view w.
Proof.
  explode_bc bc. unfold tx_disable_label, LL_I2S_GetTransferMode, flow_view.
  destruct b_fd, b_h7, b_rep, (transfer_mode (regs w)); wexec; reflexivity.
Qed.

Lemma stream_disable_view bc (d : sdir) (w : world) :
  flow_view (stream_disable bc d w) = flow_view w.
Proof.
  explode_bc bc. unfold flow_view.
  destruct d, b_h7, b_rep; wexec; reflexivity.
Qed.

Lemma full_duplex_stream_disable_view bc (w : world) :
  flow_view (full_duplex_stream_disable bc w) = flow_view w.
Proof.
  explode_bc bc. unfold flow_view.
  destruct b_h7, b_rep; wexec; reflexivity.
Qed.

Lemma reload_dma_view (d : sdir) src dst blk_size (e : env) (w : world) :
  flow_view (reload_dma d src dst blk_size e w).2 = flow_view w.
Proof.
  unfold reload_dma, dma_reload, dma_start.
  destruct (env_dma_reload e d <? 0) eqn:E1; cbv beta iota zeta; rewrite ?E1;
    [reflexivity|].
  destruct (env_dma_start e d <? 0); destruct d; reflexivity.
Qed.

Lemma start_dma_view (d : sdir) src dst blk_size (e : env) (w : world) :
  flow_view (start_dma d src dst blk_size e w).2 = flow_view w.
Proof.
  unfold start_dma, dma_config, dma_start.
  destruct (env_dma_config e d <? 0) eqn:E1; cbv beta iota zeta; rewrite ?E1;
    [reflexivity|].
  destruct (env_dma_start e d <? 0); destruct d; reflexivity.
Qed.

Lemma tx_block_sent_view bc (w : world) :
  flow_view (tx_block_sent bc w) = flow_view w.
Proof.
  explode_bc bc. unfold tx_block_sent, flow_view.
  destruct b_rep, (tx_underrun (tx w)) eqn:Eu; wcbv; rewrite ?Eu; wcbv; done.
Qed.

Lemma i2s_stm32_isr_view bc (w : world) :
  flow_view (i2s_stm32_isr bc w) = flow_view w.
Proof.
  explode_bc bc.
  destruct w as [rxs txs [md rqrx rqtx ier ifre iovr iudr en mt fovr fudr ffre]
                 fr drx dtx arx atx lg irq n1 n2 n3 n4 pl].
  destruct b_fd, b_h7, md, fovr, fudr, ffre; reflexivity.
Qed.

Ltac split_all := repeat match goal with |- _ /\ _ => split end.

(** [n] gives that fit under the limit add [n] to the count. *)
Lemma k_sem_give_iter (n : nat) (s : k_sem) :
  sem_count s + Z.of_nat n <= sem_limit s ->
  Nat.iter n k_sem_give s = set_sem_count (sem_count s + Z.of_nat n) s.
Proof.
  induction n as [|n IH]; intros Hn.
  - simpl. rewrite Z.add_0_r. reflexivity.
  - simpl Nat.iter. rewrite IH by lia. unfold k_sem_give. simpl.
    destruct (Z.ltb_spec (sem_count s + Z.of_nat n) (sem_limit s)); [|lia].
    unfold set_sem_count. simpl. f_equal. lia.
Qed.

Lemma queue_drop_flow bc (d : sdir) (w : world) :
  flow w -> flow (queue_drop bc d w).
Proof.
  intros [(Hrw & Hrl & Hrc) (Htw & Htl & Htc)].
  explode_bc bc. destruct d.
  - destruct (queue_get_all_drains _ Hrw) as (q' & Hall & Hwf' & Hlen' & Hc').
    wexec. rewrite Hall. unfold flow, rx_flow, tx_flow; wcbv.
    rewrite Hlen', Hc'. done.
  - destruct (queue_get_all_drains _ Htw) as (q' & Hall & Hwf' & Hlen' & Hc').
    pose proof (queue_contents_length _ Htw) as Hn.
    wexec. rewrite Hall. wcbv.
    rewrite (k_sem_give_iter _ (sem (tx w))) by (rewrite Hn; lia).
    unfold flow, rx_flow, tx_flow; wcbv. rewrite Hlen', Hc'.
    repeat match goal with |- _ /\ _ => split end; try done; lia.
Qed.

(** [flow] only depends on the semaphores and queues: a goal about a
    world that differs from [w] elsewhere is closed by [flow_same]. *)
Ltac flow_same Hf :=
  refine (flow_of_view _ _ _ Hf); unfold flow_view; wexec; reflexivity.

Ltac flow_label :=
  eapply flow_of_view;
  [first [apply rx_disable_label_view | apply tx_disable_label_view]|].

Lemma dma_rx_callback_queued_flow bc (mblk_tmp : Z) (w : world) :
  flow w ->
  flow (dma_rx_callback_queued bc
          (queue_put (mem_block_queue (rx w)) mblk_tmp (block_size (cfg (rx w))))
          mblk_tmp w).
Proof.
  intros Hf. pose proof Hf as [(Hrw & Hrl & Hrc) (Htw & Htl & Htc)].
  pose proof (queue_count_range _ Hrw) as Hr.
  unfold dma_rx_callback_queued.
  destruct (Z.eq_dec (queue_count (mem_block_queue (rx w)))
              (rb_len (mem_block_queue (rx w)) - 1)) as [Hfull|Hroom].
  - rewrite (queue_put_full _ _ _ Hrw Hfull). cbn [fst snd].
    rewrite Z.eqb_refl, andb_true_r.
    destruct (CONFIG_I2S_STM32_RX_OVERRUN_DROP bc).
    + change (0 <? 0) with false. cbv iota.
      destruct (state _) eqn:Es; try flow_same Hf.
      flow_label. flow_same Hf.
    + rewrite neg_ENOMEM_negative. flow_label. flow_same Hf.
  - destruct (queue_put_room _ mblk_tmp (block_size (cfg (rx w))) Hrw)
      as (q' & Hput & Hwf' & Hlen' & _ & Hc'); [lia|].
    rewrite Hput. cbn [fst snd].
    change (0 =? - ENOMEM) with false. rewrite andb_false_r.
    change (0 <? 0) with false. cbv iota.
    assert (Hf' : flow
      (upd_stream RX (fun s => set_sem (k_sem_give (sem s)) s)
         (upd_stream RX (set_mem_block_queue q') w))).
    { unfold flow, rx_flow, tx_flow, k_sem_give. wcbv.
      destruct (Z.ltb_spec (sem_count (sem (rx w))) (sem_limit (sem (rx w))));
        [|lia].
      wcbv. rewrite Hlen', Hc'. split_all; try done; lia. }
    destruct (state _) eqn:Es; try exact Hf'.
    flow_label. flow_same Hf'.
Qed.

Lemma dma_rx_callback_reloaded_flow bc (mblk_tmp : Z) (p : Z * world) :
  flow p.2 -> flow (dma_rx_callback_reloaded bc mblk_tmp p).
Proof.
  destruct p as [ret w2]. cbn [snd]. intros Hf2.
  unfold dma_rx_callback_reloaded.
  destruct (ret <? 0); [flow_label; exact Hf2|].
  apply dma_rx_callback_queued_flow. exact Hf2.
Qed.

Lemma dma_rx_callback_flow bc (channel status : Z) (e : env) (w w' : world) :
  flow w -> dma_rx_callback bc channel status e w = Some w' -> flow w'.
Proof.
  intros Hf. unfold dma_rx_callback.
  destruct (get_dev_from_rx_dma_channel channel w); [|done].
  intros [= <-]. unfold dma_rx_callback_body.
  destruct (negb (status =? 0)); [flow_label; flow_same Hf|].
  destruct (state (rx w)); try (destruct (env_slab_alloc e RX);
    [apply dma_rx_callback_reloaded_flow;
     eapply flow_of_view; [apply reload_dma_view|]; flow_same Hf
    |flow_label; flow_same Hf]).
  flow_label. exact Hf.
Qed.

Lemma dma_tx_callback_reloaded_flow bc (p : Z * world) :
  flow p.2 -> flow (dma_tx_callback_reloaded bc p).
Proof.
  destruct p as [ret w2]. cbn [snd]. intros Hf2.
  unfold dma_tx_callback_reloaded.
  destruct (ret <? 0); [flow_label; exact Hf2|exact Hf2].
Qed.

(** Taking the oldest entry and giving the semaphore keeps the TX
    accounting. *)
Lemma tx_fetch_flow (w : world) (q' : ring_buf) :
  flow w ->
  ring_buf_wf q' ->
  rb_len q' = rb_len (mem_block_queue (tx w)) ->
  queue_count q' = queue_count (mem_block_queue (tx w)) - 1 ->
  queue_count (mem_block_queue (tx w)) <> 0 ->
  flow (upd_stream TX (fun s => set_sem (k_sem_give (sem s)) s)
          (upd_stream TX (set_mem_block_queue q') w)).
Proof.
  intros [(Hrw & Hrl & Hrc) (Htw & Htl & Htc)] Hwf' Hlen' Hc' Hne.
  pose proof (queue_count_range _ Htw) as Hr.
  unfold flow, rx_flow, tx_flow, k_sem_give. wcbv.
  destruct (Z.ltb_spec (sem_count (sem (tx w))) (sem_limit (sem (tx w))));
    [|lia].
  wcbv. rewrite Hlen', Hc'. split_all; try done; lia.
Qed.

Lemma dma_tx_callback_fetched_flow bc (e : env) (w : world) :
  flow w ->
  flow (dma_tx_callback_fetched bc (queue_get (mem_block_queue (tx w))) e w).
Proof.
  intros Hf. pose proof Hf as [_ (Htw & _ & _)].
  unfold dma_tx_callback_fetched.
  destruct (Z.eq_dec (queue_count (mem_block_queue (tx w))) 0) as [Hc|Hc].
  - rewrite (queue_get_empty _ Htw Hc). cbn [fst snd].
    destruct (CONFIG_I2S_STM32_TX_UNDERRUN_LAST_REPEAT bc).
    + rewrite Z.eqb_refl. change (0 <? 0) with false. wcbv.
      apply dma_tx_callback_reloaded_flow.
      eapply flow_of_view; [apply reload_dma_view|]. flow_same Hf.
    + rewrite neg_ENOMEM_negative.
      destruct (state _); flow_label; flow_same Hf.
  - destruct (queue_get_nonempty _ Htw Hc) as (it & q' & Hget & Hwf' & Hlen' & _ & Hc').
    rewrite Hget. cbn [fst snd].
    change (0 =? - ENOMEM) with false. change (0 =? 0) with true.
    change (0 <? 0) with false.
    pose proof (tx_fetch_flow w q' Hf Hwf' Hlen' Hc' Hc) as Hf'.
    destruct (CONFIG_I2S_STM32_TX_UNDERRUN_LAST_REPEAT bc); wcbv;
      apply dma_tx_callback_reloaded_flow;
      (eapply flow_of_view; [apply reload_dma_view|]); flow_same Hf'.
Qed.

Lemma dma_tx_callback_flow bc (channel status : Z) (e : env) (w w' : world) :
  flow w -> dma_tx_callback bc channel status e w = Some w' -> flow w'.
Proof.
  intros Hf. unfold dma_tx_callback.
  destruct (get_dev_from_tx_dma_channel channel w); [|done].
  intros [= <-]. unfold dma_tx_callback_body.
  destruct (negb (status =? 0)); [flow_label; flow_same Hf|].
  assert (Hf1 : flow (tx_block_sent bc w))
    by (apply (flow_of_view _ _ (tx_block_sent_view bc w)); exact Hf).
  revert Hf1. generalize (tx_block_sent bc w). intros w1 Hf1.
  unfold dma_tx_callback_sent.
  destruct (state (tx w1)); try (flow_label; exact Hf1);
    (destruct (last_block (tx w1));
     [flow_label; flow_same Hf1|apply dma_tx_callback_fetched_flow; exact Hf1]).
Qed.

Lemma i2s_stm32_read_flow (w : world) :
  flow w -> flow (i2s_stm32_read w).1.2.
Proof.
  intros Hf. pose proof Hf as [(Hrw & Hrl & Hrc) (Htw & Htl & Htc)].
  unfold i2s_stm32_read, k_sem_take.
  destruct (state (rx w)); try exact Hf.
  all: destruct (Z.ltb_spec 0 (sem_count (sem (rx w)))) as [Hpos|Hzero];
    [|destruct (timeout (cfg (rx w)) =? 0); flow_same Hf].
  all: change (0 <? 0) with false; cbv iota; wcbv.
  all: destruct (queue_get_nonempty _ Hrw) as (it & q' & Hget & Hwf' & Hlen' & _ & Hc');
    [lia|].
  all: rewrite Hget; wcbv.
  all: unfold flow, rx_flow, tx_flow; wcbv; rewrite Hlen', Hc'.
  all: split_all; try done; lia.
Qed.

Lemma i2s_stm32_write_flow (b s : Z) (w : world) :
  flow w -> flow (i2s_stm32_write b s w).2.
Proof.
  intros Hf. pose proof Hf as [(Hrw & Hrl & Hrc) (Htw & Htl & Htc)].
  pose proof (queue_count_range _ Htw) as Hr.
  unfold i2s_stm32_write, k_sem_take.
  destruct (state (tx w)); try exact Hf.
  all: destruct (Z.ltb_spec 0 (sem_count (sem (tx w)))) as [Hpos|Hzero];
    [|destruct (timeout (cfg (tx w)) =? 0); flow_same Hf].
  all: change (0 <? 0) with false; cbv iota; wcbv.
  all: destruct (queue_put_room _ b s Htw) as (q' & Hput & Hwf' & Hlen' & _ & Hc');
    [lia|].
  all: rewrite Hput; wcbv.
  all: unfold flow, rx_flow, tx_flow; wcbv; rewrite Hlen', Hc'.
  all: split_all; try done; lia.
Qed.

Lemma rx_stream_start_dma_view bc (d : sdir) (full_duplex : bool) (e : env)
    (w : world) :
  flow_view (rx_stream_start_dma bc d full_duplex e w).2 = flow_view w.
Proof.
  unfold rx_stream_start_dma.
  destruct (env_slab_alloc e d) as [blk|];
    [|destruct d; reflexivity].
  match goal with
  | |- context [start_dma ?d ?s ?t ?b ?e ?w0] =>
      pose proof (start_dma_view d s t b e w0) as Hv;
      destruct (start_dma d s t b e w0) as [ret w2]
  end.
  cbn [snd] in Hv.
  destruct (ret <? 0); cbn [snd]; rewrite Hv; destruct d; reflexivity.
Qed.

Lemma tx_stream_start_dma_fetched_flow bc (d : sdir) (full_duplex : bool)
    (e : env) (w : world) :
  d = TX ->
  (CONFIG_I2S_STM32_TX_UNDERRUN_LAST_REPEAT bc = true ->
   tx_underrun (tx w) = false) ->
  flow w ->
  flow (tx_stream_start_dma_fetched bc d full_duplex
          (queue_get (mem_block_queue (tx w))) e w).2.
Proof.
  intros -> Hu Hf. pose proof Hf as [_ (Htw & _ & _)].
  unfold tx_stream_start_dma_fetched.
  assert (Hstart : forall s t b w0, flow w0 ->
    flow (let '(ret, w1) := start_dma TX s t b e w0 in
          if ret <? 0 then (ret, w1) else (0, w1)).2).
  { intros s t b w0 Hf0. pose proof (start_dma_view TX s t b e w0) as Hv.
    destruct (start_dma TX s t b e w0) as [ret w2]. cbn [snd] in Hv.
    destruct (ret <? 0); cbn [snd]; apply (flow_of_view _ _ Hv Hf0). }
  destruct (Z.eq_dec (queue_count (mem_block_queue (tx w))) 0) as [Hc|Hc].
  - rewrite (queue_get_empty _ Htw Hc). cbn [fst snd].
    rewrite Z.eqb_refl, andb_true_r.
    destruct (CONFIG_I2S_STM32_TX_UNDERRUN_LAST_REPEAT bc).
    + change (0 <? 0) with false. wcbv. apply Hstart. flow_same Hf.
    + rewrite neg_ENOMEM_negative. cbn [snd]. flow_same Hf.
  - destruct (queue_get_nonempty _ Htw Hc) as (it & q' & Hget & Hwf' & Hlen' & _ & Hc').
    rewrite Hget. cbn [fst snd].
    change (0 =? - ENOMEM) with false. rewrite andb_false_r.
    change (0 <? 0) with false.
    pose proof (tx_fetch_flow w q' Hf Hwf' Hlen' Hc' Hc) as Hf'.
    destruct (CONFIG_I2S_STM32_TX_UNDERRUN_LAST_REPEAT bc);
      wcbv; rewrite ?Hu by done; wcbv; apply Hstart; flow_same Hf'.
Qed.

Lemma tx_stream_start_dma_flow bc (full_duplex : bool) (e : env) (w : world) :
  flow w -> flow (tx_stream_start_dma bc TX full_duplex e w).2.
Proof.
  intros Hf. unfold tx_stream_start_dma, tx_stream_start_dma_fetch.
  destruct (CONFIG_I2S_STM32_TX_UNDERRUN_LAST_REPEAT bc) eqn:Erep.
  - destruct (env_slab_alloc e TX) as [blk|]; [|flow_same Hf].
    apply (tx_stream_start_dma_fetched_flow bc TX full_duplex e
             (upd_stream TX (set_tx_underrun false)
                (upd_stream TX
                   (set_last_mem_block_size
                      (block_size
                         (cfg (get_stream TX
                                 (upd_stream TX (set_last_mem_block blk) w)))))
                   (upd_stream TX (set_last_mem_block blk) w)))); [done|done|].
    flow_same Hf.
  - apply (tx_stream_start_dma_fetched_flow bc TX full_duplex e w);
      [done|congruence|done].
Qed.

Lemma stream_start_flow bc (d : sdir) (e : env) (w : world) :
  flow w -> flow (stream_start bc d e w).2.
Proof.
  intros Hf. destruct d; unfold stream_start.
  - unfold rx_stream_start.
    pose proof (rx_stream_start_dma_view bc RX false e w) as Hv.
    destruct (rx_stream_start_dma bc RX false e w) as [ret w1]. cbn [snd] in Hv.
    assert (Hf1 : flow w1) by exact (flow_of_view _ _ Hv Hf).
    explode_bc bc. destruct (ret <? 0), b_h7; cbn [snd]; flow_same Hf1.
  - unfold tx_stream_start.
    pose proof (tx_stream_start_dma_flow bc false e w Hf) as Hf1.
    destruct (tx_stream_start_dma bc TX false e w) as [ret w1]. cbn [snd] in Hf1.
    explode_bc bc. destruct (ret <? 0), b_h7; cbn [snd]; flow_same Hf1.
Qed.

Lemma full_duplex_stream_start_flow bc (e : env) (w : world) :
  flow w -> flow (full_duplex_stream_start bc e w).2.
Proof.
  intros Hf. unfold full_duplex_stream_start.
  pose proof (rx_stream_start_dma_view bc RX true e w) as Hv.
  destruct (rx_stream_start_dma bc RX true e w) as [ret w1]. cbn [snd] in Hv.
  assert (Hf1 : flow w1) by exact (flow_of_view _ _ Hv Hf).
  destruct (ret <? 0); [exact Hf1|].
  pose proof (tx_stream_start_dma_flow bc true e w1 Hf1) as Hf2.
  destruct (tx_stream_start_dma bc TX true e w1) as [ret2 w2]. cbn [snd] in Hf2.
  explode_bc bc. destruct (ret2 <? 0), b_h7; cbn [snd]; flow_same Hf2.
Qed.

Lemma flow_upd_state (d : sdir) (st : i2s_state) (w : world) :
  flow w -> flow (upd_stream d (set_state st) w).
Proof. intros Hf. destruct d; flow_same Hf. Qed.

Lemma flow_upd_last_block (d : sdir) (b : bool) (w : world) :
  flow w -> flow (upd_stream d (set_last_block b) w).
Proof. intros Hf. destruct d; flow_same Hf. Qed.

Lemma flow_irq (key : bool) (w : world) :
  flow w -> flow (set_irq_locked key w).
Proof. intros Hf. flow_same Hf. Qed.

Lemma stream_disable_flow bc (d : sdir) (w : world) :
  flow w -> flow (stream_disable bc d w).
Proof. apply flow_of_view, stream_disable_view. Qed.

Lemma full_duplex_stream_disable_flow bc (w : world) :
  flow w -> flow (full_duplex_stream_disable bc w).
Proof. apply flow_of_view, full_duplex_stream_disable_view. Qed.

Lemma full_duplex_queue_drop_flow bc (w : world) :
  flow w -> flow (full_duplex_queue_drop bc w).
Proof. intros Hf. unfold full_duplex_queue_drop. auto using queue_drop_flow. Qed.

Lemma trigger_half_duplex_flow bc (d : sdir) (cmd : i2s_trigger_cmd) (e : env)
    (w : world) :
  flow w -> flow (i2s_stm32_trigger_half_duplex bc d cmd e w).2.
Proof.
  intros Hf. unfold i2s_stm32_trigger_half_duplex, irq_lock, irq_unlock.
  destruct cmd; cbv beta iota zeta.
  - destruct (state (get_stream d w)); try exact Hf.
    pose proof (stream_start_flow bc d e w Hf) as Hf1.
    destruct (stream_start bc d e w) as [ret w1]. cbn [snd] in Hf1.
    destruct (ret <? 0); cbn [snd];
      auto using flow_upd_state, flow_upd_last_block.
  - replace (state (get_stream d (set_irq_locked true w)))
      with (state (get_stream d w)) by (destruct d; reflexivity).
    destruct (state (get_stream d w)); cbn [snd];
      auto 10 using flow_upd_state, flow_upd_last_block, flow_irq,
        stream_disable_flow, queue_drop_flow.
  - replace (state (get_stream d (set_irq_locked true w)))
      with (state (get_stream d w)) by (destruct d; reflexivity).
    destruct (state (get_stream d w)); cbn [snd];
      auto 10 using flow_upd_state, flow_upd_last_block, flow_irq,
        stream_disable_flow, queue_drop_flow.
  - destruct (state (get_stream d w)); cbn [snd];
      auto 10 using flow_upd_state, stream_disable_flow, queue_drop_flow.
  - destruct (state (get_stream d w)); cbn [snd];
      auto 10 using flow_upd_state, queue_drop_flow.
  - exact Hf.
Qed.

Lemma trigger_full_duplex_flow bc (cmd : i2s_trigger_cmd) (e : env) (w : world) :
  flow w -> flow (i2s_stm32_trigger_full_duplex bc cmd e w).2.
Proof.
  intros Hf. unfold i2s_stm32_trigger_full_duplex, irq_lock, irq_unlock.
  destruct cmd; cbv beta iota zeta.
  - destruct (negb _); [exact Hf|]. destruct (negb _); [exact Hf|].
    pose proof (full_duplex_stream_start_flow bc e w Hf) as Hf1.
    destruct (full_duplex_stream_start bc e w) as [ret w1]. cbn [snd] in Hf1.
    destruct (ret <? 0); cbn [snd];
      auto 10 using flow_upd_state, flow_upd_last_block.
  - destruct (negb _); [cbn [snd]; auto using flow_irq|].
    destruct (negb _); cbn [snd];
      auto 12 using flow_upd_state, flow_upd_last_block, flow_irq,
        full_duplex_stream_disable_flow, full_duplex_queue_drop_flow.
  - destruct (negb _); [cbn [snd]; auto using flow_irq|].
    destruct (negb _); cbn [snd];
      auto 12 using flow_upd_state, flow_upd_last_block, flow_irq,
        full_duplex_stream_disable_flow, full_duplex_queue_drop_flow.
  - destruct (negb _); [exact Hf|]. destruct (negb _); cbn [snd];
      auto 12 using flow_upd_state,
        full_duplex_stream_disable_flow, full_duplex_queue_drop_flow.
  - destruct (negb _); [exact Hf|]. destruct (negb _); cbn [snd];
      auto 12 using flow_upd_state, full_duplex_queue_drop_flow.
  - exact Hf.
Qed.

Lemma configure_stream_flow bc (d : sdir) (i2s_cfg : i2s_config) (w : world) :
  flow w -> flow (i2s_stm32_configure_stream bc d i2s_cfg w).2.
Proof.
  intros Hf. unfold i2s_stm32_configure_stream.
  destruct (state (get_stream d w)); try exact Hf.
  all: destruct (frame_clk_freq i2s_cfg =? 0); cbn [snd].
  all: try (destruct d, (clk_slave bc i2s_cfg); flow_same Hf).
  all: apply flow_upd_state.
  all: match goal with
       | |- flow (upd_stream ?d (set_cfg ?c) ?w0) =>
           assert (Hq : flow w0);
           [|destruct d; flow_same Hq]
       end.
  all: apply queue_drop_flow; destruct d, (clk_slave bc i2s_cfg); flow_same Hf.
Qed.

Lemma configure_device_flow bc (dir : i2s_dir) (i2s_cfg : i2s_config) (e : env)
    (w : world) (r : Z) (w' : world) :
  flow w -> i2s_stm32_configure_device bc dir i2s_cfg e w = Some (r, w') ->
  flow w'.
Proof.
  intros Hf. unfold i2s_stm32_configure_device.
  assert (Hclk : forall b r1 w1,
    i2s_stm32_set_clock bc b e w = Some (r1, w1) -> flow_view w1 = flow_view w).
  { intros b r1 w1. unfold i2s_stm32_set_clock.
    destruct (CONFIG_I2S_STM32_USE_PLLI2S_ENABLE bc).
    - destruct (plli2s_wait _ _) as [r0 c]. destruct (r0 <? 0).
      + intros [= _ <-]. reflexivity.
      + destruct (div_round_closest _ _); [|done]. intros [= _ <-]. reflexivity.
    - change (0 <? 0) with false. cbv iota.
      destruct (div_round_closest _ _); [|done]. intros [= _ <-]. reflexivity. }
  destruct (i2s_stm32_set_clock _ _ _ _) as [[r1 w1]|] eqn:Eclk; [|done].
  apply Hclk in Eclk. pose proof (flow_of_view _ _ Eclk Hf) as Hf1.
  destruct (r1 <? 0); [intros [= _ <-]; exact Hf1|].
  destruct (negb (Z.land (options i2s_cfg) (I2S_OPT_IO_SWAP bc) =? 0)),
    (dataformat_of_word_size i2s_cfg), (standard_of_format bc i2s_cfg),
    (Z.land (format i2s_cfg) (I2S_FMT_CLK_FORMAT_MASK bc) =? I2S_FMT_BIT_CLK_INV bc),
    dir; intros [= _ <-]; flow_same Hf1.
Qed.

Lemma configure_flow bc (dir : i2s_dir) (i2s_cfg : i2s_config) (e : env)
    (w : world) (r : Z) (w' : world) :
  flow w -> i2s_stm32_configure bc dir i2s_cfg e w = Some (r, w') -> flow w'.
Proof.
  intros Hf. unfold i2s_stm32_configure.
  pose proof (configure_stream_flow bc RX i2s_cfg w Hf) as Hrx.
  pose proof (configure_stream_flow bc TX i2s_cfg w Hf) as Htx.
  destruct dir.
  - destruct (i2s_stm32_configure_stream bc RX i2s_cfg w) as [r1 w1].
    destruct (negb (r1 =? 0)); [intros [= _ <-]; exact Hrx|].
    apply configure_device_flow. exact Hrx.
  - destruct (i2s_stm32_configure_stream bc TX i2s_cfg w) as [r1 w1].
    destruct (negb (r1 =? 0)); [intros [= _ <-]; exact Htx|].
    apply configure_device_flow. exact Htx.
  - destruct (CONFIG_I2S_STM32_FULL_DUPLEX bc); [|intros [= _ <-]; exact Hf].
    destruct (i2s_stm32_configure_stream bc RX i2s_cfg w) as [r1 w1].
    cbn [snd] in Hrx.
    destruct (negb (r1 =? 0)); [intros [= _ <-]; exact Hrx|].
    pose proof (configure_stream_flow bc TX i2s_cfg w1 Hrx) as Htx1.
    destruct (i2s_stm32_configure_stream bc TX i2s_cfg w1) as [r2 w2].
    destruct (negb (r2 =? 0)); [intros [= _ <-]; exact Htx1|].
    apply configure_device_flow. exact Htx1.
  - intros [= _ <-]. exact Hf.
Qed.

(** X12.  Flow-control invariant.  If the RX semaphore counts the blocks
    held by the RX queue and the TX semaphore the free places of the TX
    queue (each with the queue's capacity as limit), then this still
    holds after every entry into the driver: read, write, a trigger of
    any command on any direction, configure (when it returns), the RX
    and TX completion handlers with any status, and the error
    interrupt; whatever the build options and whatever the block pool
    and the transfer engine answer. *)
Theorem flow_preserved bc (e : env) (w : world) :
  flow w ->
  flow (i2s_stm32_read w).1.2 /\
  (forall b s, flow (i2s_stm32_write b s w).2) /\
  (forall dir cmd, flow (i2s_stm32_trigger bc dir cmd e w).2) /\
  (forall dir i2s_cfg r w',
     i2s_stm32_configure bc dir i2s_cfg e w = Some (r, w') -> flow w') /\
  (forall channel status w',
     dma_rx_callback bc channel status e w = Some w' -> flow w') /\
  (forall channel status w',
     dma_tx_callback bc channel status e w = Some w' -> flow w') /\
  flow (i2s_stm32_isr bc w).
Proof.
  intros Hf. split_all.
  - apply i2s_stm32_read_flow, Hf.
  - intros b s. apply i2s_stm32_write_flow, Hf.
  - intros dir cmd. unfold i2s_stm32_trigger. destruct dir.
    + apply trigger_half_duplex_flow, Hf.
    + apply trigger_half_duplex_flow, Hf.
    + destruct (CONFIG_I2S_STM32_FULL_DUPLEX bc);
        [apply trigger_full_duplex_flow, Hf|exact Hf].
    + exact Hf.
  - intros dir i2s_cfg r w'. apply configure_flow, Hf.
  - intros channel status w'. apply dma_rx_callback_flow, Hf.
  - intros channel status w'. apply dma_tx_callback_flow, Hf.
  - apply (flow_of_view _ _ (i2s_stm32_isr_view bc w) Hf).
Qed.

Lemma flow_preserved_witness :
  let bc := bc_with false false false in
  let e := env_ok (Some 4096) (Some 8192) in
  let w := world_after bc
             [(CallInitialize, e); (CallConfigure I2S_DIR_TX (cfg_48k 1024), e)] in
  flow w /\ flow (i2s_stm32_write 12288 192 w).2.
Proof.
  intros bc e w.
  assert (Hf : flow w).
  { unfold flow, rx_flow, tx_flow, ring_buf_wf. vm_compute.
    repeat split; congruence. }
  split; [exact Hf|].
  destruct (flow_preserved bc e w Hf) as (_ & Hw & _).
  apply Hw.
Defined.

(** X13.  [i2s_stm32_initialize] returns [-EIO] when the clock
    controller is not ready or refuses to switch the clock on (the
    [-ENODEV] of [i2s_stm32_enable_clock] is not passed on), the code of
    pin control when that fails, and in these cases changes nothing;
    otherwise it sets the RX semaphore to 0 of [RX_BLOCK_COUNT] and the
    TX semaphore to [TX_BLOCK_COUNT] of [TX_BLOCK_COUNT] and clears both
    channel tables, and only then checks the DMA devices, TX first
    ([-ENODEV]).  Started from the static data, with block counts
    between 0 and 65534, the result satisfies the flow-control
    invariant. *)
Theorem initialize_sets_up_flow bc (e : env) (w : world) :
  let r := (i2s_stm32_initialize bc e w).1 in
  let w' := (i2s_stm32_initialize bc e w).2 in
  (env_clk_ready e = false \/ env_clock_control_on e <> 0 -> r = - EIO /\ w' = w) /\
  (env_clk_ready e = true -> env_clock_control_on e = 0 ->
   (env_pinctrl_apply_state e < 0 -> r = env_pinctrl_apply_state e /\ w' = w) /\
   (0 <= env_pinctrl_apply_state e ->
    sem (rx w') = k_sem_init 0 (CONFIG_I2S_STM32_RX_BLOCK_COUNT bc) /\
    sem (tx w') = k_sem_init (CONFIG_I2S_STM32_TX_BLOCK_COUNT bc)
                    (CONFIG_I2S_STM32_TX_BLOCK_COUNT bc) /\
    (forall channel,
       get_dev_from_rx_dma_channel channel w' = false /\
       get_dev_from_tx_dma_channel channel w' = false) /\
    r = (if negb (env_dma_ready e TX) then - ENODEV
         else if negb (env_dma_ready e RX) then - ENODEV else 0) /\
    (w = world_static bc ->
     0 <= CONFIG_I2S_STM32_RX_BLOCK_COUNT bc < 65535 ->
     0 <= CONFIG_I2S_STM32_TX_BLOCK_COUNT bc < 65535 ->
     flow w'))).
Proof.
  intros r w'. subst r w'. unfold i2s_stm32_initialize. split.
  - intros [->|Hc]; [done|].
    destruct (env_clk_ready e); [|done]. cbn [negb].
    apply Z.eqb_neq in Hc. rewrite Hc. done.
  - intros -> ->. cbn [negb]. change (0 =? 0) with true. cbn [negb]. split.
    + intros Hp. apply Z.ltb_lt in Hp. rewrite Hp. done.
    + intros Hp. rewrite (ltb_nonneg _ Hp).
      assert (Htab : forall channel,
        default false (replicate (Z.to_nat STM32_DMA_NUM_CHANNELS) false
                         !! Z.to_nat channel) = false).
      { intros channel.
        destruct (replicate (Z.to_nat STM32_DMA_NUM_CHANNELS) false
                    !! Z.to_nat channel) as [b|] eqn:El; [|done].
        apply lookup_replicate in El as [-> _]. done. }
      destruct (negb (env_dma_ready e TX)), (negb (env_dma_ready e RX));
        cbn [fst snd]; wcbv; (split_all; [done|done| |done|]).
      all: try (intros channel; unfold get_dev_from_rx_dma_channel,
        get_dev_from_tx_dma_channel; wcbv; rewrite Htab; done).
      all: intros -> Hrx Htx; unfold flow, rx_flow, tx_flow, ring_buf_wf,
        queue_count, world_static, stream_static; wcbv;
        cbn [rb_buf rb_len rb_head rb_tail];
        rewrite !length_replicate; change (0 - 0) with 0; rewrite !Zmod_0_l;
        split_all; lia.
Qed.

Lemma initialize_sets_up_flow_witness :
  let bc := bc_with false false false in
  let e := env_ok None None in
  (i2s_stm32_initialize bc e (world_static bc)).1 = 0 /\
  flow (i2s_stm32_initialize bc e (world_static bc)).2.
Proof.
  intros bc e.
  destruct (initialize_sets_up_flow bc e (world_static bc)) as (_ & H).
  destruct H as (_ & H); [reflexivity|reflexivity|].
  destruct H as (_ & _ & _ & Hr & Hf); [vm_compute; discriminate|].
  split; [exact Hr|].
  apply Hf; [reflexivity|vm_compute; split; [discriminate|reflexivity]..].
Defined.

(** ** Read and write *)

(** X14.  [i2s_stm32_read], on an RX stream whose semaphore counts the
    queued blocks: in NOT_READY and in ERROR it returns [-EIO]; in any
    other state, with an empty queue it returns the negative code of the
    semaphore wait, and otherwise it returns [0] with the oldest queued
    block and its size and removes exactly that entry.  A failed call
    changes nothing; a successful one touches only the RX queue and
    semaphore. *)
Theorem read_returns_oldest_block (w : world) :
  rx_flow (rx w) ->
  (state (rx w) = I2S_STATE_NOT_READY \/ state (rx w) = I2S_STATE_ERROR ->
   i2s_stm32_read w = (- EIO, w, None)) /\
  (state (rx w) <> I2S_STATE_NOT_READY -> state (rx w) <> I2S_STATE_ERROR ->
   (queue_count (mem_block_queue (rx w)) = 0 ->
    exists r, r < 0 /\ i2s_stm32_read w = (r, w, None)) /\
   (queue_count (mem_block_queue (rx w)) <> 0 ->
    exists it w',
      i2s_stm32_read w = (0, w', Some it) /\
      queue_contents (mem_block_queue (rx w)) =
        it :: queue_contents (mem_block_queue (rx w')) /\
      rx_flow (rx w') /\
      state (rx w') = state (rx w) /\
      mem_block (rx w') = mem_block (rx w) /\
      tx w' = tx w /\ regs w' = regs w /\ dma_rx w' = dma_rx w /\
      slab_free_log w' = slab_free_log w)).
Proof.
  intros (Hrw & Hrl & Hrc). unfold i2s_stm32_read, k_sem_take. split.
  - intros [-> | ->]; reflexivity.
  - intros Hn He. split.
    + intros Hc. rewrite Hrc, Hc. change (0 <? 0) with false. cbv iota.
      exists (if timeout (cfg (rx w)) =? 0 then - EBUSY else - EAGAIN).
      unfold EBUSY, EAGAIN.
      destruct (state (rx w)); try done;
        destruct (timeout (cfg (rx w)) =? 0); split; (lia || reflexivity).
    + intros Hc. pose proof (queue_count_range _ Hrw) as Hr.
      destruct (queue_get_nonempty _ Hrw Hc)
        as (it & q' & Hget & Hwf' & Hlen' & Hcont & Hc').
      destruct (Z.ltb_spec 0 (sem_count (sem (rx w)))) as [_|]; [|lia].
      exists it. eexists.
      split.
      { destruct (state (rx w)); try done;
          change (0 <? 0) with false; cbv iota; wcbv; rewrite Hget;
          reflexivity. }
      unfold rx_flow. wcbv. rewrite Hlen', Hc'.
      split_all; try done; lia.
Qed.

Lemma read_returns_oldest_block_witness :
  exists w',
    i2s_stm32_read world_rx_queue_full =
      (0, w', Some {| item_mem_block := 4096; item_size := 192 |}).
Proof.
  destruct (read_returns_oldest_block world_rx_queue_full) as (_ & H).
  - unfold rx_flow, ring_buf_wf. vm_compute. repeat split; congruence.
  - destruct H as (_ & H); [vm_compute; discriminate..|].
    destruct H as (it & w' & Hr & _); [vm_compute; discriminate|].
    exists w'. rewrite Hr. vm_compute in Hr. congruence.
Defined.

(** X15.  [i2s_stm32_write], on a TX stream whose semaphore counts the
    free places of the queue: outside RUNNING and READY it returns
    [-EIO]; with a full queue it returns the negative code of the
    semaphore wait; otherwise it returns [0] and appends the block with
    the size as given (the size is not compared with the configured
    block size) behind the entries already queued.  A failed call
    changes nothing; a successful one touches only the TX queue and
    semaphore, and [queue_put] never fails in it. *)
Theorem write_appends_block (b s : Z) (w : world) :
  tx_flow (tx w) ->
  (state (tx w) <> I2S_STATE_RUNNING -> state (tx w) <> I2S_STATE_READY ->
   i2s_stm32_write b s w = (- EIO, w)) /\
  (state (tx w) = I2S_STATE_RUNNING \/ state (tx w) = I2S_STATE_READY ->
   (queue_count (mem_block_queue (tx w)) = rb_len (mem_block_queue (tx w)) - 1 ->
    exists r, r < 0 /\ i2s_stm32_write b s w = (r, w)) /\
   (queue_count (mem_block_queue (tx w)) <> rb_len (mem_block_queue (tx w)) - 1 ->
    exists w',
      i2s_stm32_write b s w = (0, w') /\
      queue_contents (mem_block_queue (tx w')) =
        queue_contents (mem_block_queue (tx w))
          ++ [ {| item_mem_block := b; item_size := s |} ] /\
      tx_flow (tx w') /\
      state (tx w') = state (tx w) /\
      mem_block (tx w') = mem_block (tx w) /\
      rx w' = rx w /\ regs w' = regs w /\ dma_tx w' = dma_tx w /\
      slab_free_log w' = slab_free_log w)).
Proof.
  intros (Htw & Htl & Htc). unfold i2s_stm32_write, k_sem_take.
  pose proof (queue_count_range _ Htw) as Hr. split.
  - intros Hn He. destruct (state (tx w)); done.
  - intros Hst. split.
    + intros Hc.
      destruct (Z.ltb_spec 0 (sem_count (sem (tx w)))) as [|_]; [lia|].
      exists (if timeout (cfg (tx w)) =? 0 then - EBUSY else - EAGAIN).
      unfold EBUSY, EAGAIN.
      destruct Hst as [-> | ->];
        destruct (timeout (cfg (tx w)) =? 0); split; (lia || reflexivity).
    + intros Hc.
      destruct (queue_put_room _ b s Htw)
        as (q' & Hput & Hwf' & Hlen' & Hcont & Hc'); [lia|].
      destruct (Z.ltb_spec 0 (sem_count (sem (tx w)))) as [_|]; [|lia].
      eexists. split.
      { destruct Hst as [-> | ->];
          change (0 <? 0) with false; cbv iota; wcbv; rewrite Hput;
          reflexivity. }
      unfold tx_flow. wcbv. rewrite Hlen', Hc'.
      split_all; try done; lia.
Qed.

Lemma write_appends_block_witness :
  let bc := bc_with false false false in
  let e := env_ok (Some 4096) (Some 8192) in
  let w := world_after bc
             [(CallInitialize, e); (CallConfigure I2S_DIR_TX (cfg_48k 1024), e)] in
  exists w',
    i2s_stm32_write 12288 64 w = (0, w') /\
    queue_contents (mem_block_queue (tx w')) =
      [ {| item_mem_block := 12288; item_size := 64 |} ].
Proof.
  intros bc e w.
  destruct (write_appends_block 12288 64 w) as (_ & H).
  - unfold tx_flow, ring_buf_wf. vm_compute. repeat split; congruence.
  - destruct H as (_ & H); [right; reflexivity|].
    destruct H as (w' & Hw & Hc & _); [vm_compute; discriminate|].
    exists w'. split; [exact Hw|]. rewrite Hc. reflexivity.
Defined.

(** ** Block accounting of the triggers

    [slab_free_log] has the latest free first. *)

(** X16.  PREPARE on a stream in ERROR returns [0], makes the stream
    READY and empties its queue, handing every queued block back to the
    pool, oldest first; it does not touch the peripheral, the transfer
    engine, the channel tables or the block in flight.  On the TX side
    of a build with [CONFIG_I2S_STM32_TX_UNDERRUN_LAST_REPEAT] it hands
    [last_mem_block] back as well, after the queued blocks. *)
Theorem prepare_recovers_from_error bc (d : sdir) (e : env) (w : world) :
  ring_buf_wf (mem_block_queue (get_stream d w)) ->
  state (get_stream d w) = I2S_STATE_ERROR ->
  exists w',
    i2s_stm32_trigger bc (dir_of d) I2S_TRIGGER_PREPARE e w = (0, w') /\
    state (get_stream d w') = I2S_STATE_READY /\
    queue_count (mem_block_queue (get_stream d w')) = 0 /\
    slab_free_log w' =
      match d with RX => [] | TX => released_last bc (tx w) end
      ++ rev (blocks_of (mem_slab (cfg (get_stream d w)))
                (queue_contents (mem_block_queue (get_stream d w))))
      ++ slab_free_log w /\
    mem_block (get_stream d w') = mem_block (get_stream d w) /\
    regs w' = regs w /\ dma_rx w' = dma_rx w /\ dma_tx w' = dma_tx w /\
    active_dma_rx_channel w' = active_dma_rx_channel w /\
    active_dma_tx_channel w' = active_dma_tx_channel w.
Proof.
  intros Hwf Hst. rewrite trigger_dir_of.
  unfold i2s_stm32_trigger_half_duplex. rewrite Hst.
  destruct (queue_get_all_drains _ Hwf) as (q' & Hall & Hwf' & Hlen' & Hc').
  eexists. split; [reflexivity|].
  explode_bc bc. unfold blocks_of.
  destruct d, b_rep; wexec; unfold dropped; wcbv; wcbv_in Hall; rewrite Hall;
    wcbv; rewrite Hc'; split_all; reflexivity.
Qed.

Lemma prepare_recovers_from_error_witness :
  let w := upd_stream RX (set_state I2S_STATE_ERROR) world_rx_queue_full in
  exists w',
    i2s_stm32_trigger (bc_with false true false) I2S_DIR_RX I2S_TRIGGER_PREPARE
      (env_ok None None) w = (0, w') /\
    slab_free_log w' = [(1024, 4288); (1024, 4096)].
Proof.
  intros w.
  destruct (prepare_recovers_from_error (bc_with false true false) RX
              (env_ok None None) w) as (w' & Ht & _ & _ & Hl & _).
  - unfold ring_buf_wf. vm_compute. repeat split; congruence.
  - reflexivity.
  - exists w'. split; [exact Ht|]. rewrite Hl. reflexivity.
Defined.

(** X17.  STOP, DRAIN and DROP on a RUNNING stream hand back to the pool
    first the block in flight (if any) and then every queued block,
    oldest first.  On the TX side of a build with
    [CONFIG_I2S_STM32_TX_UNDERRUN_LAST_REPEAT] the same [last_mem_block]
    is handed back twice within the one call: once by
    [tx_stream_disable] and once more by [tx_queue_drop]. *)
Theorem stop_hands_back_blocks bc (d : sdir) (cmd : i2s_trigger_cmd) (e : env)
    (w : world) :
  cmd = I2S_TRIGGER_STOP \/ cmd = I2S_TRIGGER_DRAIN \/ cmd = I2S_TRIGGER_DROP ->
  state (get_stream d w) = I2S_STATE_RUNNING ->
  ring_buf_wf (mem_block_queue (get_stream d w)) ->
  exists w',
    i2s_stm32_trigger bc (dir_of d) cmd e w = (0, w') /\
    slab_free_log w' =
      match d with RX => [] | TX => released_last bc (tx w) end
      ++ rev (blocks_of (mem_slab (cfg (get_stream d w)))
                (queue_contents (mem_block_queue (get_stream d w))))
      ++ match d with RX => [] | TX => released_last bc (tx w) end
      ++ released (get_stream d w)
      ++ slab_free_log w /\
    (d = TX -> CONFIG_I2S_STM32_TX_UNDERRUN_LAST_REPEAT bc = true ->
     exists l1 l2,
       slab_free_log w' =
         (mem_slab (cfg (tx w)), last_mem_block (tx w)) :: l1
         ++ (mem_slab (cfg (tx w)), last_mem_block (tx w)) :: l2
         ++ slab_free_log w).
Proof.
  intros Hcmd Hst Hwf. rewrite trigger_dir_of.
  unfold i2s_stm32_trigger_half_duplex, irq_lock. cbv beta iota zeta.
  replace (state (get_stream d (set_irq_locked true w)))
    with I2S_STATE_RUNNING by (destruct d; done).
  rewrite Hst.
  destruct (queue_get_all_drains _ Hwf) as (q' & Hall & Hwf' & Hlen' & Hc').
  explode_bc bc. unfold blocks_of.
  destruct Hcmd as [-> | [-> | ->]]; (eexists; split; [reflexivity|]);
    destruct d, b_h7, b_rep; wexec; unfold dropped; wcbv; wcbv_in Hall;
    rewrite Hall; wcbv; (split; [reflexivity|]); intros; try done;
    eexists _, _; reflexivity.
Qed.

Lemma stop_hands_back_blocks_witness :
  let bc := bc_with false false true in
  let e := env_ok None (Some 8192) in
  let w :=
    world_after bc
      [(CallInitialize, e); (CallConfigure I2S_DIR_TX (cfg_48k 1024), e);
       (CallWrite 12288 192, e); (CallWrite 12480 192, e);
       (CallTrigger I2S_DIR_TX I2S_TRIGGER_START, e)] in
  exists w',
    i2s_stm32_trigger bc I2S_DIR_TX I2S_TRIGGER_STOP e w = (0, w') /\
    slab_free_log w' = [(1024, 8192); (1024, 12480); (1024, 8192); (1024, 12288)].
Proof.
  intros bc e w.
  destruct (stop_hands_back_blocks bc TX I2S_TRIGGER_STOP e w)
    as (w' & Ht & Hl & _).
  - left. reflexivity.
  - reflexivity.
  - unfold ring_buf_wf. vm_compute. repeat split; congruence.
  - exists w'. split; [exact Ht|]. rewrite Hl. reflexivity.
Defined.

(** ** Completion handlers: the normal path and the failed reload *)

(** X18.  RX completion with room in the queue: on a stream that is
    neither in ERROR nor STOPPING, with status [0], a new block from the
    pool and an accepted reload, the handler appends the completed block
    with the configured block size at the end of the queue, gives the
    semaphore once, and arms the transfer engine from the RX data
    register into the new block with the configured block size.  The
    state does not change, nothing is freed, the TX stream and the
    peripheral registers are untouched.  If the queue was empty, the
    next read returns exactly the completed block. *)
Theorem rx_block_received bc (channel blk : Z) (e : env) (w : world) :
  get_dev_from_rx_dma_channel channel w = true ->
  state (rx w) <> I2S_STATE_ERROR ->
  state (rx w) <> I2S_STATE_STOPPING ->
  env_slab_alloc e RX = Some blk ->
  reload_accepted RX e ->
  rx_flow (rx w) ->
  queue_count (mem_block_queue (rx w)) <> rb_len (mem_block_queue (rx w)) - 1 ->
  exists w',
    dma_rx_callback bc channel 0 e w = Some w' /\
    state (rx w') = state (rx w) /\
    mem_block (rx w') = blk /\
    queue_contents (mem_block_queue (rx w')) =
      queue_contents (mem_block_queue (rx w))
        ++ [ {| item_mem_block := mem_block (rx w);
                item_size := block_size (cfg (rx w)) |} ] /\
    rx_flow (rx w') /\
    sem_count (sem (rx w')) = sem_count (sem (rx w)) + 1 /\
    dma_rx w' = {| dma_running := true; dma_src := rx_data_reg bc;
                   dma_dst := AddrMem blk;
                   dma_blk_size := block_size (cfg (rx w)) |} /\
    slab_free_log w' = slab_free_log w /\
    tx w' = tx w /\ regs w' = regs w /\
    (state (rx w) <> I2S_STATE_NOT_READY ->
     queue_count (mem_block_queue (rx w)) = 0 ->
     exists w'',
       i2s_stm32_read w' =
         (0, w'', Some {| item_mem_block := mem_block (rx w);
                          item_size := block_size (cfg (rx w)) |})).
Proof.
  intros Hreg Herr Hstop Halloc Hacc (Hrw & Hrl & Hrc) Hroom.
  pose proof (queue_count_range _ Hrw) as Hr.
  destruct (queue_put_room _ (mem_block (rx w)) (block_size (cfg (rx w))) Hrw)
    as (q' & Hput & Hwf' & Hlen' & Hcont & Hc'); [lia|].
  assert (Hcb : dma_rx_callback bc channel 0 e w =
    Some (upd_stream RX (fun s => set_sem (k_sem_give (sem s)) s)
            (upd_stream RX (set_mem_block_queue q')
               (set_dma RX
                  {| dma_running := true; dma_src := rx_data_reg bc;
                     dma_dst := AddrMem blk;
                     dma_blk_size := block_size (cfg (rx w)) |}
                  (upd_stream RX (set_mem_block blk) w))))).
  { unfold dma_rx_callback. rewrite Hreg. f_equal.
    unfold dma_rx_callback_body. simpl negb. cbv iota. rewrite Halloc.
    assert (Hgo : dma_rx_callback_reloaded bc (mem_block (rx w))
      (reload_dma RX (rx_data_reg bc)
         (AddrMem (mem_block (rx (upd_stream RX (set_mem_block blk) w))))
         (block_size (cfg (rx (upd_stream RX (set_mem_block blk) w)))) e
         (upd_stream RX (set_mem_block blk) w)) = 
      upd_stream RX (fun s => set_sem (k_sem_give (sem s)) s)
        (upd_stream RX (set_mem_block_queue q')
           (set_dma RX
              {| dma_running := true; dma_src := rx_data_reg bc;
                 dma_dst := AddrMem blk;
                 dma_blk_size := block_size (cfg (rx w)) |}
              (upd_stream RX (set_mem_block blk) w)))).
    { rewrite reload_dma_accepted by done. unfold dma_rx_callback_reloaded.
      rewrite (ltb_nonneg _ (proj2 Hacc)). wcbv. rewrite Hput.
      unfold dma_rx_callback_queued. wcbv.
      change (0 =? - ENOMEM) with false. rewrite andb_false_r.
      change (0 <? 0) with false. wcbv.
      destruct (state (rx w)); done. }
    destruct (state (rx w)); try done; exact Hgo. }
  eexists. split; [exact Hcb|].
  unfold rx_flow, i2s_stm32_read, k_sem_take, k_sem_give. wcbv.
  destruct (Z.ltb_spec (sem_count (sem (rx w))) (sem_limit (sem (rx w))));
    [|lia].
  wcbv. rewrite Hlen', Hc'.
  split_all; try done; try lia.
  intros Hnr Hempty.
  destruct (Z.ltb_spec 0 (sem_count (sem (rx w)) + 1)); [|lia].
  assert (Hq : queue_contents q' =
    [ {| item_mem_block := mem_block (rx w);
         item_size := block_size (cfg (rx w)) |} ]).
  { rewrite Hcont, (queue_contents_empty _ Hempty). done. }
  destruct (queue_get_nonempty q' Hwf')
    as (it & q'' & Hget & _ & _ & Hcont' & _); [lia|].
  rewrite Hq in Hcont'. injection Hcont' as <- _.
  eexists.
  destruct (state (rx w)); try done; change (0 <? 0) with false; cbv iota;
    wcbv; rewrite Hget; reflexivity.
Qed.

Lemma rx_block_received_witness :
  let bc := bc_with false false false in
  let e := env_ok (Some 4096) None in
  let w :=
    world_after bc
      [(CallInitialize, e); (CallConfigure I2S_DIR_RX (cfg_48k 1024), e);
       (CallTrigger I2S_DIR_RX I2S_TRIGGER_START, e)] in
  exists w' w'',
    dma_rx_callback bc 3 0 (env_ok (Some 4288) None) w = Some w' /\
    i2s_stm32_read w' =
      (0, w'', Some {| item_mem_block := 4096; item_size := 192 |}).
Proof.
  intros bc e w.
  destruct (rx_block_received bc 3 4288 (env_ok (Some 4288) None) w)
    as (w' & Hcb & _ & _ & _ & _ & _ & _ & _ & _ & _ & Hread).
  - reflexivity.
  - vm_compute. discriminate.
  - vm_compute. discriminate.
  - reflexivity.
  - split; vm_compute; congruence.
  - unfold rx_flow, ring_buf_wf. vm_compute. repeat split; congruence.
  - vm_compute. discriminate.
  - destruct Hread as (w'' & Hr).
    + vm_compute. discriminate.
    + reflexivity.
    + exists w', w''. split; [exact Hcb|exact Hr].
Defined.

(** X19.  TX completion with a block waiting: on a stream not in ERROR
    and with no stop requested, with status [0] and an accepted reload,
    the handler takes the oldest queued block, gives the semaphore once
    and arms the transfer engine from that block into the TX data
    register, with the configured block size as length (not the size
    the block was written with, which is only stored).  The block just
    sent goes back to the pool; under
    [CONFIG_I2S_STM32_TX_UNDERRUN_LAST_REPEAT] it is kept as
    [last_mem_block] instead and the previous [last_mem_block] goes back,
    unless the block just sent was the repeated one.  State, RX stream
    and peripheral registers are untouched. *)
Theorem tx_next_block_sent bc (channel : Z) (e : env) (w : world) :
  get_dev_from_tx_dma_channel channel w = true ->
  state (tx w) <> I2S_STATE_ERROR ->
  last_block (tx w) = false ->
  tx_flow (tx w) ->
  queue_count (mem_block_queue (tx w)) <> 0 ->
  reload_accepted TX e ->
  exists it w',
    dma_tx_callback bc channel 0 e w = Some w' /\
    queue_contents (mem_block_queue (tx w)) =
      it :: queue_contents (mem_block_queue (tx w')) /\
    mem_block (tx w') = item_mem_block it /\
    mem_block_size (tx w') = item_size it /\
    dma_tx w' = {| dma_running := true; dma_src := AddrMem (item_mem_block it);
                   dma_dst := tx_data_reg bc;
                   dma_blk_size := block_size (cfg (tx w)) |} /\
    tx_flow (tx w') /\
    sem_count (sem (tx w')) = sem_count (sem (tx w)) + 1 /\
    state (tx w') = state (tx w) /\
    slab_free_log w' =
      (if CONFIG_I2S_STM32_TX_UNDERRUN_LAST_REPEAT bc
       then if tx_underrun (tx w) then []
            else [(mem_slab (cfg (tx w)), last_mem_block (tx w))]
       else [(mem_slab (cfg (tx w)), mem_block (tx w))])
      ++ slab_free_log w /\
    (CONFIG_I2S_STM32_TX_UNDERRUN_LAST_REPEAT bc = true ->
     tx_underrun (tx w') = false /\
     last_mem_block (tx w') =
       if tx_underrun (tx w) then last_mem_block (tx w) else mem_block (tx w)) /\
    rx w' = rx w /\ regs w' = regs w.
Proof.
  intros Hreg Herr Hlast (Htw & Htl & Htc) Hne Hacc.
  pose proof (queue_count_range _ Htw) as Hr.
  destruct (queue_get_nonempty _ Htw Hne)
    as (it & q' & Hget & Hwf' & Hlen' & Hcont & Hc').
  exists it.
  unfold dma_tx_callback. rewrite Hreg. eexists. split; [reflexivity|].
  unfold dma_tx_callback_body. simpl negb. cbv iota.
  pose proof (tx_block_sent_frame bc w) as Hfr. cbv zeta in Hfr.
  destruct Hfr as (Hs1 & Hl1 & Hq1 & Hsem1 & Hcfg1 & Hrx1 & Hregs1 & Hdt1 & _).
  assert (Hlog1 : slab_free_log (tx_block_sent bc w) =
    (if CONFIG_I2S_STM32_TX_UNDERRUN_LAST_REPEAT bc
     then if tx_underrun (tx w) then []
          else [(mem_slab (cfg (tx w)), last_mem_block (tx w))]
     else [(mem_slab (cfg (tx w)), mem_block (tx w))]) ++ slab_free_log w).
  { explode_bc bc. unfold tx_block_sent.
    destruct b_rep, (tx_underrun (tx w)) eqn:Eu; wcbv; rewrite ?Eu; wcbv; done. }
  assert (Hlm1 : CONFIG_I2S_STM32_TX_UNDERRUN_LAST_REPEAT bc = true ->
    last_mem_block (tx (tx_block_sent bc w)) =
      if tx_underrun (tx w) then last_mem_block (tx w) else mem_block (tx w)).
  { intros Hrep. explode_bc bc. simpl in Hrep. subst b_rep. unfold tx_block_sent.
    destruct (tx_underrun (tx w)) eqn:Eu; wcbv; rewrite ?Eu; wcbv; done. }
  revert Hs1 Hl1 Hq1 Hsem1 Hcfg1 Hrx1 Hregs1 Hdt1 Hlog1 Hlm1.
  generalize (tx_block_sent bc w). intros w1 Hs1 Hl1 Hq1 Hsem1 Hcfg1 Hrx1 Hregs1
    Hdt1 Hlog1 Hlm1.
  assert (Hsent : dma_tx_callback_sent bc e w1 =
    dma_tx_callback_fetched bc (0, q', Some it) e w1).
  { unfold dma_tx_callback_sent. rewrite Hl1, Hlast, Hq1, Hget.
    rewrite Hs1. destruct (state (tx w)); done. }
  rewrite Hsent.
  assert (Hfetched : dma_tx_callback_fetched bc (0, q', Some it) e w1
    = set_dma TX
        {| dma_running := true; dma_src := AddrMem (item_mem_block it);
           dma_dst := tx_data_reg bc; dma_blk_size := block_size (cfg (tx w)) |}
        (upd_stream TX
           (fun s =>
              set_sem (k_sem_give (sem s))
                (set_tx_underrun
                   (if CONFIG_I2S_STM32_TX_UNDERRUN_LAST_REPEAT bc then false
                    else tx_underrun s)
                   (set_mem_block_size (item_size it)
                      (set_mem_block (item_mem_block it)
                         (set_mem_block_queue q' s))))) w1)).
  { unfold dma_tx_callback_fetched. cbn [fst snd].
    change (0 =? - ENOMEM) with false. change (0 =? 0) with true.
    destruct (CONFIG_I2S_STM32_TX_UNDERRUN_LAST_REPEAT bc);
      change (0 <? 0) with false; cbv iota; wcbv;
      rewrite reload_dma_accepted by done;
      unfold dma_tx_callback_reloaded;
      rewrite (ltb_nonneg _ (proj2 Hacc)); wcbv; rewrite Hcfg1; reflexivity. }
  rewrite Hfetched. clear Hfetched Hsent.
  unfold tx_flow, k_sem_give. wcbv. rewrite Hsem1.
  destruct (Z.ltb_spec (sem_count (sem (tx w))) (sem_limit (sem (tx w))));
    [|lia].
  wcbv. rewrite Hlen', Hc', Hs1, Hlog1, Hrx1, Hregs1.
  split_all; try done; try lia.
  intros Hrep. rewrite Hrep. split; [done|]. apply Hlm1, Hrep.
Qed.

Lemma tx_next_block_sent_witness :
  let bc := bc_with false false false in
  let e := env_ok None None in
  let w :=
    world_after bc
      [(CallInitialize, e); (CallConfigure I2S_DIR_TX (cfg_48k 1024), e);
       (CallWrite 12288 192, e); (CallWrite 12480 64, e);
       (CallTrigger I2S_DIR_TX I2S_TRIGGER_START, e)] in
  exists w',
    dma_tx_callback bc 4 0 e w = Some w' /\
    mem_block (tx w') = 12480 /\
    dma_blk_size (dma_tx w') = 192 /\
    slab_free_log w' = [(1024, 12288)].
Proof.
  intros bc e w.
  destruct (tx_next_block_sent bc 4 e w)
    as (it & w' & Hcb & Hq & Hm & _ & Hd & _ & _ & _ & Hl & _).
  - reflexivity.
  - vm_compute. discriminate.
  - reflexivity.
  - unfold tx_flow, ring_buf_wf. vm_compute. repeat split; congruence.
  - vm_compute. discriminate.
  - split; vm_compute; congruence.
  - exists w'. split; [exact Hcb|].
    vm_compute in Hq. injection Hq as <- _.
    split; [exact Hm|]. split; [rewrite Hd; reflexivity|].
    rewrite Hl. reflexivity.
Defined.

Lemma reload_dma_rejected (d : sdir) src dst blk_size (e : env) (w : world) :
  reload_rejected d e ->
  exists ret w1,
    reload_dma d src dst blk_size e w = (ret, w1) /\ (ret <? 0) = true /\
    rx w1 = rx w /\ tx w1 = tx w /\ regs w1 = regs w /\
    slab_free_log w1 = slab_free_log w /\
    active_dma_rx_channel w1 = active_dma_rx_channel w /\
    active_dma_tx_channel w1 = active_dma_tx_channel w.
Proof.
  intros Hrej. unfold reload_dma, dma_reload, dma_start.
  destruct (Z.ltb_spec (env_dma_reload e d) 0) as [Hr|Hr].
  - cbv beta iota zeta. apply Z.ltb_lt in Hr. rewrite Hr.
    eexists _, _. split; [reflexivity|]. done.
  - cbv beta iota zeta. pose proof Hr as Hr'. apply Z.ltb_ge in Hr'. rewrite Hr'.
    destruct Hrej as [|Hs]; [lia|]. apply Z.ltb_lt in Hs. rewrite Hs.
    eexists _, _. split; [reflexivity|]. destruct d; done.
Qed.

Lemma rx_disable_label_half bc (w : world) :
  half_duplex_mode bc w -> rx_disable_label bc w = rx_stream_disable bc RX w.
Proof.
  unfold rx_disable_label, LL_I2S_GetTransferMode.
  intros [-> | ->]; [reflexivity|].
  destruct (CONFIG_I2S_STM32_FULL_DUPLEX bc); reflexivity.
Qed.

Lemma tx_disable_label_half bc (w : world) :
  half_duplex_mode bc w -> tx_disable_label bc w = tx_stream_disable bc TX w.
Proof.
  unfold tx_disable_label, LL_I2S_GetTransferMode.
  intros [-> | ->]; [reflexivity|].
  destruct (CONFIG_I2S_STM32_FULL_DUPLEX bc); reflexivity.
Qed.

(** X20.  RX completion with a rejected reload (peripheral not in a
    full-duplex mode): the handler switches the RX hardware off but
    records no error, the state stays what it was (RUNNING stays
    RUNNING); the block just allocated goes back to the pool, and the
    block that had just been filled is neither queued nor handed back:
    the queue, the semaphore and the rest of the free log are
    unchanged and no block is in flight. *)
Theorem rx_rejected_reload_loses_block bc (channel blk : Z) (e : env)
    (w : world) :
  get_dev_from_rx_dma_channel channel w = true ->
  state (rx w) <> I2S_STATE_ERROR ->
  env_slab_alloc e RX = Some blk ->
  blk <> NULL ->
  reload_rejected RX e ->
  half_duplex_mode bc w ->
  exists w',
    dma_rx_callback bc channel 0 e w = Some w' /\
    state (rx w') = state (rx w) /\
    rx_hw_disabled bc w' = true /\
    mem_block_queue (rx w') = mem_block_queue (rx w) /\
    sem (rx w') = sem (rx w) /\
    slab_free_log w' = (mem_slab (cfg (rx w)), blk) :: slab_free_log w /\
    tx w' = tx w.
Proof.
  intros Hreg Herr Halloc Hblk Hrej Hhalf.
  unfold dma_rx_callback. rewrite Hreg.
  assert (Hbody : exists w1,
    dma_rx_callback_body bc 0 e w = rx_stream_disable bc RX w1 /\
    rx w1 = set_mem_block blk (rx w) /\ tx w1 = tx w /\ regs w1 = regs w /\
    slab_free_log w1 = slab_free_log w /\
    active_dma_rx_channel w1 = active_dma_rx_channel w).
  { unfold dma_rx_callback_body. simpl negb. cbv iota. rewrite Halloc.
    match goal with
    | |- context [reload_dma ?d ?s ?t ?b ?e ?w0] =>
        destruct (reload_dma_rejected d s t b e w0 Hrej)
          as (ret & w1 & Hre & Hneg & Hrx1 & Htx1 & Hregs1 & Hlog1 & Har1 & _)
    end.
    exists w1.
    assert (Hhalf1 : half_duplex_mode bc w1).
    { destruct Hhalf as [H|H]; [left; exact H|right]. rewrite Hregs1. exact H. }
    split.
    - destruct (state (rx w)); try done; rewrite Hre;
        unfold dma_rx_callback_reloaded; rewrite Hneg;
        apply rx_disable_label_half, Hhalf1.
    - done. }
  destruct Hbody as (w1 & Hbody & Hrx1 & Htx1 & Hregs1 & Hlog1 & Har1).
  eexists. split; [reflexivity|]. rewrite Hbody.
  explode_bc bc. destruct b_h7; wobserve; unfold released;
    rewrite ?Hrx1, ?Htx1, ?Hregs1, ?Hlog1, ?Har1; wcbv;
    rewrite ?Hrx1; wcbv;
    apply Z.eqb_neq in Hblk; rewrite Hblk; wcbv; rewrite ?table_cleared;
    split_all; reflexivity.
Qed.

Lemma rx_rejected_reload_loses_block_witness :
  let bc := bc_with false false false in
  let e := env_ok (Some 4096) None in
  let w :=
    world_after bc
      [(CallInitialize, e); (CallConfigure I2S_DIR_RX (cfg_48k 1024), e);
       (CallTrigger I2S_DIR_RX I2S_TRIGGER_START, e)] in
  exists w',
    dma_rx_callback bc 3 0 (env_reload_fails (Some 4288) None) w = Some w' /\
    state (rx w') = I2S_STATE_RUNNING /\
    mem_block (rx w) = 4096 /\
    queue_count (mem_block_queue (rx w')) = 0 /\
    slab_free_log w' = [(1024, 4288)].
Proof.
  intros bc e w.
  destruct (rx_rejected_reload_loses_block bc 3 4288
              (env_reload_fails (Some 4288) None) w)
    as (w' & Hcb & Hs & _ & Hq & _ & Hl & _).
  - reflexivity.
  - vm_compute. discriminate.
  - reflexivity.
  - discriminate.
  - left. reflexivity.
  - left. reflexivity.
  - exists w'. split; [exact Hcb|]. rewrite Hs, Hq, Hl.
    split_all; reflexivity.
Defined.

(** ** START on the RX stream *)

Lemma start_dma_rejected (d : sdir) src dst blk_size (e : env) (w : world) :
  start_rejected d e ->
  exists ret w1,
    start_dma d src dst blk_size e w = (ret, w1) /\ ret < 0 /\
    rx w1 = rx w /\ tx w1 = tx w /\ regs w1 = regs w /\
    slab_free_log w1 = slab_free_log w /\
    active_dma_rx_channel w1 = active_dma_rx_channel w /\
    active_dma_tx_channel w1 = active_dma_tx_channel w /\
    dma_running (get_dma d w1) = dma_running (get_dma d w).
Proof.
  intros Hrej. unfold start_dma, dma_config, dma_start.
  destruct (Z.ltb_spec (env_dma_config e d) 0) as [Hr|Hr].
  - cbv beta iota zeta. pose proof Hr as Hr'. apply Z.ltb_lt in Hr'. rewrite Hr'.
    eexists _, _. split; [reflexivity|]. done.
  - cbv beta iota zeta. pose proof Hr as Hr'. apply Z.ltb_ge in Hr'. rewrite Hr'.
    destruct Hrej as [|Hs]; [lia|]. pose proof Hs as Hs'.
    apply Z.ltb_lt in Hs'. rewrite Hs'.
    eexists _, _. split; [reflexivity|]. destruct d; done.
Qed.

(** X21.  START on a READY RX stream.  Without a block from the pool it
    returns [-ENOMEM] and only clears [mem_block].  With a block and a
    transfer engine that accepts, it returns [0]: the stream is RUNNING,
    the block is in flight from the RX data register with the
    configured block size, the transfer mode is master or slave receive
    by the stream's role, the DMA request, the error interrupts and the
    peripheral are enabled; queue, semaphore, TX stream and pool are
    untouched.  With a block but a transfer engine that rejects, it
    returns the negative code and the stream stays READY, yet the block
    stays allocated in [mem_block] and the transfer mode is already
    set. *)
Theorem rx_start_arms_reception bc (e : env) (w : world) :
  state (rx w) = I2S_STATE_READY ->
  (env_slab_alloc e RX = None ->
   i2s_stm32_trigger bc I2S_DIR_RX I2S_TRIGGER_START e w =
     (- ENOMEM, upd_stream RX (set_mem_block NULL) w)) /\
  (forall blk,
     env_slab_alloc e RX = Some blk ->
     start_accepted RX e ->
     exists w',
       i2s_stm32_trigger bc I2S_DIR_RX I2S_TRIGGER_START e w = (0, w') /\
       state (rx w') = I2S_STATE_RUNNING /\
       last_block (rx w') = false /\
       mem_block (rx w') = blk /\
       dma_rx w' = {| dma_running := true; dma_src := rx_data_reg bc;
                      dma_dst := AddrMem blk;
                      dma_blk_size := block_size (cfg (rx w)) |} /\
       transfer_mode (regs w') =
         (if master (rx w) then LL_I2S_MODE_MASTER_RX else LL_I2S_MODE_SLAVE_RX) /\
       dma_req_rx (regs w') = true /\
       i2s_enabled (regs w') = true /\
       error_interrupts_enabled bc w' = true /\
       (CONFIG_SOC_SERIES_STM32H7X bc = true -> master_transfer (regs w') = true) /\
       active_dma_rx_channel w' =
         <[Z.to_nat (dma_channel (rx w)) := true]> (active_dma_rx_channel w) /\
       mem_block_queue (rx w') = mem_block_queue (rx w) /\
       sem (rx w') = sem (rx w) /\
       tx w' = tx w /\
       slab_free_log w' = slab_free_log w) /\
  (forall blk,
     env_slab_alloc e RX = Some blk ->
     start_rejected RX e ->
     exists r w',
       i2s_stm32_trigger bc I2S_DIR_RX I2S_TRIGGER_START e w = (r, w') /\
       r < 0 /\
       state (rx w') = I2S_STATE_READY /\
       mem_block (rx w') = blk /\
       transfer_mode (regs w') =
         (if master (rx w) then LL_I2S_MODE_MASTER_RX else LL_I2S_MODE_SLAVE_RX) /\
       i2s_enabled (regs w') = i2s_enabled (regs w) /\
       dma_running (dma_rx w') = dma_running (dma_rx w) /\
       slab_free_log w' = slab_free_log w).
Proof.
  intros Hst.
  unfold i2s_stm32_trigger, i2s_stm32_trigger_half_duplex. simpl get_stream.
  rewrite Hst. unfold stream_start, rx_stream_start, rx_stream_start_dma.
  split; [|split].
  - intros ->. rewrite neg_ENOMEM_negative. reflexivity.
  - intros blk -> Hacc. wcbv.
    rewrite start_dma_accepted by done. rewrite (ltb_nonneg _ (proj2 Hacc)).
    change (0 <? 0) with false. cbv iota.
    eexists. split; [reflexivity|].
    explode_bc bc. unfold start_transfer_mode.
    destruct b_h7, (master (rx w)); wobserve; split_all; try done.
  - intros blk -> Hrej. wcbv.
    match goal with
    | |- context [start_dma ?d ?s ?t ?b ?e ?w0] =>
        destruct (start_dma_rejected d s t b e w0 Hrej)
          as (ret & w1 & Hre & Hneg & Hrx1 & Htx1 & Hregs1 & Hlog1 & _ & _ & Hrun)
    end.
    rewrite Hre. pose proof Hneg as Hneg'. apply Z.ltb_lt in Hneg'.
    cbv beta iota zeta. rewrite Hneg'. cbv beta iota zeta. rewrite Hneg'.
    cbv beta iota zeta. rewrite ?Hneg'.
    exists ret, w1. split; [reflexivity|]. split; [exact Hneg|].
    rewrite Hrx1, Hregs1, Hlog1. simpl get_dma in Hrun. rewrite Hrun.
    unfold start_transfer_mode.
    destruct (master (rx w)); wcbv; rewrite ?Hst; done.
Qed.

Lemma rx_start_arms_reception_witness :
  let bc := bc_with false false false in
  let e := env_ok (Some 4096) None in
  let w :=
    world_after bc
      [(CallInitialize, e); (CallConfigure I2S_DIR_RX (cfg_48k 1024), e)] in
  exists w',
    i2s_stm32_trigger bc I2S_DIR_RX I2S_TRIGGER_START e w = (0, w') /\
    state (rx w') = I2S_STATE_RUNNING /\
    dma_rx w' = {| dma_running := true; dma_src := AddrDR;
                   dma_dst := AddrMem 4096; dma_blk_size := 192 |} /\
    transfer_mode (regs w') = LL_I2S_MODE_MASTER_RX.
Proof.
  intros bc e w.
  destruct (rx_start_arms_reception bc e w) as (_ & H & _); [reflexivity|].
  destruct (H 4096) as (w' & Ht & Hs & _ & _ & Hd & Hm & _).
  - reflexivity.
  - split; vm_compute; congruence.
  - exists w'. split; [exact Ht|]. split; [exact Hs|].
    rewrite Hd, Hm. split; reflexivity.
Defined.

(** ** The error interrupt and late completions *)

(** X22.  The error interrupt only marks and counts: it sets the RX
    state to ERROR, whichever stream is in use, and the TX state only
    in a full-duplex mode of a full-duplex build; it clears the overrun
    flag and counts it when it was set (on H7 also the underrun and
    frame-error flags, which it otherwise leaves alone), and counts the
    interrupt, all counters wrapping at 32 bits.  It does not stop
    anything: transfer engine, enable bits, DMA request lines, blocks in
    flight, queues, semaphores, channel tables and pool are as before. *)
Theorem isr_marks_and_counts bc (w : world) :
  let w' := i2s_stm32_isr bc w in
  state (rx w') = I2S_STATE_ERROR /\
  state (tx w') =
    (if CONFIG_I2S_STM32_FULL_DUPLEX bc &&
        is_full_duplex_mode (transfer_mode (regs w))
     then I2S_STATE_ERROR else state (tx w)) /\
  i2s_stm32_irq_count w' = u32 (i2s_stm32_irq_count w + 1) /\
  flag_ovr (regs w') = false /\
  i2s_stm32_irq_ovr_count w' =
    (if flag_ovr (regs w) then u32 (i2s_stm32_irq_ovr_count w + 1)
     else i2s_stm32_irq_ovr_count w) /\
  (if CONFIG_SOC_SERIES_STM32H7X bc then
     flag_udr (regs w') = false /\ flag_fre (regs w') = false /\
     i2s_stm32_irq_udr_count w' =
       (if flag_udr (regs w) then u32 (i2s_stm32_irq_udr_count w + 1)
        else i2s_stm32_irq_udr_count w) /\
     i2s_stm32_irq_fre_count w' =
       (if flag_fre (regs w) then u32 (i2s_stm32_irq_fre_count w + 1)
        else i2s_stm32_irq_fre_count w)
   else
     flag_udr (regs w') = flag_udr (regs w) /\
     flag_fre (regs w') = flag_fre (regs w) /\
     i2s_stm32_irq_udr_count w' = i2s_stm32_irq_udr_count w /\
     i2s_stm32_irq_fre_count w' = i2s_stm32_irq_fre_count w) /\
  dma_rx w' = dma_rx w /\ dma_tx w' = dma_tx w /\
  i2s_enabled (regs w') = i2s_enabled (regs w) /\
  dma_req_rx (regs w') = dma_req_rx (regs w) /\
  dma_req_tx (regs w') = dma_req_tx (regs w) /\
  error_interrupts_enabled bc w' = error_interrupts_enabled bc w /\
  mem_block (rx w') = mem_block (rx w) /\
  mem_block (tx w') = mem_block (tx w) /\
  flow_view w' = flow_view w /\
  active_dma_rx_channel w' = active_dma_rx_channel w /\
  active_dma_tx_channel w' = active_dma_tx_channel w /\
  slab_free_log w' = slab_free_log w.
Proof.
  explode_bc bc.
  destruct w as [rxs txs [md rqrx rqtx ier ifre iovr iudr en mt fovr fudr ffre]
                 fr drx dtx arx atx lg irq n1 n2 n3 n4 pl].
  destruct b_fd, b_h7, md, fovr, fudr, ffre; cbv zeta;
    cbn [CONFIG_SOC_SERIES_STM32H7X]; split_all; reflexivity.
Qed.

(** X23.  A completion interrupt on a channel that is not registered
    finds a null device pointer and dereferences it.  This is the case
    for every channel once [i2s_stm32_initialize] has run, and for a
    stream's own channel once the stream has been disabled, be it by
    [rx_stream_disable], [tx_stream_disable],
    [full_duplex_stream_disable] or by the handlers' own error exit. *)
Theorem completion_after_disable_undefined bc (channel status : Z) (e e' : env)
    (w : world) :
  (0 <= env_pinctrl_apply_state e' ->
   env_clk_ready e' = true -> env_clock_control_on e' = 0 ->
   dma_rx_callback bc channel status e (i2s_stm32_initialize bc e' w).2 = None /\
   dma_tx_callback bc channel status e (i2s_stm32_initialize bc e' w).2 = None) /\
  dma_rx_callback bc (dma_channel (rx w)) status e (stream_disable bc RX w) = None /\
  dma_tx_callback bc (dma_channel (tx w)) status e (stream_disable bc TX w) = None /\
  dma_rx_callback bc (dma_channel (rx w)) status e
    (full_duplex_stream_disable bc w) = None /\
  dma_tx_callback bc (dma_channel (tx w)) status e
    (full_duplex_stream_disable bc w) = None /\
  dma_rx_callback bc (dma_channel (rx w)) status e (rx_disable_label bc w) = None /\
  dma_tx_callback bc (dma_channel (tx w)) status e (tx_disable_label bc w) = None.
Proof.
  split.
  { intros Hp Hclk Hon.
    unfold dma_rx_callback, dma_tx_callback, i2s_stm32_initialize.
    rewrite Hclk, Hon, (ltb_nonneg _ Hp). cbn [negb]. change (0 =? 0) with true.
    cbn [negb].
    assert (Htab : default false
      (replicate (Z.to_nat STM32_DMA_NUM_CHANNELS) false !! Z.to_nat channel)
      = false).
    { destruct (replicate (Z.to_nat STM32_DMA_NUM_CHANNELS) false
                  !! Z.to_nat channel) as [b|] eqn:El; [|done].
      apply lookup_replicate in El as [-> _]. done. }
    destruct (negb (env_dma_ready e' TX)), (negb (env_dma_ready e' RX));
      cbn [snd]; unfold get_dev_from_rx_dma_channel,
        get_dev_from_tx_dma_channel; wcbv; rewrite Htab; done. }
  unfold dma_rx_callback, dma_tx_callback.
  pose proof (rx_disable_label_spec bc w) as Hrx.
  pose proof (tx_disable_label_spec bc w) as Htx.
  cbv zeta in Hrx, Htx.
  destruct Hrx as (Hrx & _). destruct Htx as (Htx & _).
  assert (Hrl : get_dev_from_rx_dma_channel (dma_channel (rx w))
                  (rx_disable_label bc w) = false).
  { revert Hrx. unfold rx_hw_disabled.
    replace (dma_channel (rx (rx_disable_label bc w))) with (dma_channel (rx w)).
    - destruct (get_dev_from_rx_dma_channel _ _); [|done].
      rewrite andb_false_r. done.
    - explode_bc bc. unfold rx_disable_label, LL_I2S_GetTransferMode.
      destruct b_fd, b_h7, b_rep, (transfer_mode (regs w)); wexec; reflexivity. }
  assert (Htl : get_dev_from_tx_dma_channel (dma_channel (tx w))
                  (tx_disable_label bc w) = false).
  { revert Htx. unfold tx_hw_disabled.
    replace (dma_channel (tx (tx_disable_label bc w))) with (dma_channel (tx w)).
    - destruct (get_dev_from_tx_dma_channel _ _); [|done].
      rewrite andb_false_r. done.
    - explode_bc bc. unfold tx_disable_label, LL_I2S_GetTransferMode.
      destruct b_fd, b_h7, b_rep, (transfer_mode (regs w)); wexec; reflexivity. }
  rewrite Hrl, Htl.
  explode_bc bc.
  split_all; try reflexivity; destruct b_h7, b_rep; wobserve; reflexivity.
Qed.

Lemma completion_after_disable_undefined_witness :
  let bc := bc_default in
  let e := env_ok (Some 4096) None in
  dma_rx_callback bc 3 0 e (i2s_stm32_initialize bc e (world_static bc)).2 = None.
Proof.
  intros bc e.
  destruct (completion_after_disable_undefined bc 3 0 e e (world_static bc))
    as (H & _).
  destruct H as (H & _); [discriminate|reflexivity|reflexivity|].
  exact H.
Defined.

(** X24.  Full-duplex START that fails on the TX side: both streams
    READY, the RX side gets its block and its transfer started, and then
    the TX side has nothing to send (empty queue in block mode) or gets
    no underrun block (repeat mode).  The call returns [-ENOMEM] and both
    streams stay READY, but nothing of the RX side is undone: the RX
    transfer engine is running into the new block, the block is not
    handed back, the RX channel is registered and the peripheral is in
    a full-duplex mode; the peripheral itself is not enabled. *)
Theorem full_duplex_start_leaves_rx_armed bc (blk : Z) (e : env) (w : world) :
  CONFIG_I2S_STM32_FULL_DUPLEX bc = true ->
  state (rx w) = I2S_STATE_READY ->
  state (tx w) = I2S_STATE_READY ->
  env_slab_alloc e RX = Some blk ->
  start_accepted RX e ->
  (CONFIG_I2S_STM32_TX_UNDERRUN_LAST_REPEAT bc = false /\
   ring_buf_wf (mem_block_queue (tx w)) /\
   queue_count (mem_block_queue (tx w)) = 0) \/
  (CONFIG_I2S_STM32_TX_UNDERRUN_LAST_REPEAT bc = true /\
   env_slab_alloc e TX = None) ->
  exists w',
    i2s_stm32_trigger bc I2S_DIR_BOTH I2S_TRIGGER_START e w = (- ENOMEM, w') /\
    state (rx w') = I2S_STATE_READY /\
    state (tx w') = I2S_STATE_READY /\
    dma_rx w' = {| dma_running := true; dma_src := rx_data_reg bc;
                   dma_dst := AddrMem blk;
                   dma_blk_size := block_size (cfg (rx w)) |} /\
    mem_block (rx w') = blk /\
    transfer_mode (regs w') =
      (if master (rx w) then LL_I2S_MODE_MASTER_FULL_DUPLEX
       else LL_I2S_MODE_SLAVE_FULL_DUPLEX) /\
    active_dma_rx_channel w' =
      <[Z.to_nat (dma_channel (rx w)) := true]> (active_dma_rx_channel w) /\
    i2s_enabled (regs w') = i2s_enabled (regs w) /\
    dma_req_rx (regs w') = dma_req_rx (regs w) /\
    dma_tx w' = dma_tx w /\
    slab_free_log w' = slab_free_log w.
Proof.
  intros Hfd Hrx Htx Halloc Hacc Htxfail.
  unfold i2s_stm32_trigger. rewrite Hfd.
  unfold i2s_stm32_trigger_full_duplex. rewrite Hrx, Htx. cbn [is_ready negb].
  cbv iota.
  unfold full_duplex_stream_start, rx_stream_start_dma. rewrite Halloc. wcbv.
  rewrite start_dma_accepted by done. rewrite (ltb_nonneg _ (proj2 Hacc)).
  change (0 <? 0) with false. cbv iota.
  unfold tx_stream_start_dma, tx_stream_start_dma_fetch.
  destruct Htxfail as [(Hrep & Hwf & Hempty) | (Hrep & Hnone)]; rewrite Hrep.
  - destruct (master (rx w)); wcbv; rewrite (queue_get_empty _ Hwf Hempty);
      unfold tx_stream_start_dma_fetched; rewrite Hrep; wcbv;
      rewrite !neg_ENOMEM_negative;
      (eexists; split; [reflexivity|]); wcbv; rewrite ?Hrx, ?Htx; done.
  - destruct (master (rx w)); wcbv; rewrite Hnone;
      rewrite !neg_ENOMEM_negative;
      (eexists; split; [reflexivity|]); wcbv; rewrite ?Hrx, ?Htx; done.
Qed.

Lemma full_duplex_start_leaves_rx_armed_witness :
  let bc := bc_with true false false in
  let e := env_ok (Some 4096) None in
  let w :=
    world_after bc
      [(CallInitialize, e); (CallConfigure I2S_DIR_BOTH (cfg_48k 1024), e)] in
  exists w',
    i2s_stm32_trigger bc I2S_DIR_BOTH I2S_TRIGGER_START e w = (- ENOMEM, w') /\
    state (rx w') = I2S_STATE_READY /\
    dma_running (dma_rx w') = true /\
    mem_block (rx w') = 4096 /\
    slab_free_log w' = [].
Proof.
  intros bc e w.
  destruct (full_duplex_start_leaves_rx_armed bc 4096 e w)
    as (w' & Ht & Hs & _ & Hd & Hm & _ & _ & _ & _ & _ & Hl).
  - reflexivity.
  - reflexivity.
  - reflexivity.
  - reflexivity.
  - split; vm_compute; congruence.
  - left. split; [reflexivity|]. split; [|reflexivity].
    unfold ring_buf_wf. vm_compute. repeat split; congruence.
  - exists w'. rewrite Hd, Hl. split_all; done.
Defined.

(** ** The STOPPING state is never entered *)

Lemma ns_of_view (w w' : world) :
  state_view w' = state_view w -> no_stopping w -> no_stopping w'.
Proof.
  unfold state_view, no_stopping. intros [= H1 H2]. rewrite H1, H2. done.
Qed.

Ltac ns_same Hn :=
  refine (ns_of_view _ _ _ Hn); unfold state_view; wexec; reflexivity.

Lemma ns_upd_state (d : sdir) (st : i2s_state) (w : world) :
  st <> I2S_STATE_STOPPING -> no_stopping w ->
  no_stopping (upd_stream d (set_state st) w).
Proof. intros Hst [Hr Ht]. destruct d; split; done. Qed.

Lemma ns_upd_last_block (d : sdir) (b : bool) (w : world) :
  no_stopping w -> no_stopping (upd_stream d (set_last_block b) w).
Proof. intros Hn. destruct d; ns_same Hn. Qed.

Lemma ns_irq (key : bool) (w : world) :
  no_stopping w -> no_stopping (set_irq_locked key w).
Proof. intros Hn. ns_same Hn. Qed.

Lemma stream_disable_ns bc (d : sdir) (w : world) :
  no_stopping w -> no_stopping (stream_disable bc d w).
Proof.
  intros Hn. explode_bc bc. destruct d, b_h7, b_rep; ns_same Hn.
Qed.

Lemma full_duplex_stream_disable_ns bc (w : world) :
  no_stopping w -> no_stopping (full_duplex_stream_disable bc w).
Proof.
  intros Hn. explode_bc bc. destruct b_h7, b_rep; ns_same Hn.
Qed.

Lemma queue_drop_ns bc (d : sdir) (w : world) :
  no_stopping w -> no_stopping (queue_drop bc d w).
Proof.
  intros Hn. explode_bc bc. destruct d, b_rep; ns_same Hn.
Qed.

Lemma full_duplex_queue_drop_ns bc (w : world) :
  no_stopping w -> no_stopping (full_duplex_queue_drop bc w).
Proof. intros Hn. unfold full_duplex_queue_drop. auto using queue_drop_ns. Qed.

Lemma rx_disable_label_ns bc (w : world) :
  no_stopping w -> no_stopping (rx_disable_label bc w).
Proof.
  intros Hn. unfold rx_disable_label.
  pose proof (stream_disable_ns bc RX w Hn) as H1.
  pose proof (full_duplex_stream_disable_ns bc
                (upd_stream TX (set_state I2S_STATE_ERROR) w)
                (ns_upd_state TX I2S_STATE_ERROR w ltac:(done) Hn)) as H2.
  destruct (CONFIG_I2S_STM32_FULL_DUPLEX bc); [|exact H1].
  destruct (is_full_duplex_mode _); [exact H2|exact H1].
Qed.

Lemma tx_disable_label_ns bc (w : world) :
  no_stopping w -> no_stopping (tx_disable_label bc w).
Proof.
  intros Hn. unfold tx_disable_label.
  pose proof (stream_disable_ns bc TX w Hn) as H1.
  pose proof (full_duplex_stream_disable_ns bc
                (upd_stream RX (set_state I2S_STATE_ERROR) w)
                (ns_upd_state RX I2S_STATE_ERROR w ltac:(done) Hn)) as H2.
  destruct (CONFIG_I2S_STM32_FULL_DUPLEX bc); [|exact H1].
  destruct (is_full_duplex_mode _); [exact H2|exact H1].
Qed.

Ltac ns_label :=
  first [apply rx_disable_label_ns | apply tx_disable_label_ns].

Lemma reload_dma_state (d : sdir) src dst blk_size (e : env) (w : world) :
  state_view (reload_dma d src dst blk_size e w).2 = state_view w.
Proof.
  unfold reload_dma, dma_reload, dma_start.
  destruct (env_dma_reload e d <? 0) eqn:E1; cbv beta iota zeta; rewrite ?E1;
    [reflexivity|].
  destruct (env_dma_start e d <? 0); destruct d; reflexivity.
Qed.

Lemma start_dma_state (d : sdir) src dst blk_size (e : env) (w : world) :
  state_view (start_dma d src dst blk_size e w).2 = state_view w.
Proof.
  unfold start_dma, dma_config, dma_start.
  destruct (env_dma_config e d <? 0) eqn:E1; cbv beta iota zeta; rewrite ?E1;
    [reflexivity|].
  destruct (env_dma_start e d <? 0); destruct d; reflexivity.
Qed.

Lemma dma_rx_callback_ns bc (channel status : Z) (e : env) (w w' : world) :
  no_stopping w -> dma_rx_callback bc channel status e w = Some w' ->
  no_stopping w'.
Proof.
  intros Hn. unfold dma_rx_callback.
  destruct (get_dev_from_rx_dma_channel channel w); [|done].
  intros [= <-]. unfold dma_rx_callback_body.
  destruct (negb (status =? 0));
    [ns_label; apply ns_upd_state; done|].
  assert (Hq : forall r mblk w0, no_stopping w0 ->
    no_stopping (dma_rx_callback_queued bc r mblk w0)).
  { intros r mblk w0 Hn0. unfold dma_rx_callback_queued.
    destruct (CONFIG_I2S_STM32_RX_OVERRUN_DROP bc && (r.1 =? - ENOMEM));
      cbv beta iota zeta.
    - change (0 <? 0) with false. cbv iota.
      assert (Hn1 : no_stopping
        (k_mem_slab_free
           (mem_slab (cfg (rx (upd_stream RX (set_mem_block_queue r.2) w0))))
           mblk (upd_stream RX (set_mem_block_queue r.2) w0)))
        by ns_same Hn0.
      destruct (state _); try exact Hn1.
      ns_label. apply ns_upd_state; done.
    - assert (Hn1 : no_stopping (upd_stream RX (set_mem_block_queue r.2) w0))
        by ns_same Hn0.
      destruct (r.1 <? 0); [ns_label; apply ns_upd_state; done|].
      assert (Hn2 : no_stopping
        (upd_stream RX (fun s => set_sem (k_sem_give (sem s)) s)
           (upd_stream RX (set_mem_block_queue r.2) w0))) by ns_same Hn0.
      destruct (state _); try exact Hn2.
      ns_label. apply ns_upd_state; done. }
  assert (Hr : forall mblk p, no_stopping p.2 ->
    no_stopping (dma_rx_callback_reloaded bc mblk p)).
  { intros mblk [ret w2] Hn2. cbn [snd] in Hn2. unfold dma_rx_callback_reloaded.
    destruct (ret <? 0); [ns_label; exact Hn2|apply Hq; exact Hn2]. }
  destruct (state (rx w)); try (destruct (env_slab_alloc e RX);
    [apply Hr; eapply ns_of_view; [apply reload_dma_state|]; ns_same Hn
    |ns_label; apply ns_upd_state; [done|ns_same Hn]]).
  ns_label. exact Hn.
Qed.

Lemma tx_block_sent_ns bc (w : world) :
  no_stopping w -> no_stopping (tx_block_sent bc w).
Proof.
  intros Hn. pose proof (tx_block_sent_frame bc w) as Hfr. cbv zeta in Hfr.
  destruct Hfr as (Hs & _ & _ & _ & _ & Hrx & _).
  destruct Hn as [Hr Ht]. split; [rewrite Hrx|rewrite Hs]; done.
Qed.

Lemma dma_tx_callback_ns bc (channel status : Z) (e : env) (w w' : world) :
  no_stopping w -> dma_tx_callback bc channel status e w = Some w' ->
  no_stopping w'.
Proof.
  intros Hn. unfold dma_tx_callback.
  destruct (get_dev_from_tx_dma_channel channel w); [|done].
  intros [= <-]. unfold dma_tx_callback_body.
  destruct (negb (status =? 0));
    [ns_label; apply ns_upd_state; done|].
  pose proof (tx_block_sent_ns bc w Hn) as Hn1.
  revert Hn1. generalize (tx_block_sent bc w). intros w1 Hn1.
  assert (Hr : forall p, no_stopping p.2 ->
    no_stopping (dma_tx_callback_reloaded bc p)).
  { intros [ret w2] Hn2. cbn [snd] in Hn2. unfold dma_tx_callback_reloaded.
    destruct (ret <? 0); [ns_label; exact Hn2|exact Hn2]. }
  assert (Hf : forall r w0, no_stopping w0 ->
    no_stopping (dma_tx_callback_fetched bc r e w0)).
  { intros [[ret q] oit] w0 Hn0. unfold dma_tx_callback_fetched. cbn [fst snd].
    assert (Hn2 : no_stopping
      (match oit with
       | Some it =>
           upd_stream TX (set_mem_block_size (item_size it))
             (upd_stream TX (set_mem_block (item_mem_block it))
                (upd_stream TX (set_mem_block_queue q) w0))
       | None => upd_stream TX (set_mem_block_queue q) w0
       end)) by (destruct oit; ns_same Hn0).
    revert Hn2. generalize (match oit with
       | Some it =>
           upd_stream TX (set_mem_block_size (item_size it))
             (upd_stream TX (set_mem_block (item_mem_block it))
                (upd_stream TX (set_mem_block_queue q) w0))
       | None => upd_stream TX (set_mem_block_queue q) w0
       end). intros w2 Hn2.
    assert (Hgo : forall ret3 w3, no_stopping w3 ->
      no_stopping
        (if ret3 <? 0
         then
           match state (tx w3) with
           | I2S_STATE_STOPPING =>
               tx_disable_label bc (upd_stream TX (set_state I2S_STATE_READY) w3)
           | _ =>
               tx_disable_label bc (upd_stream TX (set_state I2S_STATE_ERROR) w3)
           end
         else
           dma_tx_callback_reloaded bc
             (reload_dma TX
                (AddrMem
                   (mem_block
                      (tx (if CONFIG_I2S_STM32_TX_UNDERRUN_LAST_REPEAT bc &&
                              tx_underrun (tx w3)
                           then w3
                           else upd_stream TX
                                  (fun s => set_sem (k_sem_give (sem s)) s) w3))))
                (tx_data_reg bc)
                (block_size
                   (cfg
                      (tx (if CONFIG_I2S_STM32_TX_UNDERRUN_LAST_REPEAT bc &&
                              tx_underrun (tx w3)
                           then w3
                           else upd_stream TX
                                  (fun s => set_sem (k_sem_give (sem s)) s) w3))))
                e
                (if CONFIG_I2S_STM32_TX_UNDERRUN_LAST_REPEAT bc &&
                    tx_underrun (tx w3)
                 then w3
                 else upd_stream TX
                        (fun s => set_sem (k_sem_give (sem s)) s) w3)))).
    { intros ret3 w3 Hn3. destruct (ret3 <? 0).
      - destruct (state (tx w3)); ns_label; apply ns_upd_state; done.
      - apply Hr. eapply ns_of_view; [apply reload_dma_state|].
        destruct (CONFIG_I2S_STM32_TX_UNDERRUN_LAST_REPEAT bc &&
                  tx_underrun (tx w3)); [exact Hn3|ns_same Hn3]. }
    destruct (CONFIG_I2S_STM32_TX_UNDERRUN_LAST_REPEAT bc).
    - destruct (ret =? - ENOMEM); [|destruct (ret =? 0)];
        apply Hgo; try exact Hn2; ns_same Hn2.
    - apply Hgo. exact Hn2. }
  unfold dma_tx_callback_sent.
  destruct (state (tx w1)); try (ns_label; exact Hn1);
    (destruct (last_block (tx w1));
     [ns_label; apply ns_upd_state; done|apply Hf; exact Hn1]).
Qed.

Lemma rx_stream_start_dma_state bc (d : sdir) (full_duplex : bool) (e : env)
    (w : world) :
  state_view (rx_stream_start_dma bc d full_duplex e w).2 = state_view w.
Proof.
  unfold rx_stream_start_dma.
  destruct (env_slab_alloc e d) as [blk|];
    [|destruct d; reflexivity].
  match goal with
  | |- context [start_dma ?d ?s ?t ?b ?e ?w0] =>
      pose proof (start_dma_state d s t b e w0) as Hv;
      destruct (start_dma d s t b e w0) as [ret w2]
  end.
  cbn [snd] in Hv.
  destruct (ret <? 0); cbn [snd]; rewrite Hv; destruct d; reflexivity.
Qed.

Lemma tx_stream_start_dma_state bc (d : sdir) (full_duplex : bool) (e : env)
    (w : world) :
  state_view (tx_stream_start_dma bc d full_duplex e w).2 = state_view w.
Proof.
  assert (Hf : forall r w0,
    state_view (tx_stream_start_dma_fetched bc d full_duplex r e w0).2
    = state_view w0).
  { intros [[ret q] oit] w0. unfold tx_stream_start_dma_fetched. cbn [fst snd].
    assert (Hstart : forall s t b w1,
      state_view (let '(ret, w2) := start_dma d s t b e w1 in
                  if ret <? 0 then (ret, w2) else (0, w2)).2 = state_view w1).
    { intros s t b w1. pose proof (start_dma_state d s t b e w1) as Hv.
      destruct (start_dma d s t b e w1) as [ret1 w2]. cbn [snd] in Hv.
      destruct (ret1 <? 0); exact Hv. }
    destruct (CONFIG_I2S_STM32_TX_UNDERRUN_LAST_REPEAT bc), (ret =? - ENOMEM),
      oit; cbv beta iota zeta; cbn [andb];
      try change (0 <? 0) with false; cbv iota;
      try (destruct (ret <? 0); [destruct d; reflexivity|]);
      rewrite Hstart;
      try (destruct (tx_underrun _)); destruct d; reflexivity. }
  unfold tx_stream_start_dma, tx_stream_start_dma_fetch.
  destruct (CONFIG_I2S_STM32_TX_UNDERRUN_LAST_REPEAT bc).
  - destruct (env_slab_alloc e d); [|destruct d; reflexivity].
    rewrite Hf. destruct d; reflexivity.
  - apply Hf.
Qed.

Lemma stream_start_state bc (d : sdir) (e : env) (w : world) :
  state_view (stream_start bc d e w).2 = state_view w.
Proof.
  destruct d; unfold stream_start.
  - unfold rx_stream_start.
    pose proof (rx_stream_start_dma_state bc RX false e w) as Hv.
    destruct (rx_stream_start_dma bc RX false e w) as [ret w1]. cbn [snd] in Hv.
    explode_bc bc. destruct (ret <? 0), b_h7; cbn [snd]; rewrite <- Hv;
      reflexivity.
  - unfold tx_stream_start.
    pose proof (tx_stream_start_dma_state bc TX false e w) as Hv.
    destruct (tx_stream_start_dma bc TX false e w) as [ret w1]. cbn [snd] in Hv.
    explode_bc bc. destruct (ret <? 0), b_h7; cbn [snd]; rewrite <- Hv;
      reflexivity.
Qed.

Lemma full_duplex_stream_start_state bc (e : env) (w : world) :
  state_view (full_duplex_stream_start bc e w).2 = state_view w.
Proof.
  unfold full_duplex_stream_start.
  pose proof (rx_stream_start_dma_state bc RX true e w) as Hv.
  destruct (rx_stream_start_dma bc RX true e w) as [ret w1]. cbn [snd] in Hv.
  destruct (ret <? 0); [exact Hv|].
  pose proof (tx_stream_start_dma_state bc TX true e w1) as Hv2.
  destruct (tx_stream_start_dma bc TX true e w1) as [ret2 w2]. cbn [snd] in Hv2.
  explode_bc bc. destruct (ret2 <? 0), b_h7; cbn [snd]; rewrite <- Hv, <- Hv2;
    reflexivity.
Qed.

Lemma trigger_ns bc (dir : i2s_dir) (cmd : i2s_trigger_cmd) (e : env)
    (w : world) :
  no_stopping w -> no_stopping (i2s_stm32_trigger bc dir cmd e w).2.
Proof.
  intros Hn.
  assert (Hhalf : forall d,
    no_stopping (i2s_stm32_trigger_half_duplex bc d cmd e w).2).
  { intros d. unfold i2s_stm32_trigger_half_duplex, irq_lock, irq_unlock.
    destruct cmd; cbv beta iota zeta.
    - destruct (state (get_stream d w)); try exact Hn.
      pose proof (ns_of_view _ _ (stream_start_state bc d e w) Hn) as Hn1.
      destruct (stream_start bc d e w) as [ret w1]. cbn [snd] in Hn1.
      destruct (ret <? 0); cbn [snd];
        auto using ns_upd_state, ns_upd_last_block.
    - replace (state (get_stream d (set_irq_locked true w)))
        with (state (get_stream d w)) by (destruct d; reflexivity).
      destruct (state (get_stream d w)); cbn [snd];
        auto 10 using ns_upd_state, ns_upd_last_block, ns_irq,
          stream_disable_ns, queue_drop_ns.
    - replace (state (get_stream d (set_irq_locked true w)))
        with (state (get_stream d w)) by (destruct d; reflexivity).
      destruct (state (get_stream d w)); cbn [snd];
        auto 10 using ns_upd_state, ns_upd_last_block, ns_irq,
          stream_disable_ns, queue_drop_ns.
    - destruct (state (get_stream d w)); cbn [snd];
        auto 10 using ns_upd_state, stream_disable_ns, queue_drop_ns.
    - destruct (state (get_stream d w)); cbn [snd];
        auto 10 using ns_upd_state, queue_drop_ns.
    - exact Hn. }
  unfold i2s_stm32_trigger. destruct dir; try apply Hhalf; [|exact Hn].
  destruct (CONFIG_I2S_STM32_FULL_DUPLEX bc); [|exact Hn].
  unfold i2s_stm32_trigger_full_duplex, irq_lock, irq_unlock.
  destruct cmd; cbv beta iota zeta.
  - destruct (negb _); [exact Hn|]. destruct (negb _); [exact Hn|].
    pose proof (ns_of_view _ _ (full_duplex_stream_start_state bc e w) Hn) as Hn1.
    destruct (full_duplex_stream_start bc e w) as [ret w1]. cbn [snd] in Hn1.
    destruct (ret <? 0); cbn [snd];
      auto 10 using ns_upd_state, ns_upd_last_block.
  - destruct (negb _); [cbn [snd]; auto using ns_irq|].
    destruct (negb _); cbn [snd];
      auto 12 using ns_upd_state, ns_upd_last_block, ns_irq,
        full_duplex_stream_disable_ns, full_duplex_queue_drop_ns.
  - destruct (negb _); [cbn [snd]; auto using ns_irq|].
    destruct (negb _); cbn [snd];
      auto 12 using ns_upd_state, ns_upd_last_block, ns_irq,
        full_duplex_stream_disable_ns, full_duplex_queue_drop_ns.
  - destruct (negb _); [exact Hn|]. destruct (negb _); cbn [snd];
      auto 12 using ns_upd_state,
        full_duplex_stream_disable_ns, full_duplex_queue_drop_ns.
  - destruct (negb _); [exact Hn|]. destruct (negb _); cbn [snd];
      auto 12 using ns_upd_state, full_duplex_queue_drop_ns.
  - exact Hn.
Qed.

Lemma configure_stream_ns bc (d : sdir) (i2s_cfg : i2s_config) (w : world) :
  no_stopping w -> no_stopping (i2s_stm32_configure_stream bc d i2s_cfg w).2.
Proof.
  intros Hn. unfold i2s_stm32_configure_stream.
  destruct (state (get_stream d w)); try exact Hn.
  all: destruct (frame_clk_freq i2s_cfg =? 0); cbn [snd].
  all: try (destruct d, (clk_slave bc i2s_cfg); ns_same Hn).
  all: apply ns_upd_state; [done|].
  all: match goal with
       | |- no_stopping (upd_stream ?d (set_cfg ?c) ?w0) =>
           assert (Hq : no_stopping w0);
           [|destruct d; ns_same Hq]
       end.
  all: apply queue_drop_ns; destruct d, (clk_slave bc i2s_cfg); ns_same Hn.
Qed.

Lemma configure_device_ns bc (dir : i2s_dir) (i2s_cfg : i2s_config) (e : env)
    (w : world) (r : Z) (w' : world) :
  no_stopping w ->
  i2s_stm32_configure_device bc dir i2s_cfg e w = Some (r, w') ->
  no_stopping w'.
Proof.
  intros Hn. unfold i2s_stm32_configure_device.
  assert (Hclk : forall b r1 w1,
    i2s_stm32_set_clock bc b e w = Some (r1, w1) -> state_view w1 = state_view w).
  { intros b r1 w1. unfold i2s_stm32_set_clock.
    destruct (CONFIG_I2S_STM32_USE_PLLI2S_ENABLE bc).
    - destruct (plli2s_wait _ _) as [r0 c]. destruct (r0 <? 0).
      + intros [= _ <-]. reflexivity.
      + destruct (div_round_closest _ _); [|done]. intros [= _ <-]. reflexivity.
    - change (0 <? 0) with false. cbv iota.
      destruct (div_round_closest _ _); [|done]. intros [= _ <-]. reflexivity. }
  destruct (i2s_stm32_set_clock _ _ _ _) as [[r1 w1]|] eqn:Eclk; [|done].
  apply Hclk in Eclk. pose proof (ns_of_view _ _ Eclk Hn) as Hn1.
  destruct (r1 <? 0); [intros [= _ <-]; exact Hn1|].
  destruct Hn1 as [Hr1 Ht1].
  destruct (negb (Z.land (options i2s_cfg) (I2S_OPT_IO_SWAP bc) =? 0)),
    (dataformat_of_word_size i2s_cfg), (standard_of_format bc i2s_cfg),
    (Z.land (format i2s_cfg) (I2S_FMT_CLK_FORMAT_MASK bc) =? I2S_FMT_BIT_CLK_INV bc),
    dir; intros [= _ <-]; split; done.
Qed.

Lemma configure_ns bc (dir : i2s_dir) (i2s_cfg : i2s_config) (e : env)
    (w : world) (r : Z) (w' : world) :
  no_stopping w -> i2s_stm32_configure bc dir i2s_cfg e w = Some (r, w') ->
  no_stopping w'.
Proof.
  intros Hn. unfold i2s_stm32_configure.
  pose proof (configure_stream_ns bc RX i2s_cfg w Hn) as Hrx.
  pose proof (configure_stream_ns bc TX i2s_cfg w Hn) as Htx.
  destruct dir.
  - destruct (i2s_stm32_configure_stream bc RX i2s_cfg w) as [r1 w1].
    destruct (negb (r1 =? 0)); [intros [= _ <-]; exact Hrx|].
    apply configure_device_ns. exact Hrx.
  - destruct (i2s_stm32_configure_stream bc TX i2s_cfg w) as [r1 w1].
    destruct (negb (r1 =? 0)); [intros [= _ <-]; exact Htx|].
    apply configure_device_ns. exact Htx.
  - destruct (CONFIG_I2S_STM32_FULL_DUPLEX bc); [|intros [= _ <-]; exact Hn].
    destruct (i2s_stm32_configure_stream bc RX i2s_cfg w) as [r1 w1].
    cbn [snd] in Hrx.
    destruct (negb (r1 =? 0)); [intros [= _ <-]; exact Hrx|].
    pose proof (configure_stream_ns bc TX i2s_cfg w1 Hrx) as Htx1.
    destruct (i2s_stm32_configure_stream bc TX i2s_cfg w1) as [r2 w2].
    destruct (negb (r2 =? 0)); [intros [= _ <-]; exact Htx1|].
    apply configure_device_ns. exact Htx1.
  - intros [= _ <-]. exact Hn.
Qed.

Lemma i2s_stm32_isr_ns bc (w : world) :
  no_stopping w -> no_stopping (i2s_stm32_isr bc w).
Proof.
  unfold no_stopping. explode_bc bc.
  destruct w as [rxs txs [md rqrx rqtx ier ifre iovr iudr en mt fovr fudr ffre]
                 fr drx dtx arx atx lg irq n1 n2 n3 n4 pl].
  intros [Hr Ht].
  destruct b_fd, b_h7, md, fovr, fudr, ffre; split; done.
Qed.

(** X25.  No entry into the driver ever puts a stream into STOPPING: if
    neither stream is STOPPING, then neither is after read, write,
    initialize, any trigger on any direction, configure, the RX and TX
    completion handlers, or the error interrupt: the driver never
    assigns that state, it only tests for it. *)
Theorem stopping_never_entered bc (e : env) (w : world) :
  no_stopping w ->
  no_stopping (i2s_stm32_read w).1.2 /\
  (forall b s, no_stopping (i2s_stm32_write b s w).2) /\
  no_stopping (i2s_stm32_initialize bc e w).2 /\
  (forall dir cmd, no_stopping (i2s_stm32_trigger bc dir cmd e w).2) /\
  (forall dir i2s_cfg r w',
     i2s_stm32_configure bc dir i2s_cfg e w = Some (r, w') -> no_stopping w') /\
  (forall channel status w',
     dma_rx_callback bc channel status e w = Some w' -> no_stopping w') /\
  (forall channel status w',
     dma_tx_callback bc channel status e w = Some w' -> no_stopping w') /\
  no_stopping (i2s_stm32_isr bc w).
Proof.
  intros Hn. split_all.
  - unfold i2s_stm32_read.
    destruct (state (rx w)) eqn:Es; try exact Hn;
      destruct (k_sem_take _ _) as [ret s]; destruct (ret <? 0);
      ns_same Hn.
  - intros b s. unfold i2s_stm32_write.
    destruct (state (tx w)) eqn:Es; try exact Hn;
      destruct (k_sem_take _ _) as [ret s0]; destruct (ret <? 0);
      ns_same Hn.
  - unfold i2s_stm32_initialize.
    destruct (negb (env_clk_ready e)); [exact Hn|].
    destruct (negb (env_clock_control_on e =? 0)); [exact Hn|].
    destruct (env_pinctrl_apply_state e <? 0); [exact Hn|].
    destruct (negb (env_dma_ready e TX)), (negb (env_dma_ready e RX));
      ns_same Hn.
  - intros dir cmd. apply trigger_ns, Hn.
  - intros dir i2s_cfg r w'. apply configure_ns, Hn.
  - intros channel status w'. apply dma_rx_callback_ns, Hn.
  - intros channel status w'. apply dma_tx_callback_ns, Hn.
  - apply i2s_stm32_isr_ns, Hn.
Qed.

Lemma stopping_never_entered_witness :
  let bc := bc_default in
  let e := env_ok (Some 4096) None in
  no_stopping (i2s_stm32_trigger bc I2S_DIR_RX I2S_TRIGGER_DRAIN e
                 (world_static bc)).2.
Proof.
  intros bc e.
  destruct (stopping_never_entered bc e (world_static bc)) as (_ & _ & _ & H & _).
  - split; discriminate.
  - apply H.
Defined.

(** ** Failures inside the completion handlers that leave no trace *)

(** X26.  TX completion with a rejected reload (peripheral not in a
    full-duplex mode): the next block has already been taken from the
    queue when the transfer engine rejects it; the handler then switches
    the TX hardware off but records no error: the state stays what it
    was (RUNNING stays RUNNING, so later writes are still accepted
    although nothing is being sent). *)
Theorem tx_rejected_reload_keeps_state bc (channel : Z) (e : env) (w : world) :
  get_dev_from_tx_dma_channel channel w = true ->
  state (tx w) <> I2S_STATE_ERROR ->
  last_block (tx w) = false ->
  ring_buf_wf (mem_block_queue (tx w)) ->
  queue_count (mem_block_queue (tx w)) <> 0 ->
  reload_rejected TX e ->
  half_duplex_mode bc w ->
  exists it w',
    dma_tx_callback bc channel 0 e w = Some w' /\
    state (tx w') = state (tx w) /\
    tx_hw_disabled bc w' = true /\
    queue_contents (mem_block_queue (tx w)) =
      it :: queue_contents (mem_block_queue (tx w')) /\
    sem (tx w') = k_sem_give (sem (tx w)) /\
    rx w' = rx w.
Proof.
  intros Hreg Herr Hlast Htw Hne Hrej Hhalf.
  destruct (queue_get_nonempty _ Htw Hne)
    as (it & q' & Hget & Hwf' & Hlen' & Hcont & Hc').
  exists it.
  unfold dma_tx_callback. rewrite Hreg. eexists. split; [reflexivity|].
  unfold dma_tx_callback_body. simpl negb. cbv iota.
  pose proof (tx_block_sent_frame bc w) as Hfr. cbv zeta in Hfr.
  destruct Hfr as (Hs1 & Hl1 & Hq1 & Hsem1 & Hcfg1 & Hrx1 & Hregs1 & Hdt1 & _).
  assert (Hch1 : dma_channel (tx (tx_block_sent bc w)) = dma_channel (tx w)).
  { explode_bc bc. unfold tx_block_sent.
    destruct b_rep, (tx_underrun (tx w)) eqn:Eu; wcbv; rewrite ?Eu; wcbv; done. }
  revert Hs1 Hl1 Hq1 Hsem1 Hcfg1 Hrx1 Hregs1 Hdt1 Hch1.
  generalize (tx_block_sent bc w).
  intros w1 Hs1 Hl1 Hq1 Hsem1 Hcfg1 Hrx1 Hregs1 Hdt1 Hch1.
  assert (Hsent : dma_tx_callback_sent bc e w1 =
    dma_tx_callback_fetched bc (0, q', Some it) e w1).
  { unfold dma_tx_callback_sent. rewrite Hl1, Hlast, Hq1, Hget.
    rewrite Hs1. destruct (state (tx w)); done. }
  rewrite Hsent.
  assert (Hfetched : exists w2,
    dma_tx_callback_fetched bc (0, q', Some it) e w1
      = tx_stream_disable bc TX w2 /\
    state (tx w2) = state (tx w1) /\
    mem_block_queue (tx w2) = q' /\
    sem (tx w2) = k_sem_give (sem (tx w1)) /\
    dma_channel (tx w2) = dma_channel (tx w1) /\
    rx w2 = rx w1).
  { unfold dma_tx_callback_fetched. cbn [fst snd].
    change (0 =? - ENOMEM) with false. change (0 =? 0) with true.
    assert (Hgo : forall w3, regs w3 = regs w1 ->
      exists w2,
        dma_tx_callback_reloaded bc
          (reload_dma TX (AddrMem (mem_block (tx w3))) (tx_data_reg bc)
             (block_size (cfg (tx w3))) e w3)
        = tx_stream_disable bc TX w2 /\
        rx w2 = rx w3 /\ tx w2 = tx w3).
    { intros w3 Hr3.
      destruct (reload_dma_rejected TX (AddrMem (mem_block (tx w3)))
                  (tx_data_reg bc) (block_size (cfg (tx w3))) e w3 Hrej)
        as (ret & w2 & Hre & Hneg & Hrx2 & Htx2 & Hregs2 & _).
      exists w2. rewrite Hre. unfold dma_tx_callback_reloaded. rewrite Hneg.
      split; [|done]. apply tx_disable_label_half.
      destruct Hhalf as [H|H]; [left; exact H|right].
      rewrite Hregs2, Hr3, Hregs1. exact H. }
    destruct (CONFIG_I2S_STM32_TX_UNDERRUN_LAST_REPEAT bc);
      change (0 <? 0) with false; cbv iota; wcbv;
      match goal with
      | |- context [reload_dma TX _ _ _ e ?w3] =>
          destruct (Hgo w3 eq_refl) as (w2 & Hd & Hrx2 & Htx2)
      end;
      exists w2; (split; [exact Hd|]); rewrite Hrx2, Htx2; done. }
  destruct Hfetched as (w2 & Hf & Hs2 & Hq2 & Hsem2 & Hch2 & Hrx2).
  rewrite Hf.
  explode_bc bc. destruct b_h7, b_rep; wobserve;
    rewrite ?table_cleared, ?Hs2, ?Hs1, ?Hq2, ?Hsem2, ?Hsem1, ?Hrx2, ?Hrx1;
    split_all; done.
Qed.

Lemma tx_rejected_reload_keeps_state_witness :
  let bc := bc_with false false false in
  let e := env_ok None None in
  let w :=
    world_after bc
      [(CallInitialize, e); (CallConfigure I2S_DIR_TX (cfg_48k 1024), e);
       (CallWrite 12288 192, e); (CallWrite 12480 192, e);
       (CallTrigger I2S_DIR_TX I2S_TRIGGER_START, e)] in
  exists w',
    dma_tx_callback bc 4 0 (env_reload_fails None None) w = Some w' /\
    state (tx w') = I2S_STATE_RUNNING /\
    tx_hw_disabled bc w' = true.
Proof.
  intros bc e w.
  destruct (tx_rejected_reload_keeps_state bc 4 (env_reload_fails None None) w)
    as (it & w' & Hcb & Hs & Hhw & _).
  - reflexivity.
  - vm_compute. discriminate.
  - reflexivity.
  - unfold ring_buf_wf. vm_compute. repeat split; congruence.
  - vm_compute. discriminate.
  - left. reflexivity.
  - left. reflexivity.
  - exists w'. split; [exact Hcb|]. split; [rewrite Hs; reflexivity|exact Hhw].
Defined.

(** X27.  Full-duplex START that succeeds (block mode): both streams
    READY, a block from the pool for RX, a written block waiting for TX
    and a transfer engine that accepts both starts.  The call returns
    [0] with both streams RUNNING; RX is armed from the RX data register
    into the new block, TX from the oldest written block into the TX
    data register, both with their configured block size; the TX
    semaphore is given once; the transfer mode is the full-duplex mode
    of the TX stream's role (set last); both DMA requests, the error
    interrupts and the peripheral are enabled; nothing is freed. *)
Theorem full_duplex_start_runs_both bc (blk : Z) (e : env) (w : world) :
  CONFIG_I2S_STM32_FULL_DUPLEX bc = true ->
  CONFIG_I2S_STM32_TX_UNDERRUN_LAST_REPEAT bc = false ->
  state (rx w) = I2S_STATE_READY ->
  state (tx w) = I2S_STATE_READY ->
  env_slab_alloc e RX = Some blk ->
  start_accepted RX e ->
  start_accepted TX e ->
  ring_buf_wf (mem_block_queue (tx w)) ->
  queue_count (mem_block_queue (tx w)) <> 0 ->
  exists it w',
    i2s_stm32_trigger bc I2S_DIR_BOTH I2S_TRIGGER_START e w = (0, w') /\
    state (rx w') = I2S_STATE_RUNNING /\
    state (tx w') = I2S_STATE_RUNNING /\
    last_block (rx w') = false /\ last_block (tx w') = false /\
    queue_contents (mem_block_queue (tx w)) =
      it :: queue_contents (mem_block_queue (tx w')) /\
    mem_block (rx w') = blk /\
    mem_block (tx w') = item_mem_block it /\
    dma_rx w' = {| dma_running := true; dma_src := rx_data_reg bc;
                   dma_dst := AddrMem blk;
                   dma_blk_size := block_size (cfg (rx w)) |} /\
    dma_tx w' = {| dma_running := true; dma_src := AddrMem (item_mem_block it);
                   dma_dst := tx_data_reg bc;
                   dma_blk_size := block_size (cfg (tx w)) |} /\
    sem (tx w') = k_sem_give (sem (tx w)) /\
    sem (rx w') = sem (rx w) /\
    transfer_mode (regs w') =
      (if master (tx w) then LL_I2S_MODE_MASTER_FULL_DUPLEX
       else LL_I2S_MODE_SLAVE_FULL_DUPLEX) /\
    dma_req_rx (regs w') = true /\ dma_req_tx (regs w') = true /\
    i2s_enabled (regs w') = true /\
    error_interrupts_enabled bc w' = true /\
    slab_free_log w' = slab_free_log w.
Proof.
  intros Hfd Hrep Hrx Htx Halloc Haccr Hacct Hwf Hne.
  destruct (queue_get_nonempty _ Hwf Hne)
    as (it & q' & Hget & Hwf' & Hlen' & Hcont & Hc').
  exists it.
  unfold i2s_stm32_trigger. rewrite Hfd.
  unfold i2s_stm32_trigger_full_duplex. rewrite Hrx, Htx. cbn [is_ready negb].
  cbv iota.
  unfold full_duplex_stream_start, rx_stream_start_dma. rewrite Halloc. wcbv.
  rewrite start_dma_accepted by done. rewrite (ltb_nonneg _ (proj2 Haccr)).
  change (0 <? 0) with false. cbv iota.
  unfold tx_stream_start_dma, tx_stream_start_dma_fetch. rewrite Hrep.
  destruct (master (rx w)) eqn:Emr, (master (tx w)) eqn:Emt; wcbv;
    rewrite Hget; unfold tx_stream_start_dma_fetched; rewrite Hrep; wcbv;
    change (0 <? 0) with false; wcbv; rewrite ?Emt; wcbv;
    rewrite start_dma_accepted by done; rewrite (ltb_nonneg _ (proj2 Hacct));
    change (0 <? 0) with false; cbv iota;
    (eexists; split; [reflexivity|]);
    explode_bc bc; destruct b_h7; wobserve; split_all; done.
Qed.

Lemma full_duplex_start_runs_both_witness :
  exists it w',
    i2s_stm32_trigger (bc_with true false false) I2S_DIR_BOTH I2S_TRIGGER_START
      (env_ok (Some 4096) None)
      (world_after (bc_with true false false)
         [(CallInitialize, env_ok None None);
          (CallConfigure I2S_DIR_BOTH (cfg_48k 1024), env_ok None None);
          (CallWrite 8192 192, env_ok None None)]) = (0, w') /\
    mem_block (tx w') = item_mem_block it /\ item_mem_block it = 8192.
Proof.
  destruct (full_duplex_start_runs_both (bc_with true false false) 4096
              (env_ok (Some 4096) None)
              (world_after (bc_with true false false)
                 [(CallInitialize, env_ok None None);
                  (CallConfigure I2S_DIR_BOTH (cfg_48k 1024), env_ok None None);
                  (CallWrite 8192 192, env_ok None None)]))
    as (it & w' & Ht & _ & _ & _ & _ & Hq & _ & Hm & _).
  - reflexivity.
  - reflexivity.
  - reflexivity.
  - reflexivity.
  - reflexivity.
  - split; vm_compute; congruence.
  - split; vm_compute; congruence.
  - unfold ring_buf_wf. vm_compute. repeat split; congruence.
  - vm_compute. discriminate.
  - exists it, w'. split; [exact Ht|]. split; [exact Hm|].
    vm_compute in Hq. injection Hq as <- _. reflexivity.
Defined.
